(* ===== verification/_CoqProject ===== *)
-Q . S2P
Prelude.v
Float32.v
NdArray.v
Raster.v
Resample.v
Indices.v
ChangeDetection.v
Window.v
Scaler.v
KMeans.v
ClassMap.v
Urban.v
Stats.v
ChangeStats.v
Pipeline.v
Extract.v
SampleData.v
Hoare.v
Workflow.v
Orchestrator.v
GridFS.v
