(* ===== verification/Prelude.v ===== *)
(** * A verified model of the Sentinel-2 land-cover / land-use pipeline

    This development models, in Rocq, the Python scripts under [src/]:
    spectral indices (NDVI, NDBI, the built-up index BUI), band
    alignment, the windowed K-means land-cover classification, change
    detection between two years, the rule-based urban mask, the
    statistics printed by the scripts, the per-year drivers, the
    orchestrator that runs them, the extraction of bands from Sentinel-2
    SAFE products and the sample-data setup script.  Every definition that models code is a
    shallow embedding of the Python it names: NumPy arrays are values of
    [NdArray.ndarray], Python exceptions are the [Err] branch of the
    [res] type defined below, float32 arithmetic is the [Float32] value
    type, and the data directory the scripts read and write is an
    explicit file store threaded through the drivers.

    ** How the program is put together

    [run_all_analyses.py] runs four scripts in order as subprocesses:
    [calculate_ndvi.py] writes one NDVI raster per year;
    [land_cover_classification.py] crops a centred window of four bands,
    standardises and clusters the valid pixels and writes a label map per
    year; [change_detection.py] differences the two NDVI rasters,
    classifies the difference into decrease / increase / no change and,
    when both label maps exist, marks the pixels whose labels differ;
    [urban_extraction.py] resamples the SWIR band onto the NIR grid,
    computes NDVI, NDBI and BUI and derives a four-class urban mask.  The
    scripts communicate only through the files they write, so the model
    composes pure core functions inside drivers over a file store.
    Before them, [extract_sentinel_bands.py] copies the five bands of each
    year out of a [.SAFE] product, or [download_sample_data.py] writes
    random sample bands; both write into the same store.

    ** Files, in dependency order

    - [Prelude] (this file): [res] and its bind notation in [lulc_scope],
      the error constructors of [exn], the [Dflt] class, [zipWith],
      row-major index arithmetic, floor division by two, the [lulc] hint
      databases and the [inv_res] tactic.
    - [Float32]: a float32 element is [Num q] or [NaN]; every operation
      is exact rational arithmetic followed by the rounding of the class
      [Rounding] (monotone, odd, exact on 24-bit integers), IEEE
      comparisons with NaN, [Proper] instances for [feqv].
    - [NdArray]: shape and row-major buffer, NumPy broadcasting
      ([bzip]), [amap], [np.where] ([where_s]), [zeros_like] and boolean
      mask assignment ([mask_assign]).
    - [Raster]: dtypes, the rasterio profile (dtype, count, shape,
      nodata, affine transform, CRS), [profile.update] ([set_output]),
      the write with rasterio's shape check, [astype(np.float32)].
    - [Resample]: [resample_to_match] (urban_extraction.py 22-33) as
      bilinear interpolation with GDAL's rounding to the source dtype,
      behind the interface class [Resampler].
    - [Indices]: [calculate_ndvi] (calculate_ndvi.py 13-39) and
      [calculate_built_up_index] (urban_extraction.py 35-69).
    - [ChangeDetection]: [calculate_ndvi_difference], [classify_changes],
      [compare_classifications] (change_detection.py 16-87).
    - [Window]: [prepare_classification_data]
      (land_cover_classification.py 17-57): the centred window, windowed
      reads, [np.stack], the pixel vectors and the validity filter.
    - [Scaler]: scikit-learn's [StandardScaler] with the square root as
      the class [Sqrt].
    - [KMeans]: scikit-learn's [KMeans.fit] and [fit_predict]: Lloyd
      iterations with strict and tolerance convergence, the final E-step,
      [n_init] runs keeping the lowest inertia; the model is its labels
      and its [cluster_centers_].
    - [ClassMap]: [perform_classification], [create_classification_map]
      and one year of the classification [main]; the k-means++ seeding
      is the class [Seeding].
    - [Urban]: [extract_urban_areas] and [save_urban_areas].
    - [Stats]: [np.unique] with counts, the per-class reports,
      [calculate_urban_statistics], the classification-change summary of
      [calculate_change_statistics] and the land-cover distribution.
    - [ChangeStats]: the whole [calculate_change_statistics]
      (change_detection.py 127-159): NumPy's min, max, mean and std of
      the difference and the labelled change classification.
    - [Pipeline]: the four [main] functions, the plot functions (their
      saved PNG) and the analysis loop of [run_all_analyses.main] over a
      file store, in a state-and-error monad [M] (a file written before
      an exception stays written).  Each script first runs its imports
      ([python_script]); a [dst.write] that raises leaves the blank
      dataset [rasterio.open] created ([created]).  The printed statistics are steps
      where they can raise: [np.min] and [np.max] of each year's NDVI
      and [calculate_change_statistics] raise on an empty array, which
      a valid raster never is.
    - [Extract]: [extract_sentinel_bands.py]: folder listing and
      [Path.glob] over the store, [extract_bands_from_safe] (lines 13-80)
      band by band, and [main] over the years.
    - [SampleData]: [download_sample_data.py]: the ROI download with the
      network answer as a parameter, the random bands behind the
      interface class [RandomSource], [from_bounds] and the eight writes,
      and [main].
    - [Hoare]: a Hoare logic for [M] (triples [{{ P }} m {{ Q }}] in
      [hoare_scope], rules for bind, reads, writes, aborted writes,
      imports and loops, the [hoare] tactic), used for the frame
      conditions [writes_only]: each script writes only its own
      outputs.
    - [Workflow]: scripts run one after another on one data directory
      ([session] of [run_process]): the setup script followed by the
      orchestrator, and the frame of the orchestrator read on such runs.
    - [Orchestrator]: [run_all_analyses.py] whole: [check_dependencies]
      (the import answer a parameter), [check_data_files] over the store,
      [main] with the environment's imports and its summary.
    - [GridFS]: [upload_file] and [download_file] of urban_extraction.py
      over a world of the data directory and a blob store behind the
      interface [BlobStore] with its laws; GridFS is an instance; [step]
      and [reachable] are the runs of the whole system.

    ** What is proved

    - Indices: for non-negative bands every NDVI/NDBI value is in
      [[-1, 1]] and BUI in [[-2, 2]], away from the nodata -9999; zero
      sums give 0; NaN inputs give NaN; the functions succeed on bands of
      one shape and write what they return; a one-row red band against
      a taller NIR band makes the write raise.
    - Alignment: constants stay constant and a band resampled onto its
      own shape is returned bit for bit; the index calculator is proved
      against the [Resampler] interface only.
    - Change detection: the three classes are characterised by the sign
      and size of the difference; the boundary [diff = +-t] is
      no-change; the comparison is the pointwise inequality, symmetric,
      and written with nodata 0, the value of unchanged pixels.
    - Classification: the window lies inside the raster; the classifier
      receives only NaN-free, non-zero vectors; scaled columns have
      variance 1; every k-means label is in range and names a nearest
      centre among the fitted model's own centres; the returned inertia
      is at most the objective of the first seeds; the label map
      round-trips through the validity mask and its zeros are exactly
      the invalid pixels.
    - Urban mask and statistics: the four rules are disjoint and each
      class is characterised by its rule; [np.unique] returns sorted
      distinct values with their counts; the per-class report refines its
      contract; the change report prints [Class 0] exactly when the
      difference has a NaN pixel.
    - Drivers and orchestrator: a missing ROI fails the NDVI script
      after its outputs exist; one to four valid pixels stop the
      classification before 2025; the broadcast NDVI write stops the NDVI
      script on 2021 leaving a blank file; the orchestrator, in any
      environment, writes only the analyses' outputs; the dependency
      check passes without [pymongo], and the urban extraction then
      fails at import writing nothing; the data check answers [True]
      exactly when the year folders, their required bands and a
      shapefile exist.
    - Whole programs ([Workflow], [Extract]): the year's extraction leaves
      the five bands where the analyses open them and the NDVI script
      computes the NDVI of the extracted B04 and B08; a product without
      its 20 m folder is reported extracted; on the sample data the
      change map is "no change" everywhere, and the sample transform
      lies at longitude 23-23.5, latitude 77-77.5.
    - Archive: a fresh upload downloads back unchanged, for any blob
      store with the laws; with GridFS a re-upload leaves the first
      version the one downloaded, and along any run of the system a
      name's first upload is what every later download writes.

    ** Bounds and fuel

    The only recursion that is not structural on data is Lloyd's loop;
    its fuel is the code's own iteration cap [max_iter = 300], so the
    model stops where scikit-learn stops and the theorems hold for every
    exit of the loop (whether it converged or exhausted the budget).  The store is a list with the most recent write first, so
    every loop over it is structural.  uint8 casts are written as [mod 256]; float64
    arithmetic of scikit-learn and of the statistics is exact rational
    arithmetic ([0 / 0] is NaN where NumPy gives NaN).

    ** Not modelled

    The content of the figures (matplotlib drawing, only displayed; the
    saved PNG is modelled), printing and [mkdir] (folders are implicit in
    the store); the network, NumPy's generator and the installed
    packages (parameters and interfaces); the imports of
    [extract_sentinel_bands.py] and [download_sample_data.py], which
    [Workflow] runs directly; the blank file an aborted write leaves in
    [extract_sentinel_bands.py], where the array read from a dataset
    always has its shape; the MongoDB server behind GridFS (its
    natural order is taken as insertion order); the k-means++ random seeding
    (an interface) and scikit-learn's relocation of empty clusters (an
    empty cluster keeps its centre); GDAL's wider kernel when
    downsampling; infinities and signed zeros (the one division by zero
    is masked by [np.where]).

    ** Findings

    NaN inputs propagate into NDVI; bands of different shapes are
    broadcast instead of rejected; transition and urban rasters declare
    as nodata the value 0 of a valid class; the windowed classification
    keeps the full raster's transform; an odd window size loses a pixel;
    a year with 1 to 4 valid pixels aborts the classification of the
    following year; a missing ROI shapefile fails the NDVI script after
    its outputs are written; a red band with fewer rows than the NIR band
    crashes the NDVI write after the file was created; the dependency
    check omits [pymongo], which the urban script imports; the class distribution is relative to the
    valid pixels only; labels wrap to 0 with 256 clusters; the extraction
    reports success without the SWIR band and takes the first granule in
    unspecified glob order; the sample bounds swap latitude and longitude
    (the raster is not at Bhopal); the setup script always raises; the
    sample data has the same scene for both years; the data check accepts
    any shapefile while the NDVI script opens one by name, and its answer
    is unused; re-uploading to GridFS keeps the stale version for
    download; NaN differences print as a [Class 0] change line. *)

From Stdlib Require Import List Lia Arith ZArith Bool.
Import ListNotations.

Declare Scope lulc_scope.
Delimit Scope lulc_scope with lulc.
Open Scope lulc_scope.

(** ** Exceptions raised by the modelled code *)

(** The Python exceptions that the modelled functions can raise.  Each
    constructor names the condition in the code that raises it. *)
Inductive exn : Type :=
  | BroadcastError          (** NumPy: operands could not be broadcast together *)
  | BooleanIndexError       (** NumPy: boolean index shape differs from the array *)
  | StackShapeError         (** [np.stack]: all input arrays must have the same shape *)
  | EmptyInput              (** scikit-learn: found array with 0 sample(s) *)
  | InputContainsNaN        (** scikit-learn: input X contains NaN *)
  | TooFewSamples           (** sklearn: n_samples < n_clusters *)
  | WriteShapeError         (** rasterio: array shape differs from the dataset's *)
  | WindowError             (** rasterio: read window outside the dataset or negative *)
  | ListIndexError          (** Python: list index out of range *)
  | AssignSizeError         (** NumPy: boolean assignment with a wrong number of values *)
  | FileMissing             (** [rasterio.open] or [gpd.read_file] of a path that does not exist *)
  | ClosedDataset           (** rasterio: reading a dataset after its [with] block closed it *)
  | ImportError             (** Python: a module imported at the top of a script is not installed *)
  | EmptyReduction.         (** NumPy: zero-size array to a reduction operation with no identity *)

Inductive res (A : Type) : Type :=
  | Ok (a : A)
  | Err (e : exn).
Arguments Ok {A} a.
Arguments Err {A} e.

Definition res_bind {A B : Type} (r : res A) (k : A -> res B) : res B :=
  match r with
  | Ok a => k a
  | Err e => Err e
  end.

Notation "x <- c ;; k" := (res_bind c (fun x => k))
  (at level 61, c at next level, right associativity) : lulc_scope.

Lemma res_bind_ok {A B} (a : A) (k : A -> res B) : res_bind (Ok a) k = k a.
Proof. reflexivity. Qed.

Lemma res_bind_err {A B} (e : exn) (k : A -> res B) : res_bind (Err e) k = Err e.
Proof. reflexivity. Qed.

Lemma Ok_inj {A} (a b : A) : Ok a = Ok b -> a = b.
Proof. intros E; injection E; auto. Qed.

Lemma res_bind_inv {A B} (r : res A) (k : A -> res B) (b : B) :
  res_bind r k = Ok b -> exists a, r = Ok a /\ k a = Ok b.
Proof. destruct r; simpl; [eauto | discriminate]. Qed.

(** ** Default elements *)

(** A default element, used as the fallback of [nth] when an array is
    read at an index that the shape invariant rules out. *)
Class Dflt (A : Type) := dflt : A.
#[export] Instance Dflt_Z : Dflt Z := 0%Z.
#[export] Instance Dflt_nat : Dflt nat := 0.
#[export] Instance Dflt_bool : Dflt bool := false.

(** ** Lists combined pointwise *)

Fixpoint zipWith {A B C : Type} (f : A -> B -> C) (l1 : list A) (l2 : list B)
  : list C :=
  match l1, l2 with
  | x :: t1, y :: t2 => f x y :: zipWith f t1 t2
  | _, _ => []
  end.

Lemma length_zipWith {A B C} (f : A -> B -> C) l1 l2 :
  length (zipWith f l1 l2) = Nat.min (length l1) (length l2).
Proof. revert l2; induction l1; destruct l2; simpl; auto. Qed.

Lemma nth_zipWith {A B C} (f : A -> B -> C) l1 l2 n da db dc :
  n < length l1 -> n < length l2 ->
  nth n (zipWith f l1 l2) dc = f (nth n l1 da) (nth n l2 db).
Proof.
  revert l2 n; induction l1 as [|x t IH]; destruct l2, n; simpl; intros; try lia; auto.
  apply IH; lia.
Qed.

Lemma zipWith_map_map {A B C D E} (f : A -> B -> C) (g : D -> A) (h : E -> B) l1 l2 :
  zipWith f (map g l1) (map h l2) = zipWith (fun x y => f (g x) (h y)) l1 l2.
Proof. revert l2; induction l1; destruct l2; simpl; f_equal; auto. Qed.

Lemma zipWith_comm {A B} (f : A -> A -> B) l1 l2 :
  (forall x y, f x y = f y x) -> zipWith f l1 l2 = zipWith f l2 l1.
Proof. intros Hc; revert l2; induction l1; destruct l2; simpl; f_equal; auto. Qed.

Lemma In_zipWith {A B C} (f : A -> B -> C) l1 l2 z :
  In z (zipWith f l1 l2) -> exists x y, In x l1 /\ In y l2 /\ z = f x y.
Proof.
  revert l2; induction l1 as [|x t IH]; destruct l2 as [|y l2]; simpl; try tauto.
  intros [<- | H]; [exists x, y; auto |].
  destruct (IH _ H) as (a & b & ? & ? & ?); exists a, b; auto.
Qed.

Lemma nth_map_seq {A} (f : nat -> A) n k d : k < n -> nth k (map f (seq 0 n)) d = f k.
Proof.
  intros Hk. rewrite (nth_indep _ d (f 0)) by (rewrite length_map, length_seq; exact Hk).
  rewrite map_nth, seq_nth by exact Hk. reflexivity.
Qed.

(** [Forall2_impl] where the implication may use the membership of the
    left element. *)
Lemma Forall2_impl_in {A B} (P Q : A -> B -> Prop) l1 l2 :
  (forall a b, In a l1 -> P a b -> Q a b) -> Forall2 P l1 l2 -> Forall2 Q l1 l2.
Proof.
  intros H HP. induction HP as [| a b l1 l2 Hab _ IH]; constructor.
  - apply H; [left |]; auto.
  - apply IH. intros; apply H; [right |]; auto.
Qed.

(** ** Index arithmetic of row-major buffers *)

Lemma row_major_index (i j w : nat) : j < w -> (i * w + j) / w = i /\ (i * w + j) mod w = j.
Proof.
  intros Hj. split.
  - rewrite Nat.div_add_l by lia. rewrite Nat.div_small by lia. lia.
  - rewrite Nat.add_comm, Nat.Div0.mod_add. apply Nat.mod_small; lia.
Qed.

Lemma row_major_bound (k h w : nat) : k < h * w -> k / w < h /\ k mod w < w.
Proof.
  intros Hk. assert (w <> 0) by (intros ->; lia).
  split; [apply Nat.Div0.div_lt_upper_bound; lia | apply Nat.mod_upper_bound; auto].
Qed.

(** ** Python floor division by two *)

Lemma Z_half_bounds (n : Z) : (0 <= n)%Z -> (0 <= n / 2 /\ 2 * (n / 2) <= n <= 2 * (n / 2) + 1)%Z.
Proof.
  intros Hn. pose proof (Z.div_mod n 2 ltac:(lia)). pose proof (Z.mod_pos_bound n 2 ltac:(lia)).
  split; [apply Z.div_pos |]; lia.
Qed.

Lemma Z_half_mod (n : Z) : (2 * (n / 2) = n - n mod 2)%Z.
Proof. pose proof (Z.div_mod n 2 ltac:(lia)). lia. Qed.

(** ** Automation shared by the development *)

Create HintDb lulc.
Create Rewrite HintDb lulc_rw.
#[export] Hint Resolve res_bind_ok res_bind_err : lulc.
#[export] Hint Rewrite @res_bind_ok @res_bind_err @length_zipWith : lulc_rw.

(** [inv_res] turns a successful bind in a hypothesis into its parts. *)
Ltac inv_res :=
  repeat match goal with
  | H : res_bind ?r _ = Ok _ |- _ =>
      let a := fresh "a" in let Ha := fresh "Ha" in let Hk := fresh "Hk" in
      apply res_bind_inv in H; destruct H as (a & Ha & Hk)
  | H : Ok _ = Ok _ |- _ => injection H as H
  end.
