(* ===== verification/Float32.v ===== *)
(** * Float32: the elements of NumPy float32 arrays

    A float32 array element is either a finite number or NaN.  Finite
    numbers are rationals; every arithmetic operation of the code is the
    exact rational operation followed by a rounding [rnd] taken from the
    class [Rounding].  The laws of the class (monotone, odd, exact on the
    integers of at most 24 bits, compatible with [Qeq]) hold for IEEE-754 round-to-nearest-even at
    single precision (below the overflow threshold), so every theorem proved here for an arbitrary
    [Rounding] holds for the float32 arithmetic of the code; the instance
    [exact_rounding] ([Qred], no loss) makes the definitions compute.

    Comparisons follow IEEE-754 as NumPy exposes them: every ordered
    comparison with NaN is false and [x != y] is true when either side is
    NaN.  Python float literals compared with a float32 array are
    converted to float32 first (NumPy's casting of Python scalars), which
    is [fconst]. *)

From Stdlib Require Import QArith Qreduction Lqa Morphisms RelationClasses ZArith.
From S2P Require Import Prelude.

Open Scope Q_scope.

Inductive f32 : Type :=
  | Num (q : Q)
  | NaN.

#[export] Instance Dflt_f32 : Dflt f32 := NaN.

(** A rounding function of a floating-point format. *)
Class Rounding := {
  rnd : Q -> Q;
  rnd_compat : Proper (Qeq ==> Qeq) rnd;
  rnd_mono : forall x y, x <= y -> rnd x <= rnd y;
  rnd_opp : forall x, rnd (- x) == - rnd x;
  (** integers of at most 24 significant bits are float32 numbers *)
  rnd_int : forall z : Z, (Z.abs z <= 16777216)%Z -> rnd (inject_Z z) == inject_Z z
}.
#[export] Existing Instance rnd_compat.

(** Exact arithmetic: the reduced fraction of the exact result. *)
Lemma Qred_compat : Proper (Qeq ==> Qeq) Qred.
Proof. intros ? ? Hxy. rewrite !Qred_correct. exact Hxy. Qed.

Lemma Qred_mono x y : x <= y -> Qred x <= Qred y.
Proof. rewrite !Qred_correct. auto. Qed.

Lemma Qred_opp x : Qred (- x) == - Qred x.
Proof. rewrite !Qred_correct. reflexivity. Qed.

Lemma Qred_int (z : Z) : (Z.abs z <= 16777216)%Z -> Qred (inject_Z z) == inject_Z z.
Proof. intros _. apply Qred_correct. Qed.

#[export] Instance exact_rounding : Rounding :=
  {| rnd := Qred; rnd_compat := Qred_compat; rnd_mono := Qred_mono;
     rnd_opp := Qred_opp; rnd_int := Qred_int |}.

(** Boolean order on [Q]. *)
Definition Qltb (a b : Q) : bool := negb (Qle_bool b a).

Lemma Qltb_iff a b : Qltb a b = true <-> a < b.
Proof.
  unfold Qltb. rewrite negb_true_iff.
  destruct (Qle_bool b a) eqn:E.
  - apply Qle_bool_iff in E. split; [discriminate | intros; lra].
  - split; [intros _ | reflexivity].
    destruct (Qlt_le_dec a b) as [|Hle]; [assumption |].
    apply Qle_bool_iff in Hle. congruence.
Qed.

Lemma Qltb_false a b : Qltb a b = false <-> b <= a.
Proof.
  unfold Qltb. rewrite negb_false_iff. apply Qle_bool_iff.
Qed.

Lemma Qle_bool_false a b : Qle_bool a b = false <-> b < a.
Proof.
  rewrite <- (Qltb_iff b a). unfold Qltb. destruct (Qle_bool a b); simpl; split; congruence.
Qed.

#[export] Instance Qle_bool_proper : Proper (Qeq ==> Qeq ==> eq) Qle_bool.
Proof.
  intros a a' Ha b b' Hb. destruct (Qle_bool a b) eqn:E1, (Qle_bool a' b') eqn:E2; auto.
  - apply Qle_bool_iff in E1. apply Qle_bool_false in E2. rewrite Ha, Hb in E1. exfalso. lra.
  - apply Qle_bool_false in E1. apply Qle_bool_iff in E2. rewrite Ha, Hb in E1. exfalso. lra.
Qed.

#[export] Instance Qltb_proper : Proper (Qeq ==> Qeq ==> eq) Qltb.
Proof. intros a a' Ha b b' Hb. unfold Qltb. rewrite Ha, Hb. reflexivity. Qed.

(** Turns the boolean comparisons of hypotheses into propositions. *)
Ltac qbool :=
  repeat match goal with
  | H : Qle_bool _ _ = true |- _ => apply Qle_bool_iff in H
  | H : Qle_bool _ _ = false |- _ => apply Qle_bool_false in H
  | H : Qltb _ _ = true |- _ => apply Qltb_iff in H
  | H : Qltb _ _ = false |- _ => apply Qltb_false in H
  | H : Qeq_bool _ _ = true |- _ => apply Qeq_bool_iff in H
  | H : Qeq_bool _ _ = false |- _ => apply Qeq_bool_neq in H
  end.

Section Ops.
Context {R : Rounding}.

Lemma rnd_0 : rnd 0 == 0.
Proof. pose proof (rnd_opp 0) as H. rewrite (rnd_compat (-0) 0) in H by reflexivity. lra. Qed.

Lemma rnd_nonneg x : 0 <= x -> 0 <= rnd x.
Proof. intros H. rewrite <- rnd_0. apply rnd_mono; exact H. Qed.

Lemma rnd_nonpos x : x <= 0 -> rnd x <= 0.
Proof. intros H. rewrite <- rnd_0. apply rnd_mono; exact H. Qed.

(** A value in [[-c, c]] rounds into [[-rnd c, rnd c]]. *)
Lemma rnd_sym_bound x c : - c <= x <= c -> - rnd c <= rnd x <= rnd c.
Proof.
  intros [H1 H2]. rewrite <- rnd_opp. split; apply rnd_mono; assumption.
Qed.

Lemma rnd_one : rnd 1 == 1.
Proof. apply (rnd_int 1%Z). discriminate. Qed.

Lemma rnd_two : rnd 2 == 2.
Proof. apply (rnd_int 2%Z). discriminate. Qed.

(** An interval [[-c, c]] with a representable [c] is closed under rounding. *)
Lemma rnd_within x c : rnd c == c -> - c <= x <= c -> - c <= rnd x <= c.
Proof. intros Hc H. pose proof (rnd_sym_bound x c H) as H'. rewrite Hc in H'. exact H'. Qed.

(** Python/NumPy float32 arithmetic. *)
Definition lift2 (op : Q -> Q -> Q) (x y : f32) : f32 :=
  match x, y with
  | Num a, Num b => Num (rnd (op a b))
  | _, _ => NaN
  end.

Definition fadd : f32 -> f32 -> f32 := lift2 Qplus.
Definition fsub : f32 -> f32 -> f32 := lift2 Qminus.
Definition fmul : f32 -> f32 -> f32 := lift2 Qmult.

(** Division; a zero divisor gives NaN (IEEE gives NaN for 0/0 and an
    infinity otherwise; the code never keeps the result of a division
    by zero, see [Indices]). *)
Definition fdiv (x y : f32) : f32 :=
  match x, y with
  | Num a, Num b => if Qeq_bool b 0 then NaN else Num (rnd (a / b))
  | _, _ => NaN
  end.

(** [x.astype(np.float32)] of an integer, and a Python float literal
    cast to float32. *)
Definition f32_of_Z (z : Z) : f32 := Num (rnd (inject_Z z)).
Definition fconst (q : Q) : f32 := Num (rnd q).
End Ops.

(** A finite value in [[-c, c]]. *)
Definition within (c : Q) (x : f32) : Prop := exists q, x = Num q /\ - c <= q <= c.

Section Within.
Context {R : Rounding}.

(** The float32 difference of two values of [[-1, 1]] lies in [[-2, 2]]. *)
Lemma fsub_within x y : within 1 x -> within 1 y -> within 2 (fsub x y).
Proof.
  intros (p & -> & Hp) (q & -> & Hq). eexists; split; [reflexivity |].
  apply rnd_within; [exact rnd_two | lra].
Qed.
End Within.

(** IEEE comparisons; NaN compares false, except for [!=]. *)
Definition cmp (p : Q -> Q -> bool) (x y : f32) : bool :=
  match x, y with
  | Num a, Num b => p a b
  | _, _ => false
  end.

Definition flt : f32 -> f32 -> bool := cmp Qltb.
Definition fgt (x y : f32) : bool := flt y x.
Definition fle : f32 -> f32 -> bool := cmp Qle_bool.
Definition fge (x y : f32) : bool := fle y x.
Definition feqb : f32 -> f32 -> bool := cmp Qeq_bool.
Definition fneb (x y : f32) : bool := negb (feqb x y).
Definition isnan (x : f32) : bool := match x with NaN => true | Num _ => false end.

Lemma flt_Num a b : flt (Num a) (Num b) = true <-> a < b.
Proof. apply Qltb_iff. Qed.

Lemma fle_Num a b : fle (Num a) (Num b) = true <-> a <= b.
Proof. apply Qle_bool_iff. Qed.

Lemma feqb_Num a b : feqb (Num a) (Num b) = true <-> a == b.
Proof. apply Qeq_bool_iff. Qed.

Lemma fneb_NaN_l y : fneb NaN y = true.
Proof. reflexivity. Qed.

(** ** Equality of values up to [Qeq] *)

Definition feqv (x y : f32) : Prop :=
  match x, y with
  | Num a, Num b => a == b
  | NaN, NaN => True
  | _, _ => False
  end.

#[export] Instance feqv_equiv : Equivalence feqv.
Proof.
  split.
  - intros [a|]; simpl; [reflexivity | exact I].
  - intros [a|] [b|]; simpl; auto. intros H; symmetry; exact H.
  - intros [a|] [b|] [c|]; simpl; try tauto. intros H1 H2; rewrite H1; exact H2.
Qed.

Section Proper_ops.
Context {R : Rounding}.

Lemma lift2_proper (op : Q -> Q -> Q) :
  Proper (Qeq ==> Qeq ==> Qeq) op -> Proper (feqv ==> feqv ==> feqv) (lift2 op).
Proof.
  intros Hop [a|] [a'|] Ha [b|] [b'|] Hb; simpl in *; try tauto.
  apply rnd_compat, Hop; assumption.
Qed.

#[export] Instance fadd_proper : Proper (feqv ==> feqv ==> feqv) fadd.
Proof. apply lift2_proper. intros ??????; apply Qplus_comp; assumption. Qed.

#[export] Instance fsub_proper : Proper (feqv ==> feqv ==> feqv) fsub.
Proof. apply lift2_proper. intros ??????; apply Qminus_comp; assumption. Qed.

#[export] Instance fmul_proper : Proper (feqv ==> feqv ==> feqv) fmul.
Proof. apply lift2_proper. intros ??????; apply Qmult_comp; assumption. Qed.

#[export] Instance fdiv_proper : Proper (feqv ==> feqv ==> feqv) fdiv.
Proof.
  intros [a|] [a'|] Ha [b|] [b'|] Hb; simpl in *; try tauto.
  destruct (Qeq_bool b 0) eqn:E1, (Qeq_bool b' 0) eqn:E2; simpl; auto.
  - apply Qeq_bool_iff in E1. apply Qeq_bool_neq in E2. apply E2. rewrite <- Hb. exact E1.
  - apply Qeq_bool_iff in E2. apply Qeq_bool_neq in E1. apply E1. rewrite Hb. exact E2.
  - apply rnd_compat, Qdiv_comp; assumption.
Qed.
End Proper_ops.

#[export] Instance cmp_proper (p : Q -> Q -> bool) :
  Proper (Qeq ==> Qeq ==> eq) p -> Proper (feqv ==> feqv ==> eq) (cmp p).
Proof. intros Hp [a|] [a'|] Ha [b|] [b'|] Hb; simpl in *; try tauto; auto. apply Hp; assumption. Qed.

#[export] Hint Rewrite flt_Num fle_Num feqb_Num : lulc_rw.
