(* ===== verification/NdArray.v ===== *)
(** * NdArray: the two-dimensional NumPy arrays of the code

    An array is its shape [(nrows, ncols)] and a row-major buffer
    [cells]; it is well formed ([wf]) when the buffer has
    [nrows * ncols] elements.  The operations are the NumPy ones the
    scripts use on single bands:
    - binary elementwise operators ([+], [-], [/], [!=], [<], [&], ...)
      with NumPy broadcasting ([bzip]): two dimensions are compatible when
      they are equal or one of them is 1, otherwise NumPy raises
      [ValueError] ([Err BroadcastError]);
    - unary elementwise maps and comparisons with a scalar ([amap]);
    - [np.where(cond, x, scalar)] ([where_s]);
    - [np.zeros_like] ([zeros_like]);
    - boolean mask assignment [a[m] = v] ([mask_assign]), which raises
      [IndexError] when the mask does not have the shape of [a].
    The lemmas relate broadcasting to the plain pointwise combination of
    buffers when the shapes agree, and describe every cell of a result. *)

From Stdlib Require Import List Lia Arith Bool.
From S2P Require Import Prelude.
Import ListNotations.

Record ndarray (A : Type) : Type := mk_nd {
  nrows : nat;
  ncols : nat;
  cells : list A
}.
Arguments mk_nd {A} nrows ncols cells.
Arguments nrows {A} _.
Arguments ncols {A} _.
Arguments cells {A} _.

Section Arrays.

Definition wf {X : Type} (a : ndarray X) : Prop :=
  length (cells a) = nrows a * ncols a.

Definition same_shape {X Y : Type} (a : ndarray X) (b : ndarray Y) : bool :=
  (nrows a =? nrows b) && (ncols a =? ncols b).

(** [a[i, j]] *)
Definition at_ {X : Type} `{Dflt X} (a : ndarray X) (i j : nat) : X :=
  nth (i * ncols a + j) (cells a) dflt.

(** Broadcasting of one dimension. *)
Definition bdim (m n : nat) : option nat :=
  if m =? n then Some m
  else if m =? 1 then Some n
  else if n =? 1 then Some m
  else None.

(** The index read in a dimension of length [n] broadcast to a longer one. *)
Definition bidx (n i : nat) : nat := if n =? 1 then 0 else i.

(** The buffer of [a] broadcast to the shape [(h, w)]. *)
Definition expand {X : Type} `{Dflt X} (a : ndarray X) (h w : nat) : list X :=
  map (fun k => at_ a (bidx (nrows a) (k / w)) (bidx (ncols a) (k mod w)))
      (seq 0 (h * w)).

(** A binary elementwise operator with broadcasting. *)
Definition bzip {A B C : Type} `{Dflt A} `{Dflt B} (f : A -> B -> C) (a : ndarray A) (b : ndarray B) : res (ndarray C) :=
  match bdim (nrows a) (nrows b), bdim (ncols a) (ncols b) with
  | Some h, Some w => Ok (mk_nd h w (zipWith f (expand a h w) (expand b h w)))
  | _, _ => Err BroadcastError
  end.

(** A unary elementwise operation, or an operator with a scalar. *)
Definition amap {A C : Type} (f : A -> C) (a : ndarray A) : ndarray C :=
  mk_nd (nrows a) (ncols a) (map f (cells a)).

(** [np.where(cond, x, y)] with a scalar [y]. *)
Definition where_s {A : Type} `{Dflt A} (c : ndarray bool) (x : ndarray A) (y : A) : res (ndarray A) :=
  bzip (fun (b : bool) v => if b then v else y) c x.

(** [np.zeros_like(a, dtype=...)]: the zero of the requested dtype. *)
Definition zeros_like {A C : Type} (z : C) (a : ndarray A) : ndarray C :=
  mk_nd (nrows a) (ncols a) (repeat z (nrows a * ncols a)).

(** [a[m] = v] for a boolean mask [m]. *)
Definition mask_assign {A : Type} (a : ndarray A) (m : ndarray bool) (v : A) : res (ndarray A) :=
  if same_shape a m
  then Ok (mk_nd (nrows a) (ncols a) (zipWith (fun x (b : bool) => if b then v else x) (cells a) (cells m)))
  else Err BooleanIndexError.
End Arrays.

(** ** Lemmas *)

Section Lemmas.
Context {A B C : Type} `{Dflt A} `{Dflt B}.

Lemma same_shape_true {X Y} (a : ndarray X) (b : ndarray Y) :
  same_shape a b = true <-> nrows a = nrows b /\ ncols a = ncols b.
Proof. unfold same_shape. rewrite andb_true_iff, !Nat.eqb_eq. tauto. Qed.

Lemma bdim_refl n : bdim n n = Some n.
Proof. unfold bdim. rewrite Nat.eqb_refl. reflexivity. Qed.

Lemma bdim_comm m n : bdim m n = bdim n m.
Proof.
  unfold bdim. destruct (Nat.eqb_spec m n), (Nat.eqb_spec n m); subst; try lia; auto.
  destruct (Nat.eqb_spec m 1), (Nat.eqb_spec n 1); subst; auto; lia.
Qed.

(** The broadcast dimension is the operand's own one unless the operand's is 1. *)
Lemma bdim_spec m n d : bdim m n = Some d -> (m = d \/ m = 1) /\ (n = d \/ n = 1).
Proof.
  unfold bdim. destruct (Nat.eqb_spec m n); [intros [= <-]; subst; auto |].
  destruct (Nat.eqb_spec m 1); [intros [= <-]; auto |].
  destruct (Nat.eqb_spec n 1); [intros [= <-]; auto | discriminate].
Qed.

Lemma bidx_lt n d i : (n = d \/ n = 1) -> i < d -> bidx n i < n.
Proof. unfold bidx. destruct (Nat.eqb_spec n 1); lia. Qed.

Lemma length_expand {X} `{Dflt X} (a : ndarray X) h w : length (expand a h w) = h * w.
Proof. unfold expand. rewrite length_map, length_seq. reflexivity. Qed.

Lemma nth_expand {X} `{Dflt X} (a : ndarray X) h w k d :
  k < h * w ->
  nth k (expand a h w) d = at_ a (bidx (nrows a) (k / w)) (bidx (ncols a) (k mod w)).
Proof.
  intros Hk. unfold expand.
  set (g := fun k => at_ a (bidx (nrows a) (k / w)) (bidx (ncols a) (k mod w))).
  rewrite (nth_indep (map g _) d (g 0)) by (rewrite length_map, length_seq; exact Hk).
  rewrite map_nth, seq_nth by exact Hk. reflexivity.
Qed.

(** Broadcasting an array to its own shape gives its buffer back. *)
Lemma expand_self {X} `{Dflt X} (a : ndarray X) :
  wf a -> expand a (nrows a) (ncols a) = cells a.
Proof.
  intros Hwf. apply nth_ext with (d := dflt) (d' := dflt).
  { rewrite length_expand. symmetry; exact Hwf. }
  intros k Hk. rewrite length_expand in Hk. rewrite nth_expand by exact Hk.
  destruct (row_major_bound k _ _ Hk) as [Hi Hj].
  unfold at_, bidx.
  pose proof (Nat.div_mod_eq k (ncols a)).
  destruct (Nat.eqb_spec (nrows a) 1), (Nat.eqb_spec (ncols a) 1); f_equal; nia.
Qed.

Lemma expand_mk {X} `{Dflt X} h w (l : list X) :
  length l = h * w -> expand (mk_nd h w l) h w = l.
Proof. intros Hl. exact (expand_self (mk_nd h w l) Hl). Qed.

(** Every broadcast cell is a cell of the operand. *)
Lemma In_expand {X} `{Dflt X} (a : ndarray X) h w x :
  wf a -> (nrows a = h \/ nrows a = 1) -> (ncols a = w \/ ncols a = 1) ->
  In x (expand a h w) -> In x (cells a).
Proof.
  intros Hwf Hh Hw Hin. unfold expand in Hin. apply in_map_iff in Hin.
  destruct Hin as (k & <- & Hk). apply in_seq in Hk.
  destruct (row_major_bound k h w ltac:(lia)) as [Hi Hj].
  pose proof (bidx_lt _ _ _ Hh Hi). pose proof (bidx_lt _ _ _ Hw Hj).
  unfold at_. apply nth_In. rewrite Hwf.
  assert (bidx (nrows a) (k / w) * ncols a + ncols a <= nrows a * ncols a) by nia.
  lia.
Qed.

Lemma at_In {X} `{Dflt X} (a : ndarray X) i j :
  wf a -> i < nrows a -> j < ncols a -> In (at_ a i j) (cells a).
Proof.
  intros Hwf Hi Hj. unfold at_. apply nth_In. rewrite Hwf.
  assert (i * ncols a + ncols a <= nrows a * ncols a) by nia. lia.
Qed.

Lemma bzip_same_shape (f : A -> B -> C) (a : ndarray A) (b : ndarray B) :
  wf a -> wf b -> nrows a = nrows b -> ncols a = ncols b ->
  bzip f a b = Ok (mk_nd (nrows a) (ncols a) (zipWith f (cells a) (cells b))).
Proof.
  intros Ha Hb Hr Hc. unfold bzip. rewrite <- Hr, <- Hc, !bdim_refl.
  rewrite expand_self by exact Ha. rewrite Hr, Hc, expand_self by exact Hb.
  rewrite <- Hr, <- Hc. reflexivity.
Qed.

Lemma bzip_wf (f : A -> B -> C) a b c : bzip f a b = Ok c -> wf c.
Proof.
  unfold bzip, wf. destruct (bdim (nrows a) (nrows b)), (bdim (ncols a) (ncols b));
    intros E; inversion E; subst; simpl.
  rewrite length_zipWith, !length_expand. lia.
Qed.

Lemma bzip_shape (f : A -> B -> C) a b c :
  bzip f a b = Ok c -> bdim (nrows a) (nrows b) = Some (nrows c) /\ bdim (ncols a) (ncols b) = Some (ncols c).
Proof.
  unfold bzip. destruct (bdim (nrows a) (nrows b)), (bdim (ncols a) (ncols b));
    intros E; inversion E; subst; auto.
Qed.

(** Every cell of a broadcast result combines a cell of each operand. *)
Lemma bzip_cells (f : A -> B -> C) a b c z :
  wf a -> wf b -> bzip f a b = Ok c -> In z (cells c) ->
  exists x y, In x (cells a) /\ In y (cells b) /\ z = f x y.
Proof.
  intros Ha Hb E Hz. unfold bzip in E.
  destruct (bdim (nrows a) (nrows b)) as [h|] eqn:Eh, (bdim (ncols a) (ncols b)) as [w|] eqn:Ew;
    try discriminate.
  injection E as <-. simpl in Hz.
  apply bdim_spec in Eh, Ew. destruct Eh as [Eha Ehb], Ew as [Ewa Ewb].
  destruct (In_zipWith _ _ _ _ Hz) as (x & y & Hx & Hy & ->).
  exists x, y. split; [exact (In_expand a h w x Ha Eha Ewa Hx) |].
  split; [exact (In_expand b h w y Hb Ehb Ewb Hy) | reflexivity].
Qed.

Lemma bzip_Forall (f : A -> B -> C) (P : A -> Prop) (Q : B -> Prop) (S : C -> Prop) a b c :
  wf a -> wf b -> (forall x y, P x -> Q y -> S (f x y)) ->
  Forall P (cells a) -> Forall Q (cells b) -> bzip f a b = Ok c -> Forall S (cells c).
Proof.
  intros Ha Hb Hf HP HQ E. apply Forall_forall. intros z Hz.
  destruct (bzip_cells f a b c z Ha Hb E Hz) as (x & y & Hx & Hy & ->).
  apply Hf; [eapply Forall_forall in HP | eapply Forall_forall in HQ]; eauto.
Qed.

(** Broadcasting is symmetric: [a op b] and [b op' a] agree when [op'] flips [op]. *)
Lemma bzip_flip (f : A -> A -> C) (a b : ndarray A) :
  (forall x y, f x y = f y x) -> bzip f a b = bzip f b a.
Proof.
  intros Hf. unfold bzip. rewrite (bdim_comm (nrows a)), (bdim_comm (ncols a)).
  destruct (bdim (nrows b) (nrows a)), (bdim (ncols b) (ncols a)); auto.
  rewrite zipWith_comm by exact Hf. reflexivity.
Qed.

Lemma amap_wf (f : A -> C) a : wf a -> wf (amap f a).
Proof. unfold wf, amap; simpl. rewrite length_map. auto. Qed.

Lemma zeros_like_wf (z : C) (a : ndarray A) : wf (zeros_like z a).
Proof. unfold wf, zeros_like; simpl. apply repeat_length. Qed.

Lemma mask_assign_ok (a : ndarray A) m v :
  wf a -> wf m -> nrows a = nrows m -> ncols a = ncols m ->
  mask_assign a m v =
    Ok (mk_nd (nrows a) (ncols a) (zipWith (fun x (b : bool) => if b then v else x) (cells a) (cells m))).
Proof.
  intros _ _ Hr Hc. unfold mask_assign.
  replace (same_shape a m) with true by (symmetry; apply same_shape_true; auto). reflexivity.
Qed.

Lemma mask_assign_wf (a : ndarray A) m v c :
  wf a -> wf m -> mask_assign a m v = Ok c -> wf c.
Proof.
  unfold mask_assign, wf. destruct (same_shape a m) eqn:E; [|discriminate].
  apply same_shape_true in E. intros Ha Hm [= <-]. simpl.
  rewrite length_zipWith, Ha, Hm. destruct E as [-> ->]. lia.
Qed.
End Lemmas.

#[export] Hint Resolve amap_wf zeros_like_wf bzip_wf mask_assign_wf : lulc.

(** Closes the shape and buffer-length side conditions of the array
    lemmas on arrays built by [mk_nd], [amap], [zipWith] and [repeat]. *)
Create Rewrite HintDb shape_rw.
#[export] Hint Rewrite @length_zipWith @length_map @repeat_length @length_expand @length_seq : shape_rw.

Ltac shape_tac :=
  unfold wf, zeros_like, amap in *; simpl in *; autorewrite with shape_rw in *; nia.
