(* ===== verification/Raster.v ===== *)
(** * Raster: the rasterio datasets the scripts read and write

    A dataset is a profile (the [src.profile] dictionary: dtype, band
    count, height, width, nodata value, affine transform, CRS) and its
    first band.  Reading ([src.read(1)]) returns the band; writing
    ([rasterio.open(path, 'w', **profile).write(a, 1)]) succeeds only
    when the array has the profile's height and width, as rasterio
    checks.  The [profile.copy(); profile.update(...)] idiom of the
    scripts is [set_output]: a fresh profile with the dtype, a count of
    one and the nodata value the script passes, everything else copied. *)

From Stdlib Require Import QArith List Arith Bool ZArith Lia.
From S2P Require Import Prelude Float32 NdArray.

Inductive dtype : Type := Uint8 | Uint16 | Int16 | Int32 | Float32 | Float64.

(** The value range of an integer dtype; [None] for floating dtypes. *)
Definition dtype_range (dt : dtype) : option (Z * Z) :=
  match dt with
  | Uint8 => Some (0, 255)%Z
  | Uint16 => Some (0, 65535)%Z
  | Int16 => Some (-32768, 32767)%Z
  | Int32 => Some (-2147483648, 2147483647)%Z
  | Float32 | Float64 => None
  end.

Definition dtype_eqb (a b : dtype) : bool :=
  match a, b with
  | Uint8, Uint8 | Uint16, Uint16 | Int16, Int16 | Int32, Int32
  | Float32, Float32 | Float64, Float64 => true
  | _, _ => false
  end.

(** rasterio's [Affine(a, b, c, d, e, f)]: pixel [(col, row)] maps to
    [(a*col + b*row + c, d*col + e*row + f)]. *)
Record affine : Type := mk_affine {
  ta : Q; tb : Q; tc : Q; td : Q; te : Q; tf : Q
}.

Record profile : Type := mk_profile {
  p_dtype : dtype;
  p_count : nat;
  p_height : nat;
  p_width : nat;
  p_nodata : option Q;
  p_transform : affine;
  p_crs : Z
}.

Record raster (A : Type) : Type := mk_raster {
  r_profile : profile;
  r_band : ndarray A
}.
Arguments mk_raster {A} _ _.
Arguments r_profile {A} _.
Arguments r_band {A} _.

(** A dataset as rasterio returns it: the band has the declared shape,
    and GDAL datasets have at least one row and one column. *)
Definition raster_ok {A} (r : raster A) : Prop :=
  wf (r_band r) /\ nrows (r_band r) = p_height (r_profile r) /\ ncols (r_band r) = p_width (r_profile r) /\
  (0 < p_height (r_profile r))%nat /\ (0 < p_width (r_profile r))%nat.

(** [profile.copy(); profile.update(dtype=dt, count=1, nodata=nd)]. *)
Definition set_output (p : profile) (dt : dtype) (nd : Q) : profile :=
  {| p_dtype := dt; p_count := 1; p_height := p_height p; p_width := p_width p;
     p_nodata := Some nd; p_transform := p_transform p; p_crs := p_crs p |}.

(** [rasterio.open(path, 'w', **p).write(a, 1)]: the written dataset. *)
Definition write_band {A} (p : profile) (a : ndarray A) : res (raster A) :=
  if (nrows a =? p_height p) && (ncols a =? p_width p)
  then Ok (mk_raster p a)
  else Err WriteShapeError.

(** A successful write into a profile of positive size: the written
    array is not empty. *)
Lemma write_band_nonempty {A} p (a : ndarray A) r :
  (0 < p_height p)%nat -> (0 < p_width p)%nat -> wf a -> write_band p a = Ok r -> cells a <> nil.
Proof.
  unfold write_band, wf. intros Hh Hw W.
  destruct ((nrows a =? p_height p) && (ncols a =? p_width p))%nat eqn:S; [|discriminate]. intros _.
  apply andb_true_iff in S as [S1 S2]. apply Nat.eqb_eq in S1, S2. rewrite S1, S2 in W.
  intros C. rewrite C in W. cbn in W. nia.
Qed.

Section Cast.
Context {R : Rounding}.

(** [band.astype(np.float32)]: a float32 band is copied, the values of
    any other dtype are rounded to float32. *)
Definition astype_f32 (dt : dtype) (a : ndarray f32) : ndarray f32 :=
  match dt with
  | Float32 => a
  | _ => amap (fun x => match x with Num q => Num (rnd q) | NaN => NaN end) a
  end.

Lemma astype_f32_shape dt a : nrows (astype_f32 dt a) = nrows a /\ ncols (astype_f32 dt a) = ncols a.
Proof. destruct dt; simpl; auto. Qed.

Lemma astype_f32_wf dt a : wf a -> wf (astype_f32 dt a).
Proof. destruct dt; simpl; auto using amap_wf. Qed.

(** Converting to float32 keeps the values non-negative. *)
Lemma astype_f32_nonneg dt a :
  Forall (fun x => exists q, x = Num q /\ 0 <= q) (cells a) ->
  Forall (fun x => exists q, x = Num q /\ 0 <= q) (cells (astype_f32 dt a)).
Proof.
  intros H. destruct dt; simpl; auto; apply Forall_map; (eapply Forall_impl; [| exact H]);
    intros x (q & -> & Hq); eexists; (split; [reflexivity | apply rnd_nonneg; exact Hq]).
Qed.
End Cast.

Lemma write_band_ok {A} (p : profile) (a : ndarray A) :
  nrows a = p_height p -> ncols a = p_width p -> write_band p a = Ok (mk_raster p a).
Proof.
  intros Hr Hc. unfold write_band. rewrite Hr, Hc, !Nat.eqb_refl. reflexivity.
Qed.

Lemma write_band_inv {A} (p : profile) (a : ndarray A) r :
  write_band p a = Ok r -> r = mk_raster p a /\ nrows a = p_height p /\ ncols a = p_width p.
Proof.
  unfold write_band. destruct (Nat.eqb_spec (nrows a) (p_height p)), (Nat.eqb_spec (ncols a) (p_width p));
    simpl; intros E; inversion E; auto.
Qed.

(** Proves [raster_ok] of a concrete dataset. *)
Ltac raster_ok_tac := unfold raster_ok, wf; cbn; repeat split; try lia; vm_compute; reflexivity.
