(* ===== verification/Resample.v ===== *)
(** * Resample: [resample_to_match] (src/urban_extraction.py, lines 22-33)

    [resample_to_match(src_path, match_path)] reads the source dataset
    with [out_shape=(src.count, match.height, match.width)] and
    [Resampling.bilinear] and keeps the first band.  The read is modelled
    as bilinear interpolation at pixel centres: output pixel [(i, j)] of
    an [h x w] grid samples the source at row
    [(i + 1/2) * H / h - 1/2] (clamped to [[0, H - 1]]) and the matching
    column, and mixes the four neighbouring source pixels with the
    fractional parts as weights.  The value is then stored in the source
    dtype: integer dtypes round to the nearest integer and saturate to the
    dtype's range (GDAL's conversion), float32 rounds with [rnd].  When
    the output is smaller than the source, GDAL widens the interpolation
    kernel to average more source pixels; that variant is not modelled
    here, and the properties proved below (shape, non-negativity,
    constants, identity on the same shape) hold for it too.

    The class [Resampler] states what the index calculator ([Indices])
    needs of this function; [bilinear_resampler] is the instance. *)

From Stdlib Require Import QArith Qround Qminmax Qreduction Lqa Psatz ZArith List Lia Arith Bool.
From S2P Require Import Prelude Float32 NdArray Raster.
Import ListNotations.

Open Scope Q_scope.

(** A band whose values are finite and non-negative, as reflectances are. *)
Definition nonneg (x : f32) : Prop := exists q, x = Num q /\ 0 <= q.

(** What the index calculator needs of [resample_to_match]. *)
Class Resampler := {
  resample_to_match : raster f32 -> raster f32 -> ndarray f32;
  resample_shape : forall src m,
    nrows (resample_to_match src m) = p_height (r_profile m) /\
    ncols (resample_to_match src m) = p_width (r_profile m);
  resample_wf : forall src m, wf (resample_to_match src m);
  resample_nonneg : forall src m, raster_ok src ->
    Forall nonneg (cells (r_band src)) -> Forall nonneg (cells (resample_to_match src m))
}.

Module Bilinear.
Section Bilinear.
Context {R : Rounding}.

Definition qnat (n : nat) : Q := inject_Z (Z.of_nat n).

(** The clamped source coordinate of output index [i] along an axis of
    [n_out] output and [n_in] source pixels. *)
Definition src_coord (i n_out n_in : nat) : Q :=
  let y := (qnat i + (1 # 2)) * qnat n_in / qnat n_out - (1 # 2) in
  Qmax 0 (Qmin y (qnat (n_in - 1))).

(** The two source indices around the coordinate and the weight of the
    second one. *)
Definition axis (i n_out n_in : nat) : nat * nat * Q :=
  let yc := src_coord i n_out n_in in
  let y0 := Z.to_nat (Qfloor yc) in
  (y0, Nat.min (S y0) (n_in - 1), yc - inject_Z (Qfloor yc)).

(** [(1 - f) * x + f * y], NaN when either side is NaN. *)
Definition lerp (f : Q) (x y : f32) : f32 :=
  match x, y with
  | Num a, Num b => Num ((1 - f) * a + f * b)
  | _, _ => NaN
  end.

Definition bilinear_px (a : ndarray f32) (h w i j : nat) : f32 :=
  let '(y0, y1, fy) := axis i h (nrows a) in
  let '(x0, x1, fx) := axis j w (ncols a) in
  lerp fy (lerp fx (at_ a y0 x0) (at_ a y0 x1)) (lerp fx (at_ a y1 x0) (at_ a y1 x1)).

(** Storing a computed value in the source dtype. *)
Definition to_dtype (dt : dtype) (x : f32) : f32 :=
  match x with
  | NaN => NaN
  | Num q =>
      match dtype_range dt with
      | Some (lo, hi) => Num (inject_Z (Z.max lo (Z.min hi (Qfloor (q + (1 # 2))))))
      | None => match dt with Float32 => Num (rnd q) | _ => Num q end
      end
  end.

(** [src.read(out_shape=(src.count, h, w), resampling=bilinear)[0]]. *)
Definition read_resampled (src : raster f32) (h w : nat) : ndarray f32 :=
  mk_nd h w (map (fun k => to_dtype (p_dtype (r_profile src))
                             (bilinear_px (r_band src) h w (k / w) (k mod w)))
                 (seq 0 (h * w))).

Definition resample_to_match (src match_ : raster f32) : ndarray f32 :=
  read_resampled src (p_height (r_profile match_)) (p_width (r_profile match_)).
End Bilinear.

(** ** Lemmas *)

Section Lemmas.
Context {R : Rounding}.

Lemma Qfloor_nonneg x : 0 <= x -> (0 <= Qfloor x)%Z.
Proof. intros H. apply (Qfloor_resp_le 0 x) in H. exact H. Qed.

Lemma Qfloor_le_Z x (z : Z) : x <= inject_Z z -> (Qfloor x <= z)%Z.
Proof. intros H. apply Qfloor_resp_le in H. rewrite Qfloor_Z in H. exact H. Qed.

(** The floor of [z + 1/2] is [z]: integers survive round-to-nearest. *)
Lemma Qfloor_half (z : Z) : Qfloor (inject_Z z + (1 # 2)) = z.
Proof.
  apply Z.le_antisymm.
  - pose proof (Qfloor_le (inject_Z z + (1 # 2))) as H.
    assert (inject_Z (Qfloor (inject_Z z + (1 # 2))) < inject_Z (z + 1)) as H2
      by (rewrite inject_Z_plus; change (inject_Z 1) with 1; lra).
    rewrite <- Zlt_Qlt in H2. lia.
  - rewrite <- (Qfloor_Z z) at 1. apply Qfloor_resp_le. lra.
Qed.

(** The clamped coordinate lies in [[0, n_in - 1]]. *)
Lemma src_coord_bounds i n_out n_in :
  0 <= src_coord i n_out n_in <= qnat (n_in - 1).
Proof.
  unfold src_coord. split; [apply Q.le_max_l |].
  apply Q.max_lub; [unfold qnat; change 0 with (inject_Z 0); rewrite <- Zle_Qle; lia |].
  apply Q.le_min_r.
Qed.

Lemma axis_bounds i n_out n_in :
  (0 < n_in)%nat ->
  (fst (fst (axis i n_out n_in)) < n_in)%nat /\ (snd (fst (axis i n_out n_in)) < n_in)%nat /\
  0 <= snd (axis i n_out n_in) <= 1.
Proof.
  intros Hn. unfold axis; cbn [fst snd].
  destruct (src_coord_bounds i n_out n_in) as [H0 H1].
  pose proof (Qfloor_nonneg _ H0) as F0. pose proof (Qfloor_le_Z _ _ H1) as F1.
  pose proof (Qfloor_le (src_coord i n_out n_in)) as F2.
  pose proof (Qlt_floor (src_coord i n_out n_in)) as F3.
  rewrite inject_Z_plus in F3. change (inject_Z 1) with 1 in F3.
  split; [lia | split; [lia | lra]].
Qed.

Lemma lerp_nonneg f x y : 0 <= f <= 1 -> nonneg x -> nonneg y -> nonneg (lerp f x y).
Proof. intros Hf (a & -> & Ha) (b & -> & Hb). eexists; split; [reflexivity | nra]. Qed.

(** A bilinear sample mixes four cells of the band with weights in [[0, 1]]. *)
Lemma bilinear_px_cells a h w i j :
  wf a -> (0 < nrows a)%nat -> (0 < ncols a)%nat ->
  exists x00 x01 x10 x11 fy fx,
    In x00 (cells a) /\ In x01 (cells a) /\ In x10 (cells a) /\ In x11 (cells a) /\
    0 <= fy <= 1 /\ 0 <= fx <= 1 /\
    bilinear_px a h w i j = lerp fy (lerp fx x00 x01) (lerp fx x10 x11).
Proof.
  intros Hwf Hr Hc. unfold bilinear_px.
  destruct (axis_bounds i h (nrows a) Hr) as (Y0 & Y1 & Fy).
  destruct (axis_bounds j w (ncols a) Hc) as (X0 & X1 & Fx).
  destruct (axis i h (nrows a)) as [[y0 y1] fy], (axis j w (ncols a)) as [[x0 x1] fx]; simpl in *.
  do 6 eexists. repeat split; try reflexivity; try apply at_In; auto; lra.
Qed.

Lemma to_dtype_nonneg dt x : nonneg x -> nonneg (to_dtype dt x).
Proof.
  intros (q & -> & Hq). unfold to_dtype.
  destruct (dtype_range dt) as [[lo hi]|] eqn:E.
  - eexists; split; [reflexivity |]. change 0 with (inject_Z 0). rewrite <- Zle_Qle.
    pose proof (Qfloor_nonneg (q + (1 # 2)) ltac:(lra)).
    assert (0 <= hi)%Z by (destruct dt; inversion E; lia). lia.
  - destruct dt; try discriminate; eexists; (split; [reflexivity |]); [apply rnd_nonneg |]; exact Hq.
Qed.

(** Storing a value equal to an in-range integer gives that integer. *)
Lemma to_dtype_int dt lo hi (z : Z) q :
  dtype_range dt = Some (lo, hi) -> (lo <= z <= hi)%Z -> q == inject_Z z ->
  to_dtype dt (Num q) = Num (inject_Z z).
Proof.
  intros E Hz Hq. unfold to_dtype. rewrite E.
  rewrite (Qfloor_comp (q + (1 # 2)) (inject_Z z + (1 # 2))) by (rewrite Hq; reflexivity).
  rewrite Qfloor_half. do 2 f_equal. lia.
Qed.

(** The integer values of a dtype. *)
Definition int_in (lo hi : Z) (x : f32) : Prop := exists z, x = Num (inject_Z z) /\ (lo <= z <= hi)%Z.

Lemma lerp_same f c : lerp f (Num c) (Num c) = Num ((1 - f) * c + f * c).
Proof. reflexivity. Qed.

Lemma lerp_zero f a b : f == 0 -> exists q, lerp f (Num a) (Num b) = Num q /\ q == a.
Proof. intros Hf. eexists; split; [reflexivity |]. rewrite Hf. ring. Qed.

(** The source coordinate of an output pixel of the source's own size is
    the pixel itself. *)
Lemma src_coord_same i n : (i < n)%nat -> src_coord i n n == qnat i.
Proof.
  intros Hi. unfold src_coord.
  assert (Hn : 0 < qnat n) by (unfold qnat; change 0 with (inject_Z 0); rewrite <- Zlt_Qlt; lia).
  assert (Hle : qnat i <= qnat (n - 1)) by (unfold qnat; rewrite <- Zle_Qle; lia).
  assert (H0 : 0 <= qnat i) by (unfold qnat; change 0 with (inject_Z 0); rewrite <- Zle_Qle; lia).
  assert (Hy : (qnat i + (1 # 2)) * qnat n / qnat n - (1 # 2) == qnat i) by (field; lra).
  rewrite Hy, Q.min_l by exact Hle. apply Q.max_r. exact H0.
Qed.

Lemma axis_same i n :
  (i < n)%nat -> fst (fst (axis i n n)) = i /\ snd (axis i n n) == 0.
Proof.
  intros Hi. unfold axis; cbn [fst snd].
  rewrite (Qfloor_comp _ _ (src_coord_same i n Hi)). unfold qnat. rewrite Qfloor_Z.
  split; [apply Nat2Z.id |]. rewrite (src_coord_same i n Hi). unfold qnat. ring.
Qed.

(** Resampling a band onto its own shape reads each pixel unchanged (up
    to [Qeq]). *)
Lemma bilinear_px_same a i j :
  wf a -> (i < nrows a)%nat -> (j < ncols a)%nat ->
  Forall (fun x => exists q, x = Num q) (cells a) ->
  exists p q, at_ a i j = Num p /\ bilinear_px a (nrows a) (ncols a) i j = Num q /\ q == p.
Proof.
  intros Hwf Hi Hj Hnum. unfold bilinear_px.
  destruct (axis_same i (nrows a) Hi) as [Y0 Fy].
  destruct (axis_same j (ncols a) Hj) as [X0 Fx].
  destruct (axis_bounds i (nrows a) (nrows a) ltac:(lia)) as (_ & Y1 & _).
  destruct (axis_bounds j (ncols a) (ncols a) ltac:(lia)) as (_ & X1 & _).
  destruct (axis i (nrows a) (nrows a)) as [[y0 y1] fy], (axis j (ncols a) (ncols a)) as [[x0 x1] fx].
  cbn [fst snd] in *. subst y0 x0.
  assert (Hc : forall r c, (r < nrows a)%nat -> (c < ncols a)%nat -> exists q, at_ a r c = Num q)
    by (intros r c Hr Hc; eapply Forall_forall in Hnum; [exact Hnum | apply at_In; assumption]).
  destruct (Hc i j Hi Hj) as [p00 E00]. destruct (Hc i x1 Hi X1) as [p01 E01].
  destruct (Hc y1 j Y1 Hj) as [p10 E10]. destruct (Hc y1 x1 Y1 X1) as [p11 E11].
  rewrite E00, E01, E10, E11. exists p00.
  destruct (lerp_zero fx p00 p01 Fx) as (q0 & -> & Hq0).
  destruct (lerp_zero fx p10 p11 Fx) as (q1 & -> & _).
  destruct (lerp_zero fy q0 q1 Fy) as (q & -> & Hq).
  exists q. split; [reflexivity | split; [reflexivity | rewrite Hq; exact Hq0]].
Qed.

Lemma read_resampled_wf src h w : wf (read_resampled src h w).
Proof. unfold wf, read_resampled; simpl. rewrite length_map, length_seq. reflexivity. Qed.

Lemma In_read_resampled src h w x :
  In x (cells (read_resampled src h w)) ->
  exists i j, x = to_dtype (p_dtype (r_profile src)) (bilinear_px (r_band src) h w i j).
Proof. simpl. intros Hx. apply in_map_iff in Hx. destruct Hx as (k & <- & _). eauto. Qed.

Lemma read_resampled_nonneg src h w :
  raster_ok src -> Forall nonneg (cells (r_band src)) ->
  Forall nonneg (cells (read_resampled src h w)).
Proof.
  intros (Hwf & Hr & Hc & Hh & Hw) Hpos. apply Forall_forall. intros x Hx.
  destruct (In_read_resampled _ _ _ _ Hx) as (i & j & ->). apply to_dtype_nonneg.
  destruct (bilinear_px_cells (r_band src) h w i j Hwf ltac:(lia) ltac:(lia))
    as (x00 & x01 & x10 & x11 & fy & fx & I00 & I01 & I10 & I11 & Fy & Fx & ->).
  rewrite Forall_forall in Hpos. auto using lerp_nonneg.
Qed.
End Lemmas.

(** ** The alignment properties *)

Section Alignment.
Context {R : Rounding}.

(** C6: resampling a band of constant integer value [z] (within the
    range of its dtype) onto any grid gives that constant everywhere:
    a 20x20 band of 5 aligned to a 10x10 reference is a 10x10 band of 5. *)
Theorem read_resampled_const (src : raster f32) (lo hi z : Z) (h w : nat) :
  raster_ok src -> dtype_range (p_dtype (r_profile src)) = Some (lo, hi) -> (lo <= z <= hi)%Z ->
  Forall (eq (Num (inject_Z z))) (cells (r_band src)) ->
  read_resampled src h w = mk_nd h w (repeat (Num (inject_Z z)) (h * w)).
Proof.
  intros (Hwf & Hr & Hc & Hh & Hw) E Hz Hconst. unfold read_resampled. f_equal.
  replace (repeat (Num (inject_Z z)) (h * w)) with (map (fun _ => Num (inject_Z z)) (seq 0 (h * w)))
    by (rewrite map_const, length_seq; reflexivity).
  apply map_ext_in. intros k _.
  destruct (bilinear_px_cells (r_band src) h w (k / w) (k mod w) Hwf ltac:(lia) ltac:(lia))
    as (x00 & x01 & x10 & x11 & fy & fx & I00 & I01 & I10 & I11 & _ & _ & ->).
  rewrite Forall_forall in Hconst.
  rewrite <- (Hconst x00 I00), <- (Hconst x01 I01), <- (Hconst x10 I10), <- (Hconst x11 I11).
  rewrite !lerp_same. apply (to_dtype_int _ lo hi); [exact E | exact Hz | ring].
Qed.

(** C5: aligning a band onto its own shape returns it bit for bit, for
    integer bands whose values are in the range of their dtype. *)
Theorem read_resampled_same_shape (src : raster f32) (lo hi : Z) :
  raster_ok src -> dtype_range (p_dtype (r_profile src)) = Some (lo, hi) ->
  Forall (int_in lo hi) (cells (r_band src)) ->
  read_resampled src (p_height (r_profile src)) (p_width (r_profile src)) = r_band src.
Proof.
  intros (Hwf & Hr & Hc & Hh & Hw) E Hint.
  destruct src as [prof [n m l]]; simpl in *. subst n m. unfold read_resampled; simpl. f_equal.
  apply nth_ext with (d := NaN) (d' := NaN).
  { rewrite length_map, length_seq. symmetry. exact Hwf. }
  intros k Hk. rewrite length_map, length_seq in Hk. rewrite nth_map_seq by exact Hk.
  destruct (row_major_bound _ _ _ Hk) as [Hi Hj].
  assert (Hnum : Forall (fun x => exists q, x = Num q) l)
    by (eapply Forall_impl; [| exact Hint]; intros x (z & -> & _); eauto).
  destruct (bilinear_px_same (mk_nd _ _ l) (k / p_width prof) (k mod p_width prof) Hwf Hi Hj Hnum)
    as (p & q & Hat & Hb & Hq).
  simpl in Hb. rewrite Hb.
  assert (Hk' : at_ (mk_nd (p_height prof) (p_width prof) l) (k / p_width prof) (k mod p_width prof) = nth k l NaN).
  { unfold at_; simpl. f_equal. pose proof (Nat.div_mod_eq k (p_width prof)). lia. }
  rewrite Hk' in Hat. rewrite Hat.
  assert (Hkl : (k < length l)%nat) by (unfold wf in Hwf; simpl in Hwf; lia).
  pose proof (nth_In l NaN Hkl) as Hin. rewrite Hat in Hin.
  rewrite Forall_forall in Hint. destruct (Hint _ Hin) as (z & Ez & Hz). injection Ez as Ez.
  rewrite Ez in Hq |- *. apply (to_dtype_int _ lo hi); assumption.
Qed.
End Alignment.



(** ** Witnesses *)

Definition utm_transform : affine := mk_affine 10 0 500000 0 (-10) 4000000.

(** A 20x20 uint16 band of constant value 5, and a 2x3 uint16 band. *)
Definition band20_const5 : raster f32 :=
  mk_raster (mk_profile Uint16 1 20 20 None utm_transform 32643)
            (mk_nd 20 20 (repeat (Num (inject_Z 5)) 400)).

Definition band2x3 : raster f32 :=
  mk_raster (mk_profile Uint16 1 2 3 None utm_transform 32643)
            (mk_nd 2 3 (map (fun z => Num (inject_Z z)) [1; 2; 3; 40; 500; 6000]%Z)).

Lemma read_resampled_const_witness :
  raster_ok band20_const5 /\
  read_resampled band20_const5 10 10 = mk_nd 10 10 (repeat (Num (inject_Z 5)) 100).
Proof.
  split; [raster_ok_tac |].
  apply (read_resampled_const band20_const5 0 65535 5 10 10).
  - raster_ok_tac.
  - reflexivity.
  - lia.
  - apply Forall_forall. intros x Hx. apply repeat_spec in Hx. symmetry. exact Hx.
Defined.

Lemma read_resampled_same_shape_witness :
  raster_ok band2x3 /\ read_resampled band2x3 2 3 = r_band band2x3.
Proof.
  split; [raster_ok_tac |].
  apply (read_resampled_same_shape band2x3 0 65535).
  - raster_ok_tac.
  - reflexivity.
  - repeat constructor; eexists; (split; [reflexivity | lia]).
Defined.
End Bilinear.

(** The bilinear read discharges the interface of the index calculator. *)
#[export] Instance bilinear_resampler {R : Rounding} : Resampler := {|
  resample_to_match := Bilinear.resample_to_match;
  resample_shape := fun src m => conj eq_refl eq_refl;
  resample_wf := fun src m => Bilinear.read_resampled_wf src _ _;
  resample_nonneg := fun src m Hok Hpos => Bilinear.read_resampled_nonneg src _ _ Hok Hpos
|}.
