(* ===== verification/Indices.v ===== *)
(** * Indices: the spectral index calculator

    Models [calculate_ndvi] (src/calculate_ndvi.py, lines 13-39) and
    [calculate_built_up_index] (src/urban_extraction.py, lines 35-69).
    Both evaluate the normalized difference
    [np.where((a + b) != 0, (a - b) / (a + b), 0)] on float32 bands;
    [normalized_difference] is that array expression operation by
    operation (four broadcasting operators, a comparison with a scalar and
    [np.where]).  Its pixel function is [nd_px].

    The SWIR band of [calculate_built_up_index] goes through
    [resample_to_match] first; the index calculator only relies on what
    the class [Resampler] promises of it (the output has the shape of the
    band it is matched to, and non-negative data stays non-negative).  The
    bilinear implementation of [Resample] discharges the class.

    Theorems: the NumPy expression is the broadcast pointwise map of
    [nd_px] (a helper lemma); for non-negative bands every NDVI/NDBI value lies
    in [[-1, 1]] and every BUI value in [[-2, 2]], so the nodata value
    -9999 written in the profile never collides with data; a zero sum
    gives 0; a NaN input gives NaN; on well-formed inputs of one shape the
    functions succeed, and the output raster has the profile the code
    sets; a one-row red band against a taller NIR band broadcasts to the
    NIR band's rows and its write raises. *)

From Stdlib Require Import QArith Qreduction Lqa List Lia Arith Bool.
From S2P Require Import Prelude Float32 NdArray Raster Resample.
Import ListNotations.

Open Scope Q_scope.

Module SpectralIndex.
Section Index.
Context {R : Rounding}.

(** One pixel of [np.where((a + b) != 0, (a - b) / (a + b), 0)]. *)
Definition nd_px (a b : f32) : f32 :=
  if fneb (fadd a b) (Num 0) then fdiv (fsub a b) (fadd a b) else Num 0.

(** The array expression as NumPy evaluates it. *)
Definition normalized_difference (a b : ndarray f32) : res (ndarray f32) :=
  s <- bzip fadd a b ;;
  let cond := amap (fun x => fneb x (Num 0)) s in
  d <- bzip fsub a b ;;
  s' <- bzip fadd a b ;;
  q <- bzip fdiv d s' ;;
  where_s cond q (Num 0).

(** [calculate_ndvi(red_band_path, nir_band_path, output_path)], with
    the two opened datasets in place of the paths; returns the written
    dataset and the returned array. *)
Definition calculate_ndvi (red_src nir_src : raster f32) : res (raster f32 * ndarray f32) :=
  let red := astype_f32 (p_dtype (r_profile red_src)) (r_band red_src) in
  let profile := r_profile red_src in
  let nir := astype_f32 (p_dtype (r_profile nir_src)) (r_band nir_src) in
  ndvi <- normalized_difference nir red ;;
  let profile := set_output profile Float32 (-9999) in
  out <- write_band profile (astype_f32 Float32 ndvi) ;;
  Ok (out, ndvi).

Context {RS : Resampler}.

(** [calculate_built_up_index(red, nir, swir, output_path)]; returns
    the written dataset and [(bui, ndvi, ndbi)]. *)
Definition calculate_built_up_index (red_src nir_src swir_src : raster f32)
  : res (raster f32 * (ndarray f32 * ndarray f32 * ndarray f32)) :=
  let red := astype_f32 (p_dtype (r_profile red_src)) (r_band red_src) in
  let profile := r_profile red_src in
  let nir := astype_f32 (p_dtype (r_profile nir_src)) (r_band nir_src) in
  let swir := astype_f32 (p_dtype (r_profile swir_src)) (resample_to_match swir_src nir_src) in
  ndvi <- normalized_difference nir red ;;
  ndbi <- normalized_difference swir nir ;;
  bui <- bzip fsub ndbi ndvi ;;
  let profile := set_output profile Float32 (-9999) in
  out <- write_band profile (astype_f32 Float32 bui) ;;
  Ok (out, (bui, ndvi, ndbi)).
End Index.

(** ** Pixel lemmas *)

Section PixelLemmas.
Context {R : Rounding}.

Lemma nd_px_Num p q :
  nd_px (Num p) (Num q) =
    if Qeq_bool (rnd (p + q)) 0 then Num 0 else Num (rnd (rnd (p - q) / rnd (p + q))).
Proof. unfold nd_px, fneb, feqb, cmp, fadd, fsub, lift2, fdiv. destruct (Qeq_bool _ 0); reflexivity. Qed.

(** The quotient of [-s <= d <= s] by a positive [s] lies in [[-1, 1]]. *)
Lemma div_unit d s : 0 < s -> - s <= d <= s -> -1 <= d / s <= 1.
Proof.
  intros Hs Hd. split.
  - apply Qle_shift_div_l; [exact Hs | lra].
  - apply Qle_shift_div_r; [exact Hs | lra].
Qed.

Lemma nd_px_range p q : 0 <= p -> 0 <= q -> within 1 (nd_px (Num p) (Num q)).
Proof.
  intros Hp Hq. rewrite nd_px_Num. destruct (Qeq_bool (rnd (p + q)) 0) eqn:E.
  - exists 0. split; [reflexivity | lra].
  - eexists; split; [reflexivity |]. apply rnd_within; [exact rnd_one |].
    apply div_unit.
    + destruct (Qle_lt_or_eq 0 (rnd (p + q))) as [H | H]; [apply rnd_nonneg; lra | exact H |].
      apply Qeq_bool_neq in E. exfalso. apply E. rewrite H. reflexivity.
    + apply rnd_sym_bound. lra.
Qed.

Lemma nd_px_zero_sum p q : p + q == 0 -> nd_px (Num p) (Num q) = Num 0.
Proof.
  intros H. rewrite nd_px_Num.
  replace (Qeq_bool (rnd (p + q)) 0) with true; [reflexivity |].
  symmetry. apply Qeq_bool_iff. rewrite H. apply rnd_0.
Qed.

Lemma nd_px_nan_l b : nd_px NaN b = NaN.
Proof. reflexivity. Qed.

Lemma nd_px_nan_r a : nd_px a NaN = NaN.
Proof. destruct a; reflexivity. Qed.

(** The buffers computed by the five array operations, cell by cell. *)
Lemma where_nd_cells (l1 l2 : list f32) :
  zipWith (fun (c : bool) v => if c then v else Num 0)
    (map (fun x => fneb x (Num 0)) (zipWith fadd l1 l2))
    (zipWith fdiv (zipWith fsub l1 l2) (zipWith fadd l1 l2))
  = zipWith nd_px l1 l2.
Proof. revert l2; induction l1; destruct l2; simpl; f_equal; auto. Qed.
End PixelLemmas.

(** ** The array expression *)

Section ArrayTheorems.
Context {R : Rounding}.

(** The array expression is the broadcast map of [nd_px]. *)
Lemma normalized_difference_pointwise (a b : ndarray f32) :
  normalized_difference a b = bzip nd_px a b.
Proof.
  unfold normalized_difference, where_s, bzip, amap.
  destruct (bdim (nrows a) (nrows b)) as [h|], (bdim (ncols a) (ncols b)) as [w|];
    simpl; try reflexivity.
  rewrite !bdim_refl; simpl; rewrite !bdim_refl; simpl.
  rewrite !expand_mk by (rewrite ?length_map, !length_zipWith, !length_expand; lia).
  rewrite where_nd_cells. reflexivity.
Qed.

Lemma normalized_difference_same_shape (a b : ndarray f32) :
  wf a -> wf b -> nrows a = nrows b -> ncols a = ncols b ->
  normalized_difference a b = Ok (mk_nd (nrows a) (ncols a) (zipWith nd_px (cells a) (cells b))).
Proof. intros. rewrite normalized_difference_pointwise. apply bzip_same_shape; assumption. Qed.

Lemma normalized_difference_wf a b r : normalized_difference a b = Ok r -> wf r.
Proof. rewrite normalized_difference_pointwise. apply bzip_wf. Qed.

(** The array [calculate_ndvi] returns has the red dataset's shape,
    which is never empty: [np.min] and [np.max] of it succeed. *)
Lemma calculate_ndvi_nonempty red_src nir_src r :
  raster_ok red_src -> calculate_ndvi red_src nir_src = Ok r -> cells (snd r) <> [].
Proof.
  intros (_ & _ & _ & Hh & Hw). unfold calculate_ndvi.
  destruct (normalized_difference _ _) as [nd|] eqn:E; cbn; [|discriminate].
  destruct (write_band _ _) eqn:Wr; cbn; [|discriminate]. intros [= <-].
  exact (write_band_nonempty (set_output _ Float32 (-9999)) nd _ Hh Hw (normalized_difference_wf _ _ _ E) Wr).
Qed.

(** A red band of one row against a NIR band of [h > 1] rows of the
    same width: NumPy broadcasts the NDVI to [h] rows, and [dst.write]
    into the one-row profile of the red band raises. *)
Lemma calculate_ndvi_broadcast_write_error red_src nir_src :
  raster_ok red_src -> raster_ok nir_src -> p_height (r_profile red_src) = 1%nat ->
  (1 < p_height (r_profile nir_src))%nat -> p_width (r_profile red_src) = p_width (r_profile nir_src) ->
  calculate_ndvi red_src nir_src = Err WriteShapeError.
Proof.
  intros (_ & Hr1 & Hc1 & _) (_ & Hr2 & Hc2 & _) H1 Hh Hw. unfold calculate_ndvi.
  rewrite normalized_difference_pointwise. unfold bzip.
  destruct (astype_f32_shape (p_dtype (r_profile nir_src)) (r_band nir_src)) as [En Ec].
  destruct (astype_f32_shape (p_dtype (r_profile red_src)) (r_band red_src)) as [Er Erc].
  rewrite En, Ec, Er, Erc, Hr1, Hr2, Hc1, Hc2, H1, Hw, bdim_refl.
  assert (Hne : (p_height (r_profile nir_src) =? 1)%nat = false) by (apply Nat.eqb_neq; lia).
  unfold bdim at 1. rewrite Hne. cbn. unfold write_band. cbn. rewrite H1, Hne. reflexivity.
Qed.

(** Pixelwise consequences of [normalized_difference_pointwise]. *)
Lemma normalized_difference_Forall (P Q S : f32 -> Prop) a b r :
  wf a -> wf b -> (forall x y, P x -> Q y -> S (nd_px x y)) ->
  Forall P (cells a) -> Forall Q (cells b) -> normalized_difference a b = Ok r ->
  Forall S (cells r).
Proof. intros Ha Hb Hf HP HQ. rewrite normalized_difference_pointwise. exact (bzip_Forall _ P Q S a b r Ha Hb Hf HP HQ). Qed.

(** Non-negative bands give values in [[-1, 1]]. *)
Lemma normalized_difference_within (a b r : ndarray f32) :
  wf a -> wf b -> Forall nonneg (cells a) -> Forall nonneg (cells b) ->
  normalized_difference a b = Ok r -> Forall (within 1) (cells r).
Proof.
  intros Ha Hb HA HB. apply (normalized_difference_Forall nonneg nonneg); auto.
  intros x y (p & -> & Hp) (q & -> & Hq). apply nd_px_range; assumption.
Qed.

(** C1: for non-negative bands, every value of the normalized difference
    lies in [[-1, 1]], whatever the broadcast shapes. *)
Theorem normalized_difference_range (a b r : ndarray f32) :
  wf a -> wf b -> Forall nonneg (cells a) -> Forall nonneg (cells b) ->
  normalized_difference a b = Ok r -> Forall (within 1) (cells r).
Proof. apply normalized_difference_within. Qed.

Lemma zipWith_nd_zero_sum l1 l2 :
  Forall2 (fun x y => exists p q, x = Num p /\ y = Num q /\ p + q == 0) l1 l2 ->
  zipWith nd_px l1 l2 = repeat (Num 0) (length l1).
Proof.
  induction 1 as [|x y l1 l2 (p & q & -> & -> & Hpq) _ IH]; simpl; [reflexivity |].
  rewrite nd_px_zero_sum by exact Hpq. f_equal. exact IH.
Qed.

(** C2: where the two bands sum to zero everywhere (for instance two
    all-zero bands), the index is zero everywhere: the division by zero
    is masked and never produces NaN. *)
Theorem normalized_difference_zero_sum (a b : ndarray f32) :
  wf a -> wf b -> nrows a = nrows b -> ncols a = ncols b ->
  Forall2 (fun x y => exists p q, x = Num p /\ y = Num q /\ p + q == 0) (cells a) (cells b) ->
  normalized_difference a b = Ok (mk_nd (nrows a) (ncols a) (repeat (Num 0) (nrows a * ncols a))).
Proof.
  intros Ha Hb Hr Hc H. rewrite normalized_difference_same_shape by assumption.
  rewrite zipWith_nd_zero_sum by exact H. rewrite Ha. reflexivity.
Qed.

(** C34: a NaN in either band gives NaN at that pixel (the [!= 0] test is
    true for NaN, so the NaN quotient is selected). *)
Theorem normalized_difference_nan (a b : ndarray f32) (k : nat) :
  wf a -> wf b -> nrows a = nrows b -> ncols a = ncols b -> (k < length (cells a))%nat ->
  (nth k (cells a) NaN = NaN \/ nth k (cells b) NaN = NaN) ->
  exists r, normalized_difference a b = Ok r /\ nth k (cells r) NaN = NaN.
Proof.
  intros Ha Hb Hr Hc Hk Hnan. eexists; split; [apply normalized_difference_same_shape; assumption |].
  simpl. rewrite (nth_zipWith _ _ _ _ NaN NaN) by (rewrite ?Hb, <- ?Hr, <- ?Hc, <- ?Ha; lia).
  destruct Hnan as [-> | ->]; [apply nd_px_nan_l | apply nd_px_nan_r].
Qed.
End ArrayTheorems.

(** ** [calculate_ndvi] and [calculate_built_up_index] *)

Section Functions.
Context {R : Rounding}.

Lemma astype_dims dt (r : raster f32) :
  raster_ok r ->
  wf (astype_f32 dt (r_band r)) /\
  nrows (astype_f32 dt (r_band r)) = p_height (r_profile r) /\
  ncols (astype_f32 dt (r_band r)) = p_width (r_profile r).
Proof.
  intros (Hw & Hh & Hc & _). destruct (astype_f32_shape dt (r_band r)) as [E1 E2].
  split; [apply astype_f32_wf; exact Hw | lia].
Qed.

(** [calculate_ndvi] on two datasets of one shape. *)
Lemma calculate_ndvi_eq (red_src nir_src : raster f32) :
  raster_ok red_src -> raster_ok nir_src ->
  p_height (r_profile red_src) = p_height (r_profile nir_src) ->
  p_width (r_profile red_src) = p_width (r_profile nir_src) ->
  let red := astype_f32 (p_dtype (r_profile red_src)) (r_band red_src) in
  let nir := astype_f32 (p_dtype (r_profile nir_src)) (r_band nir_src) in
  let ndvi := mk_nd (p_height (r_profile red_src)) (p_width (r_profile red_src))
                    (zipWith nd_px (cells nir) (cells red)) in
  calculate_ndvi red_src nir_src =
    Ok (mk_raster (set_output (r_profile red_src) Float32 (-9999)) ndvi, ndvi).
Proof.
  intros Hred Hnir Hh Hw red nir ndvi. subst red nir ndvi.
  destruct (astype_dims (p_dtype (r_profile red_src)) red_src Hred) as (Wr & Hr1 & Hr2).
  destruct (astype_dims (p_dtype (r_profile nir_src)) nir_src Hnir) as (Wn & Hn1 & Hn2).
  unfold calculate_ndvi; cbv zeta.
  rewrite normalized_difference_same_shape by (auto; lia).
  rewrite res_bind_ok. simpl astype_f32.
  rewrite write_band_ok by (simpl; lia).
  rewrite Hn1, Hn2, <- Hh, <- Hw. reflexivity.
Qed.

(** C7: on two datasets of one shape, [calculate_ndvi] succeeds; it
    writes the pixelwise index with the float32 profile whose nodata
    value is -9999, and returns the same array. *)
Theorem calculate_ndvi_ok (red_src nir_src : raster f32) :
  raster_ok red_src -> raster_ok nir_src ->
  p_height (r_profile red_src) = p_height (r_profile nir_src) ->
  p_width (r_profile red_src) = p_width (r_profile nir_src) ->
  let red := astype_f32 (p_dtype (r_profile red_src)) (r_band red_src) in
  let nir := astype_f32 (p_dtype (r_profile nir_src)) (r_band nir_src) in
  let ndvi := mk_nd (p_height (r_profile red_src)) (p_width (r_profile red_src))
                    (zipWith nd_px (cells nir) (cells red)) in
  calculate_ndvi red_src nir_src =
    Ok (mk_raster (set_output (r_profile red_src) Float32 (-9999)) ndvi, ndvi).
Proof. apply calculate_ndvi_eq. Qed.

Lemma nonneg_astype dt (r : raster f32) :
  Forall nonneg (cells (r_band r)) -> Forall nonneg (cells (astype_f32 dt (r_band r))).
Proof. apply astype_f32_nonneg. Qed.

(** For non-negative bands, [calculate_ndvi] writes only values in
    [[-1, 1]], so no data value equals the nodata value -9999 of the
    written profile; the written band is the returned array. *)
Theorem calculate_ndvi_range (red_src nir_src out : raster f32) (ndvi : ndarray f32) :
  raster_ok red_src -> raster_ok nir_src ->
  Forall nonneg (cells (r_band red_src)) -> Forall nonneg (cells (r_band nir_src)) ->
  calculate_ndvi red_src nir_src = Ok (out, ndvi) ->
  Forall (within 1) (cells ndvi) /\ r_band out = ndvi /\ p_nodata (r_profile out) = Some (-9999).
Proof.
  intros Hred Hnir Pred Pnir E. unfold calculate_ndvi in E; cbv zeta in E.
  apply res_bind_inv in E as (nd & Hnd & E). apply res_bind_inv in E as (o & Ho & E).
  injection E as <- <-. apply write_band_inv in Ho as (-> & _ & _).
  split; [| split; reflexivity].
  pose proof (astype_dims (p_dtype (r_profile nir_src)) nir_src Hnir) as [Wn _].
  pose proof (astype_dims (p_dtype (r_profile red_src)) red_src Hred) as [Wr _].
  exact (normalized_difference_within _ _ _ Wn Wr (nonneg_astype _ _ Pnir) (nonneg_astype _ _ Pred) Hnd).
Qed.

Context {RS : Resampler}.

Lemma resampled_dims dt (src m : raster f32) :
  wf (astype_f32 dt (resample_to_match src m)) /\
  nrows (astype_f32 dt (resample_to_match src m)) = p_height (r_profile m) /\
  ncols (astype_f32 dt (resample_to_match src m)) = p_width (r_profile m).
Proof.
  destruct (astype_f32_shape dt (resample_to_match src m)) as [E1 E2].
  destruct (resample_shape src m) as [E3 E4].
  split; [apply astype_f32_wf, resample_wf | lia].
Qed.

(** C39: For non-negative bands, [calculate_built_up_index] returns an
    NDVI and an NDBI in [[-1, 1]] and a BUI in [[-2, 2]], and writes the
    BUI with the nodata value -9999, outside that range. *)
Theorem calculate_built_up_index_range (red_src nir_src swir_src out : raster f32)
    (bui ndvi ndbi : ndarray f32) :
  raster_ok red_src -> raster_ok nir_src -> raster_ok swir_src ->
  Forall nonneg (cells (r_band red_src)) -> Forall nonneg (cells (r_band nir_src)) ->
  Forall nonneg (cells (r_band swir_src)) ->
  calculate_built_up_index red_src nir_src swir_src = Ok (out, (bui, ndvi, ndbi)) ->
  Forall (within 2) (cells bui) /\ Forall (within 1) (cells ndvi) /\
  Forall (within 1) (cells ndbi) /\ r_band out = bui /\ p_nodata (r_profile out) = Some (-9999).
Proof.
  intros Hred Hnir Hswir Pred Pnir Pswir E. unfold calculate_built_up_index in E; cbv zeta in E.
  apply res_bind_inv in E as (nd1 & H1 & E). apply res_bind_inv in E as (nd2 & H2 & E).
  apply res_bind_inv in E as (b & Hb & E). apply res_bind_inv in E as (o & Ho & E).
  injection E as <- <- <- <-. apply write_band_inv in Ho as (-> & _ & _).
  pose proof (astype_dims (p_dtype (r_profile nir_src)) nir_src Hnir) as [Wn _].
  pose proof (astype_dims (p_dtype (r_profile red_src)) red_src Hred) as [Wr _].
  pose proof (resampled_dims (p_dtype (r_profile swir_src)) swir_src nir_src) as [Ws _].
  pose proof (astype_f32_nonneg (p_dtype (r_profile swir_src)) _
                (resample_nonneg swir_src nir_src Hswir Pswir)) as Ps.
  pose proof (normalized_difference_within _ _ _ Wn Wr (nonneg_astype _ _ Pnir) (nonneg_astype _ _ Pred) H1) as R1.
  pose proof (normalized_difference_within _ _ _ Ws Wn Ps (nonneg_astype _ _ Pnir) H2) as R2.
  split; [| split; [exact R1 | split; [exact R2 | split; reflexivity]]].
  exact (bzip_Forall fsub (within 1) (within 1) (within 2) _ _ _
           (normalized_difference_wf _ _ _ H2) (normalized_difference_wf _ _ _ H1)
           fsub_within R2 R1 Hb).
Qed.

(** When the red and NIR datasets have one shape,
    [calculate_built_up_index] succeeds (the SWIR band is resampled onto
    the NIR grid); NDVI and NDBI are the pixelwise normalized
    differences, the BUI their difference, and the BUI is written. *)
Theorem calculate_built_up_index_ok (red_src nir_src swir_src : raster f32) :
  raster_ok red_src -> raster_ok nir_src ->
  p_height (r_profile red_src) = p_height (r_profile nir_src) ->
  p_width (r_profile red_src) = p_width (r_profile nir_src) ->
  let red := astype_f32 (p_dtype (r_profile red_src)) (r_band red_src) in
  let nir := astype_f32 (p_dtype (r_profile nir_src)) (r_band nir_src) in
  let swir := astype_f32 (p_dtype (r_profile swir_src)) (resample_to_match swir_src nir_src) in
  exists out bui ndvi ndbi,
    calculate_built_up_index red_src nir_src swir_src = Ok (out, (bui, ndvi, ndbi)) /\
    r_band out = bui /\ r_profile out = set_output (r_profile red_src) Float32 (-9999) /\
    cells ndvi = zipWith nd_px (cells nir) (cells red) /\
    cells ndbi = zipWith nd_px (cells swir) (cells nir) /\
    cells bui = zipWith fsub (cells ndbi) (cells ndvi).
Proof.
  intros Hred Hnir Hh Hw red nir swir. subst red nir swir.
  destruct (astype_dims (p_dtype (r_profile red_src)) red_src Hred) as (Wr & Hr1 & Hr2).
  destruct (astype_dims (p_dtype (r_profile nir_src)) nir_src Hnir) as (Wn & Hn1 & Hn2).
  destruct (resampled_dims (p_dtype (r_profile swir_src)) swir_src nir_src) as (Ws & Hs1 & Hs2).
  unfold calculate_built_up_index; cbv zeta.
  rewrite (normalized_difference_same_shape _ (astype_f32 _ (r_band red_src))) by (auto; lia).
  rewrite res_bind_ok.
  rewrite (normalized_difference_same_shape (astype_f32 _ (resample_to_match _ _))) by (auto; lia).
  rewrite res_bind_ok.
  rewrite bzip_same_shape by (unfold wf in *; simpl; rewrite ?length_zipWith; nia).
  rewrite res_bind_ok. simpl astype_f32.
  rewrite write_band_ok by (simpl; lia). rewrite res_bind_ok.
  do 4 eexists. split; [reflexivity | repeat split].
Qed.
End Functions.

(** ** Witnesses, in exact arithmetic, with the bilinear resampler *)

Ltac nonneg_tac :=
  repeat (apply Forall_cons; [eexists; split; [reflexivity | apply Qle_bool_iff; reflexivity] |]);
  apply Forall_nil.

Definition prof2x2 : profile := mk_profile Uint16 1 2 2 None Bilinear.utm_transform 32643.
Definition red0 : raster f32 := mk_raster prof2x2 (mk_nd 2 2 [Num 100; Num 0; Num 50; Num 0]).
Definition nir0 : raster f32 := mk_raster prof2x2 (mk_nd 2 2 [Num 300; Num 0; Num 50; Num 20]).
Definition swir0 : raster f32 :=
  mk_raster (mk_profile Uint16 1 4 4 None Bilinear.utm_transform 32643)
            (mk_nd 4 4 [Num 10; Num 20; Num 30; Num 40; Num 50; Num 60; Num 70; Num 80;
                        Num 90; Num 100; Num 110; Num 120; Num 130; Num 140; Num 150; Num 160]).

Lemma normalized_difference_range_witness :
  exists r, normalized_difference (r_band nir0) (r_band red0) = Ok r /\ Forall (within 1) (cells r).
Proof.
  eexists; split; [reflexivity |].
  apply (normalized_difference_range (r_band nir0) (r_band red0)); [reflexivity | reflexivity | nonneg_tac | nonneg_tac | reflexivity].
Defined.

Lemma normalized_difference_zero_sum_witness :
  normalized_difference (mk_nd 1 2 [Num 3; Num 0]) (mk_nd 1 2 [Num (-3); Num 0]) =
    Ok (mk_nd 1 2 (repeat (Num 0) 2)).
Proof.
  apply (normalized_difference_zero_sum (mk_nd 1 2 [Num 3; Num 0]) (mk_nd 1 2 [Num (-3); Num 0]));
    try reflexivity.
  repeat constructor; do 2 eexists; (split; [reflexivity | split; [reflexivity | reflexivity]]).
Defined.

Lemma normalized_difference_nan_witness :
  exists r, normalized_difference (mk_nd 1 2 [NaN; Num 1]) (mk_nd 1 2 [Num 2; Num 1]) = Ok r /\
            nth 0 (cells r) NaN = NaN.
Proof.
  apply (normalized_difference_nan (mk_nd 1 2 [NaN; Num 1]) (mk_nd 1 2 [Num 2; Num 1]) 0);
    [reflexivity | reflexivity | reflexivity | reflexivity | simpl; lia | left; reflexivity].
Defined.

Lemma calculate_ndvi_ok_witness :
  let red := astype_f32 Uint16 (r_band red0) in
  let nir := astype_f32 Uint16 (r_band nir0) in
  let ndvi := mk_nd 2 2 (zipWith nd_px (cells nir) (cells red)) in
  calculate_ndvi red0 nir0 = Ok (mk_raster (set_output prof2x2 Float32 (-9999)) ndvi, ndvi).
Proof. apply (calculate_ndvi_ok red0 nir0); [raster_ok_tac | raster_ok_tac | reflexivity | reflexivity]. Defined.

Lemma calculate_ndvi_range_witness :
  exists out ndvi, calculate_ndvi red0 nir0 = Ok (out, ndvi) /\
    Forall (within 1) (cells ndvi) /\ r_band out = ndvi /\ p_nodata (r_profile out) = Some (-9999).
Proof.
  do 2 eexists; split; [reflexivity |].
  apply (calculate_ndvi_range red0 nir0); [raster_ok_tac | raster_ok_tac | nonneg_tac | nonneg_tac | reflexivity].
Defined.

Lemma calculate_built_up_index_range_witness :
  exists out bui ndvi ndbi, calculate_built_up_index red0 nir0 swir0 = Ok (out, (bui, ndvi, ndbi)) /\
    Forall (within 2) (cells bui) /\ Forall (within 1) (cells ndvi) /\
    Forall (within 1) (cells ndbi) /\ r_band out = bui /\ p_nodata (r_profile out) = Some (-9999).
Proof.
  do 4 eexists; split; [reflexivity |].
  apply (calculate_built_up_index_range red0 nir0 swir0);
    [raster_ok_tac | raster_ok_tac | raster_ok_tac | nonneg_tac | nonneg_tac | nonneg_tac | reflexivity].
Defined.

Lemma calculate_built_up_index_ok_witness :
  exists out bui ndvi ndbi,
    calculate_built_up_index red0 nir0 swir0 = Ok (out, (bui, ndvi, ndbi)) /\
    r_band out = bui /\ r_profile out = set_output prof2x2 Float32 (-9999) /\
    cells ndvi = zipWith nd_px (cells (astype_f32 Uint16 (r_band nir0))) (cells (astype_f32 Uint16 (r_band red0))) /\
    cells ndbi = zipWith nd_px (cells (astype_f32 Uint16 (resample_to_match swir0 nir0)))
                               (cells (astype_f32 Uint16 (r_band nir0))) /\
    cells bui = zipWith fsub (cells ndbi) (cells ndvi).
Proof. apply (calculate_built_up_index_ok red0 nir0 swir0); [raster_ok_tac | raster_ok_tac | reflexivity | reflexivity]. Defined.

(** [calculate_ndvi] does not reject bands of different shapes: a
    one-row NIR band is broadcast against a two-row red band and the NDVI
    is written with the red band's profile, where the specification asks
    for a shape-mismatch error. *)
Example calculate_ndvi_broadcasts :
  exists out ndvi,
    calculate_ndvi red0 (mk_raster (mk_profile Uint16 1 1 2 None Bilinear.utm_transform 32643)
                                   (mk_nd 1 2 [Num 300; Num 0])) = Ok (out, ndvi) /\
    nrows ndvi = 2%nat /\ ncols ndvi = 2%nat.
Proof. do 2 eexists. split; [vm_compute; reflexivity | split; reflexivity]. Qed.
End SpectralIndex.
