(* ===== verification/ChangeDetection.v ===== *)
(** * ChangeDetection: src/change_detection.py, lines 16-87

    - [calculate_ndvi_difference] (lines 16-39): reads the two NDVI
      rasters, subtracts 2021 from 2025 with broadcasting and writes the
      difference with the 2021 profile (float32, nodata -9999).
    - [classify_changes] (lines 41-59): starts from a uint8 array of zeros
      and performs three boolean-mask assignments in this order:
      [diff < -t] gets 1, [diff > t] gets 2, [(diff >= -t) & (diff <= t)]
      gets 3.  The threshold is a Python float, compared in float32
      ([fconst]).
    - [compare_classifications] (lines 61-87): reads two uint8 label
      rasters, marks with 1 the pixels whose labels differ, on a uint8 array
      of zeros shaped like the first raster, and writes it with the first
      raster's profile (uint8, nodata 0).

    Theorems: the three assignments compute the pointwise decision
    [change_px] (a helper lemma); the boundary [diff = +-t] is no-change; a finite
    difference always gets one of 1, 2, 3 while NaN keeps 0; the
    comparison is the pointwise inequality and is symmetric on rasters of
    one shape; and the written transition raster declares as nodata the
    value 0 that marks unchanged pixels. *)

From Stdlib Require Import QArith Qreduction Lqa ZArith List Lia Arith Bool.
From S2P Require Import Prelude Float32 NdArray Raster.
Import ListNotations.

Open Scope Q_scope.

Module Change.
Section Change.
Context {R : Rounding}.

(** [calculate_ndvi_difference(ndvi_2021_path, ndvi_2025_path, output_path)]. *)
Definition calculate_ndvi_difference (src_2021 src_2025 : raster f32)
  : res (raster f32 * ndarray f32) :=
  let ndvi_2021 := r_band src_2021 in
  let profile := r_profile src_2021 in
  let ndvi_2025 := r_band src_2025 in
  ndvi_diff <- bzip fsub ndvi_2025 ndvi_2021 ;;
  let profile := set_output profile Float32 (-9999) in
  out <- write_band profile (astype_f32 Float32 ndvi_diff) ;;
  Ok (out, ndvi_diff).

(** [classify_changes(ndvi_diff, threshold)]: three masked assignments
    on a uint8 array of zeros. *)
Definition classify_changes (ndvi_diff : ndarray f32) (threshold : Q) : res (ndarray Z) :=
  let changes := zeros_like 0%Z ndvi_diff in
  changes <- mask_assign changes (amap (fun x => flt x (fconst (- threshold))) ndvi_diff) 1%Z ;;
  changes <- mask_assign changes (amap (fun x => fgt x (fconst threshold)) ndvi_diff) 2%Z ;;
  m3 <- bzip andb (amap (fun x => fge x (fconst (- threshold))) ndvi_diff)
                  (amap (fun x => fle x (fconst threshold)) ndvi_diff) ;;
  changes <- mask_assign changes m3 3%Z ;;
  Ok changes.

(** The class of one difference after the three assignments: the last
    assignment whose mask holds wins. *)
Definition change_px (threshold : Q) (d : f32) : Z :=
  if fge d (fconst (- threshold)) && fle d (fconst threshold) then 3%Z
  else if fgt d (fconst threshold) then 2%Z
  else if flt d (fconst (- threshold)) then 1%Z
  else 0%Z.
End Change.

(** [compare_classifications(class_2021_path, class_2025_path, output_path)]. *)
Definition compare_classifications (src_2021 src_2025 : raster Z) : res (raster Z * ndarray Z) :=
  let class_2021 := r_band src_2021 in
  let profile := r_profile src_2021 in
  let class_2025 := r_band src_2025 in
  let change_matrix := zeros_like 0%Z class_2021 in
  differ <- bzip (fun a b => negb (Z.eqb a b)) class_2021 class_2025 ;;
  change_matrix <- mask_assign change_matrix differ 1%Z ;;
  let profile := set_output profile Uint8 0 in
  out <- write_band profile change_matrix ;;
  Ok (out, change_matrix).

(** The transition of one pixel. *)
Definition transition_px (a b : Z) : Z := if Z.eqb a b then 0%Z else 1%Z.

(** ** [classify_changes] *)

Section ClassifyProofs.
Context {R : Rounding}.

(** The buffers of the three assignments, cell by cell. *)
Lemma classify_cells (t : Q) (l : list f32) :
  zipWith (fun x (b : bool) => if b then 3%Z else x)
    (zipWith (fun x (b : bool) => if b then 2%Z else x)
       (zipWith (fun x (b : bool) => if b then 1%Z else x) (repeat 0%Z (length l))
          (map (fun x => flt x (fconst (- t))) l))
       (map (fun x => fgt x (fconst t)) l))
    (zipWith andb (map (fun x => fge x (fconst (- t))) l) (map (fun x => fle x (fconst t)) l))
  = map (change_px t) l.
Proof.
  induction l as [|d l IH]; simpl; [reflexivity |]. rewrite <- IH. reflexivity.
Qed.

(** The three assignments as the pointwise class. *)
Lemma classify_changes_eq (ndvi_diff : ndarray f32) (t : Q) :
  wf ndvi_diff -> classify_changes ndvi_diff t = Ok (amap (change_px t) ndvi_diff).
Proof.
  intros Hwf. unfold classify_changes, zeros_like, amap in *.
  rewrite mask_assign_ok by shape_tac. rewrite res_bind_ok.
  rewrite mask_assign_ok by shape_tac. rewrite res_bind_ok.
  rewrite bzip_same_shape by shape_tac. rewrite res_bind_ok.
  rewrite mask_assign_ok by shape_tac. simpl. rewrite <- Hwf, classify_cells. reflexivity.
Qed.

(** The class of a finite difference, against the float32 threshold
    [rnd t]. *)
Lemma change_px_num (t q : Q) :
  0 <= t ->
  change_px t (Num q) =
    (if Qltb q (- rnd t) then 1 else if Qltb (rnd t) q then 2 else 3)%Z.
Proof.
  intros Ht. pose proof (rnd_nonneg t Ht) as Hr.
  cbv beta iota delta [change_px fge fle fgt flt cmp fconst].
  rewrite (Qltb_proper q q (Qeq_refl q) _ _ (rnd_opp t)),
          (Qle_bool_proper _ _ (rnd_opp t) q q (Qeq_refl q)).
  destruct (Qle_bool (- rnd t) q) eqn:E1, (Qle_bool q (rnd t)) eqn:E2,
    (Qltb q (- rnd t)) eqn:E3, (Qltb (rnd t) q) eqn:E4; simpl; try reflexivity; qbool; lra.
Qed.

(** C3: the boundary is closed: a difference equal to the threshold
    or to its negation is "no change" (3). *)
Theorem change_px_boundary (t q : Q) :
  0 <= t -> (q == rnd t \/ q == - rnd t) -> change_px t (Num q) = 3%Z.
Proof.
  intros Ht Hq. rewrite change_px_num by exact Ht. pose proof (rnd_nonneg t Ht).
  destruct (Qltb q (- rnd t)) eqn:E1, (Qltb (rnd t) q) eqn:E2;
    rewrite ?Qltb_iff, ?Qltb_false in *; try reflexivity; lra.
Qed.

(** C8: with a non-negative threshold, [classify_changes] gives every
    finite difference exactly one of the classes 1 (below [-t]), 2 (above
    [t]) or 3 (within [[-t, t]]), while a NaN difference keeps the 0 of
    [np.zeros_like]. *)
Theorem classify_changes_classes (ndvi_diff : ndarray f32) (t : Q) :
  wf ndvi_diff -> 0 <= t ->
  exists changes, classify_changes ndvi_diff t = Ok changes /\
    Forall2 (fun d v => match d with
                        | NaN => v = 0%Z
                        | Num q => (v = 1%Z /\ q < - rnd t) \/ (v = 2%Z /\ rnd t < q) \/
                                   (v = 3%Z /\ - rnd t <= q <= rnd t)
                        end) (cells ndvi_diff) (cells changes).
Proof.
  intros Hwf Ht. eexists; split; [apply classify_changes_eq; exact Hwf |].
  simpl. pose proof (rnd_nonneg t Ht). induction (cells ndvi_diff) as [|[q|] l IH]; simpl; constructor; auto.
  rewrite change_px_num by exact Ht.
  destruct (Qltb q (- rnd t)) eqn:E1, (Qltb (rnd t) q) eqn:E2; rewrite ?Qltb_iff, ?Qltb_false in *;
    [left | left | right; left | right; right]; split; auto; lra.
Qed.
End ClassifyProofs.

(** ** [compare_classifications] *)

Lemma transition_cells (l1 l2 : list Z) n :
  length l1 = n -> length l2 = n ->
  zipWith (fun x (b : bool) => if b then 1%Z else x) (repeat 0%Z n)
          (zipWith (fun a b => negb (Z.eqb a b)) l1 l2)
  = zipWith transition_px l1 l2.
Proof.
  revert l2 n; induction l1 as [|a l1 IH]; intros [|b l2] [|n] H1 H2; simpl in *; try lia; auto.
  rewrite IH by lia. unfold transition_px. destruct (Z.eqb a b); reflexivity.
Qed.

(** The comparison on rasters of one shape. *)
Lemma compare_classifications_eq (src_2021 src_2025 : raster Z) :
  raster_ok src_2021 -> raster_ok src_2025 ->
  p_height (r_profile src_2021) = p_height (r_profile src_2025) ->
  p_width (r_profile src_2021) = p_width (r_profile src_2025) ->
  let m := mk_nd (p_height (r_profile src_2021)) (p_width (r_profile src_2021))
                 (zipWith transition_px (cells (r_band src_2021)) (cells (r_band src_2025))) in
  compare_classifications src_2021 src_2025 = Ok (mk_raster (set_output (r_profile src_2021) Uint8 0) m, m).
Proof.
  intros (W1 & H1 & C1 & _) (W2 & H2 & C2 & _) Hh Hw m. subst m.
  unfold compare_classifications; cbv zeta.
  rewrite bzip_same_shape by (auto; lia). rewrite res_bind_ok.
  rewrite mask_assign_ok by shape_tac. rewrite res_bind_ok.
  rewrite write_band_ok by (simpl; lia). simpl.
  rewrite transition_cells with (n := (nrows (r_band src_2021) * ncols (r_band src_2021))%nat) by shape_tac.
  rewrite H1, C1. reflexivity.
Qed.

(** C9: on two label rasters of one shape, [compare_classifications]
    succeeds and writes, with the first raster's profile turned to uint8
    and nodata 0, the matrix that is 1 exactly where the labels differ. *)
Theorem compare_classifications_ok (src_2021 src_2025 : raster Z) :
  raster_ok src_2021 -> raster_ok src_2025 ->
  p_height (r_profile src_2021) = p_height (r_profile src_2025) ->
  p_width (r_profile src_2021) = p_width (r_profile src_2025) ->
  let m := mk_nd (p_height (r_profile src_2021)) (p_width (r_profile src_2021))
                 (zipWith transition_px (cells (r_band src_2021)) (cells (r_band src_2025))) in
  compare_classifications src_2021 src_2025 = Ok (mk_raster (set_output (r_profile src_2021) Uint8 0) m, m).
Proof. apply compare_classifications_eq. Qed.

(** C4: the comparison is symmetric: on rasters of one shape, comparing
    (A, B) and (B, A) gives the same change matrix. *)
Theorem compare_classifications_symmetric (a b : raster Z) :
  raster_ok a -> raster_ok b ->
  p_height (r_profile a) = p_height (r_profile b) -> p_width (r_profile a) = p_width (r_profile b) ->
  exists out_ab out_ba m,
    compare_classifications a b = Ok (out_ab, m) /\ compare_classifications b a = Ok (out_ba, m).
Proof.
  intros Ha Hb Hh Hw.
  rewrite (compare_classifications_eq a b Ha Hb Hh Hw), (compare_classifications_eq b a Hb Ha (eq_sym Hh) (eq_sym Hw)).
  do 3 eexists. split; [reflexivity |]. rewrite <- Hh, <- Hw.
  rewrite (zipWith_comm transition_px); [reflexivity |].
  intros x y. unfold transition_px. rewrite Z.eqb_sym. reflexivity.
Qed.


(** Scenario 3 of the specification: [[1,1],[2,2]] against
    [[1,2],[2,2]] gives the transition matrix [[0,1],[0,0]]. *)
Example compare_classifications_scenario :
  let p := mk_profile Uint8 1 2 2 (Some 0) (mk_affine 10 0 0 0 (-10) 0) 32643 in
  exists out, compare_classifications (mk_raster p (mk_nd 2 2 [1; 1; 2; 2]%Z))
                                      (mk_raster p (mk_nd 2 2 [1; 2; 2; 2]%Z))
              = Ok (out, mk_nd 2 2 [0; 1; 0; 0]%Z).
Proof. eexists. vm_compute. reflexivity. Qed.

(** ** [calculate_ndvi_difference] *)

Section DifferenceProofs.
Context {R : Rounding}.

(** The difference [calculate_ndvi_difference] returns has the 2021
    dataset's shape and is never empty. *)
Lemma calculate_ndvi_difference_nonempty src_2021 src_2025 d :
  raster_ok src_2021 -> calculate_ndvi_difference src_2021 src_2025 = Ok d -> cells (snd d) <> [].
Proof.
  intros (_ & _ & _ & Hh & Hw). unfold calculate_ndvi_difference.
  destruct (bzip fsub _ _) as [nd|] eqn:E; cbn; [|discriminate].
  destruct (write_band _ _) eqn:Wr; cbn; [|discriminate]. intros [= <-].
  exact (write_band_nonempty (set_output _ Float32 (-9999)) nd _ Hh Hw (bzip_wf _ _ _ _ E) Wr).
Qed.

(** On two NDVI rasters of one shape with values in [[-1, 1]] (as
    [calculate_ndvi] writes them), [calculate_ndvi_difference] succeeds;
    the difference is the pixelwise float32 subtraction 2025 - 2021, lies
    in [[-2, 2]], and is written with nodata -9999, outside that range. *)
Theorem calculate_ndvi_difference_ok (src_2021 src_2025 : raster f32) :
  raster_ok src_2021 -> raster_ok src_2025 ->
  p_height (r_profile src_2021) = p_height (r_profile src_2025) ->
  p_width (r_profile src_2021) = p_width (r_profile src_2025) ->
  Forall (within 1) (cells (r_band src_2021)) -> Forall (within 1) (cells (r_band src_2025)) ->
  exists out diff, calculate_ndvi_difference src_2021 src_2025 = Ok (out, diff) /\
    cells diff = zipWith fsub (cells (r_band src_2025)) (cells (r_band src_2021)) /\
    Forall (within 2) (cells diff) /\ r_band out = diff /\ p_nodata (r_profile out) = Some (-9999).
Proof.
  intros (W1 & H1 & C1 & _) (W2 & H2 & C2 & _) Hh Hw P1 P2.
  unfold calculate_ndvi_difference; cbv zeta.
  destruct (bzip fsub (r_band src_2025) (r_band src_2021)) as [d|] eqn:E;
    [| rewrite bzip_same_shape in E by (auto; lia); discriminate].
  pose proof E as E'. rewrite bzip_same_shape in E' by (auto; lia). injection E' as <-.
  rewrite res_bind_ok. simpl astype_f32. rewrite write_band_ok by (simpl; lia). rewrite res_bind_ok.
  do 2 eexists. split; [reflexivity |]. split; [reflexivity |]. split; [| split; reflexivity].
  exact (bzip_Forall fsub (within 1) (within 1) (within 2) _ _ _ W2 W1 fsub_within P2 P1 E).
Qed.
End DifferenceProofs.

(** Scenario 4 of the specification: an earlier NDVI of 0.2 and a
    later one of 0.35 everywhere, with the threshold 0.1, give the class 2
    (increase) everywhere. *)
Example change_detection_scenario_increase :
  let p := mk_profile Float32 1 2 2 (Some (-9999)) (mk_affine 10 0 0 0 (-10) 0) 32643 in
  exists out diff,
    calculate_ndvi_difference (mk_raster p (mk_nd 2 2 (repeat (Num (2 # 10)) 4)))
                              (mk_raster p (mk_nd 2 2 (repeat (Num (35 # 100)) 4))) = Ok (out, diff) /\
    classify_changes diff (1 # 10) = Ok (mk_nd 2 2 [2; 2; 2; 2]%Z).
Proof. do 2 eexists. split; vm_compute; reflexivity. Qed.

(** ** Witnesses *)

Definition label_profile : profile := mk_profile Uint8 1 2 2 (Some 0) (mk_affine 10 0 0 0 (-10) 0) 32643.
Definition labels_a : raster Z := mk_raster label_profile (mk_nd 2 2 [1; 1; 2; 2]%Z).
Definition labels_b : raster Z := mk_raster label_profile (mk_nd 2 2 [1; 2; 2; 2]%Z).
Definition ndvi_profile : profile := mk_profile Float32 1 1 3 (Some (-9999)) (mk_affine 10 0 0 0 (-10) 0) 32643.
Definition ndvi_2021 : raster f32 := mk_raster ndvi_profile (mk_nd 1 3 [Num (1 # 2); Num 0; Num (-1)]).
Definition ndvi_2025 : raster f32 := mk_raster ndvi_profile (mk_nd 1 3 [Num (3 # 5); Num (-1 # 4); Num 1]).
Definition diff3 : ndarray f32 := mk_nd 1 3 [Num (-1 # 2); Num (1 # 10); NaN].

Ltac within_tac :=
  repeat (apply Forall_cons; [eexists; split; [reflexivity | split; apply Qle_bool_iff; reflexivity] |]);
  apply Forall_nil.

Lemma change_px_boundary_witness : change_px (1 # 10) (Num (-1 # 10)) = 3%Z.
Proof. apply change_px_boundary; [discriminate | right; reflexivity]. Defined.

Lemma classify_changes_classes_witness :
  exists changes, classify_changes diff3 (1 # 10) = Ok changes /\
    Forall2 (fun d v => match d with
                        | NaN => v = 0%Z
                        | Num q => (v = 1%Z /\ q < - rnd (1 # 10)) \/ (v = 2%Z /\ rnd (1 # 10) < q) \/
                                   (v = 3%Z /\ - rnd (1 # 10) <= q <= rnd (1 # 10))
                        end) (cells diff3) (cells changes).
Proof. apply classify_changes_classes; [reflexivity | discriminate]. Defined.

Lemma compare_classifications_ok_witness :
  let m := mk_nd 2 2 (zipWith transition_px (cells (r_band labels_a)) (cells (r_band labels_b))) in
  compare_classifications labels_a labels_b = Ok (mk_raster (set_output label_profile Uint8 0) m, m).
Proof. apply (compare_classifications_ok labels_a labels_b); [raster_ok_tac | raster_ok_tac | reflexivity | reflexivity]. Defined.

Lemma compare_classifications_symmetric_witness :
  exists out_ab out_ba m,
    compare_classifications labels_a labels_b = Ok (out_ab, m) /\ compare_classifications labels_b labels_a = Ok (out_ba, m).
Proof. apply compare_classifications_symmetric; [raster_ok_tac | raster_ok_tac | reflexivity | reflexivity]. Defined.


Lemma calculate_ndvi_difference_ok_witness :
  exists out diff, calculate_ndvi_difference ndvi_2021 ndvi_2025 = Ok (out, diff) /\
    cells diff = zipWith fsub (cells (r_band ndvi_2025)) (cells (r_band ndvi_2021)) /\
    Forall (within 2) (cells diff) /\ r_band out = diff /\ p_nodata (r_profile out) = Some (-9999).
Proof.
  apply calculate_ndvi_difference_ok; [raster_ok_tac | raster_ok_tac | reflexivity | reflexivity | within_tac | within_tac].
Defined.
End Change.
