(* ===== verification/Window.v ===== *)
(** * Window: the windowed sampler of [prepare_classification_data]

    Models src/land_cover_classification.py, lines 17-57.  The window is
    computed from the first band with Python's floor division:
    [center = size // 2], [half_win = window_size // 2], each edge clamped
    to the raster ([max(center - half_win, 0)], [min(center + half_win,
    size)]).  Every band is read through that window ([src.read(1,
    window=window)], which rasterio refuses when the window leaves the
    dataset), the bands are stacked ([np.stack] refuses different shapes),
    reshaped into one vector of band values per pixel in row-major order
    ([stacked.reshape(n_bands, -1).T]), and the pixels with a NaN or a
    zero in some band are dropped.  The profile returned is the first
    band's with the window's height and width; its transform is left
    unchanged.

    Theorems: the window lies inside the raster and is never wider than
    the requested size; it is exactly [2 * (window_size // 2)] wide when
    it fits (so an odd size loses a pixel) and the whole extent when it
    does not; on bands of one shape the function succeeds, the validity
    mask has one entry per window pixel, the kept vectors are exactly the
    valid ones, and the profile keeps the full raster's transform. *)

From Stdlib Require Import QArith ZArith List Lia Arith Bool.
From S2P Require Import Prelude Float32 NdArray Raster.
Import ListNotations.

Open Scope Z_scope.

Module Window.

(** [rasterio.windows.Window(col_off, row_off, width, height)]. *)
Record window : Type := mk_window {
  col_off : Z; row_off : Z; w_width : Z; w_height : Z
}.

(** Lines 29-37: the centred window of the first band. *)
Definition center_window (height width window_size : Z) : window :=
  let center_y := height / 2 in
  let center_x := width / 2 in
  let half_win := window_size / 2 in
  let y1 := Z.max (center_y - half_win) 0 in
  let y2 := Z.min (center_y + half_win) height in
  let x1 := Z.max (center_x - half_win) 0 in
  let x2 := Z.min (center_x + half_win) width in
  mk_window x1 y1 (x2 - x1) (y2 - y1).

(** [profile.update(height=h, width=w)]: every other entry, the transform
    included, is copied. *)
Definition update_shape (p : profile) (h w : nat) : profile :=
  {| p_dtype := p_dtype p; p_count := p_count p; p_height := h; p_width := w;
     p_nodata := p_nodata p; p_transform := p_transform p; p_crs := p_crs p |}.

(** rasterio reads a window only when it lies inside the dataset. *)
Definition window_inside (win : window) (p : profile) : bool :=
  (0 <=? col_off win) && (0 <=? row_off win) && (0 <=? w_width win) && (0 <=? w_height win) &&
  (col_off win + w_width win <=? Z.of_nat (p_width p)) &&
  (row_off win + w_height win <=? Z.of_nat (p_height p)).

(** [src.read(1, window=win)]. *)
Definition read_window {A} `{Dflt A} (r : raster A) (win : window) : res (ndarray A) :=
  if window_inside win (r_profile r)
  then
    let h := Z.to_nat (w_height win) in
    let w := Z.to_nat (w_width win) in
    Ok (mk_nd h w (map (fun k => at_ (r_band r) (Z.to_nat (row_off win) + k / w)
                                                (Z.to_nat (col_off win) + k mod w))
                       (seq 0 (h * w))))
  else Err WindowError.

(** [np.stack(bands_data, axis=0)] followed by [.shape]: the common shape. *)
Definition stack {A} (bands : list (ndarray A)) : res (nat * nat) :=
  match bands with
  | [] => Err StackShapeError
  | b :: rest =>
      if forallb (fun c => same_shape b c) rest then Ok (nrows b, ncols b) else Err StackShapeError
  end.

(** [stacked.reshape(n_bands, -1).T]: the band values of each pixel, pixels
    in row-major order. *)
Definition pixel_vectors {A} `{Dflt A} (bands : list (ndarray A)) (n : nat) : list (list A) :=
  map (fun p => map (fun b => nth p (cells b) dflt) bands) (seq 0 n).

(** [~np.any(np.isnan(v) | (v == 0))] for one pixel vector. *)
Definition is_valid (v : list f32) : bool :=
  negb (existsb (fun x => isnan x || feqb x (Num 0)) v).

(** Reads every band through the window, in the order of the list. *)
Fixpoint read_all {A} `{Dflt A} (srcs : list (raster A)) (win : window) : res (list (ndarray A)) :=
  match srcs with
  | [] => Ok []
  | s :: rest => b <- read_window s win ;; bs <- read_all rest win ;; Ok (b :: bs)
  end.

(** [prepare_classification_data(band_paths, roi_path, window_size)],
    with the opened datasets in place of the paths; returns
    [(valid_data, valid_pixels, (height, width), profile)]. *)
Definition prepare_classification_data (srcs : list (raster f32)) (window_size : Z)
  : res (list (list f32) * list bool * (nat * nat) * profile) :=
  match srcs with
  | [] => Err ListIndexError
  | src :: _ =>
      let win := center_window (Z.of_nat (p_height (r_profile src))) (Z.of_nat (p_width (r_profile src)))
                               window_size in
      let profile := update_shape (r_profile src) (Z.to_nat (w_height win)) (Z.to_nat (w_width win)) in
      bands_data <- read_all srcs win ;;
      shp <- stack bands_data ;;
      let '(height, width) := shp in
      let reshaped := pixel_vectors bands_data (height * width) in
      let valid_pixels := map is_valid reshaped in
      let valid_data := filter is_valid reshaped in
      Ok (valid_data, valid_pixels, (height, width), profile)
  end.

(** ** Geometry of the centred window *)

(** Unfolds the window and adds the floor-division facts of its three
    halvings, for [lia]. *)
Ltac win_tac H W ws :=
  unfold center_window; cbn [col_off row_off w_width w_height];
  pose proof (Z_half_bounds H ltac:(lia)); pose proof (Z_half_bounds W ltac:(lia));
  pose proof (Z_half_bounds ws ltac:(lia)); pose proof (Z_half_mod ws); lia.

(** The bounds of the centred window. *)
Lemma center_window_bounds (H W ws : Z) :
  0 <= H -> 0 <= W -> 0 <= ws ->
  let win := center_window H W ws in
  0 <= col_off win /\ 0 <= w_width win /\ col_off win + w_width win <= W /\ w_width win <= ws /\
  0 <= row_off win /\ 0 <= w_height win /\ row_off win + w_height win <= H /\ w_height win <= ws.
Proof. intros Hh Hw Hws win; subst win; repeat split; win_tac H W ws. Qed.

(** C38: The centred window lies inside the raster and is at most
    [window_size] pixels wide and high, whatever the size requested. *)
Theorem center_window_within (H W ws : Z) :
  0 <= H -> 0 <= W -> 0 <= ws ->
  let win := center_window H W ws in
  0 <= col_off win /\ 0 <= w_width win /\ col_off win + w_width win <= W /\ w_width win <= ws /\
  0 <= row_off win /\ 0 <= w_height win /\ row_off win + w_height win <= H /\ w_height win <= ws.
Proof. apply center_window_bounds. Qed.

(** When the requested window fits around the centre, it is centred at
    [(H // 2, W // 2)] and is [window_size - window_size % 2] pixels on
    each side: an odd size yields a window one pixel smaller. *)
Theorem center_window_interior (H W ws : Z) :
  0 <= H -> 0 <= W -> 0 <= ws ->
  ws / 2 <= H / 2 -> H / 2 + ws / 2 <= H -> ws / 2 <= W / 2 -> W / 2 + ws / 2 <= W ->
  center_window H W ws = mk_window (W / 2 - ws / 2) (H / 2 - ws / 2) (ws - ws mod 2) (ws - ws mod 2).
Proof. intros. unfold center_window; cbv zeta; f_equal; win_tac H W ws. Qed.

(** A window size at least twice the raster's larger half is clamped
    to the whole raster, silently. *)
Theorem center_window_clamped (H W ws : Z) :
  0 <= H -> 0 <= W -> 0 <= ws -> H - H / 2 <= ws / 2 -> W - W / 2 <= ws / 2 ->
  center_window H W ws = mk_window 0 0 W H.
Proof. intros. unfold center_window; cbv zeta; f_equal; win_tac H W ws. Qed.

(** The centred window of a raster can be read from every raster of the
    same height and width. *)
Lemma center_window_inside (p q : profile) ws :
  0 <= ws -> p_height q = p_height p -> p_width q = p_width p ->
  window_inside (center_window (Z.of_nat (p_height p)) (Z.of_nat (p_width p)) ws) q = true.
Proof.
  intros Hws Hh Hw. unfold window_inside. rewrite Hh, Hw.
  destruct (center_window_bounds (Z.of_nat (p_height p)) (Z.of_nat (p_width p)) ws) as (? & ? & ? & ? & ? & ? & ? & ?);
    try lia.
Qed.

(** ** Reading, stacking and filtering *)

Section Reading.
Context {A : Type} `{Dflt A}.

Lemma read_window_ok (r : raster A) win :
  window_inside win (r_profile r) = true -> exists b, read_window r win = Ok b.
Proof. unfold read_window; intros ->; eauto. Qed.

(** A window read has the window's shape, and its pixel [(i, j)] is the
    band's pixel [(row_off + i, col_off + j)]. *)
Lemma read_window_spec (r : raster A) win b :
  read_window r win = Ok b ->
  nrows b = Z.to_nat (w_height win) /\ ncols b = Z.to_nat (w_width win) /\ wf b /\
  forall i j, (i < nrows b)%nat -> (j < ncols b)%nat ->
    at_ b i j = at_ (r_band r) (Z.to_nat (row_off win) + i) (Z.to_nat (col_off win) + j).
Proof.
  unfold read_window. destruct (window_inside win (r_profile r)); intros E; inversion E; subst; clear E.
  cbn. split; [| split; [| split]]; auto.
  - unfold wf; cbn; rewrite length_map, length_seq; reflexivity.
  - intros i j Hi Hj. unfold at_ at 1; cbn.
    rewrite nth_map_seq by nia. destruct (row_major_index i j (Z.to_nat (w_width win)) Hj) as [-> ->].
    reflexivity.
Qed.

Lemma read_all_Forall2 (srcs : list (raster A)) win bs :
  read_all srcs win = Ok bs <-> Forall2 (fun s b => read_window s win = Ok b) srcs bs.
Proof.
  revert bs; induction srcs as [|s rest IH]; intros bs; cbn.
  - split; [intros E; inversion E; constructor | intros F; inversion F; reflexivity].
  - split.
    + intros E. destruct (read_window s win) eqn:Hs; [| discriminate]. cbn in E.
      destruct (read_all rest win) eqn:Hr; [| discriminate]. cbn in E. inversion E; subst.
      constructor; [exact Hs | apply IH; reflexivity].
    + intros F. inversion F as [| ? b ? bs' Hs Hr]; subst. rewrite Hs. cbn.
      apply IH in Hr. rewrite Hr. reflexivity.
Qed.

Lemma read_all_ok (srcs : list (raster A)) win :
  Forall (fun s => window_inside win (r_profile s) = true) srcs -> exists bs, read_all srcs win = Ok bs.
Proof.
  induction 1 as [| s rest Hs _ [bs IH]]; [exists []; reflexivity |].
  destruct (read_window_ok s win Hs) as [b Hb]. exists (b :: bs). cbn. rewrite Hb, IH. reflexivity.
Qed.

Lemma read_all_shape (srcs : list (raster A)) win bs :
  read_all srcs win = Ok bs -> length bs = length srcs /\
  Forall (fun b => nrows b = Z.to_nat (w_height win) /\ ncols b = Z.to_nat (w_width win)) bs.
Proof.
  intros E. apply read_all_Forall2 in E. split; [symmetry; eapply Forall2_length; eauto |].
  induction E as [| s b ? ? Hb _ IH]; constructor; auto.
  destruct (read_window_spec s win b Hb) as (? & ? & _); auto.
Qed.

(** [np.stack] succeeds on bands of one shape and returns that shape. *)
Lemma stack_ok (b : ndarray A) bs h w :
  Forall (fun c => nrows c = h /\ ncols c = w) (b :: bs) -> stack (b :: bs) = Ok (h, w).
Proof.
  intros F. inversion F as [| ? ? [Hh Hw] Fs]; subst. cbn.
  replace (forallb _ bs) with true; [reflexivity |].
  symmetry; apply forallb_forall. intros c Hc. apply (proj1 (Forall_forall _ _) Fs) in Hc.
  destruct Hc as [Hh Hw]. unfold same_shape. rewrite Hh, Hw, !Nat.eqb_refl. reflexivity.
Qed.

Lemma pixel_vectors_length (bands : list (ndarray A)) n : length (pixel_vectors bands n) = n.
Proof. unfold pixel_vectors. rewrite length_map, length_seq. reflexivity. Qed.

(** The vector of pixel [p] holds the band values at [p], band by band. *)
Lemma nth_pixel_vectors (bands : list (ndarray A)) n p d :
  (p < n)%nat -> nth p (pixel_vectors bands n) d = map (fun b => nth p (cells b) dflt) bands.
Proof. intros Hp. unfold pixel_vectors. rewrite nth_map_seq by exact Hp. reflexivity. Qed.
End Reading.

(** A pixel vector is valid exactly when every band value is a number
    different from zero. *)
Lemma is_valid_spec v :
  is_valid v = true <-> Forall (fun x => exists q, x = Num q /\ ~ q == 0) v.
Proof.
  unfold is_valid. rewrite negb_true_iff, <- not_true_iff_false, existsb_exists, Forall_forall.
  split.
  - intros Hn x Hx. destruct x as [q|]; [| exfalso; apply Hn; exists NaN; auto].
    exists q; split; [reflexivity |]. intros Hq. apply Hn. exists (Num q). split; [exact Hx |].
    cbn. apply Qeq_bool_iff in Hq. rewrite Hq. reflexivity.
  - intros Hall [x [Hx Hb]]. destruct (Hall x Hx) as (q & -> & Hq). cbn in Hb.
    apply Qeq_bool_iff in Hb. contradiction.
Qed.

Lemma filter_length_count {X} (f : X -> bool) l :
  length (filter f l) = count_occ Bool.bool_dec (map f l) true.
Proof. induction l as [|x l IH]; cbn; [reflexivity |]. destruct (f x); cbn; auto. Qed.

(** ** [prepare_classification_data] *)

(** The shape of every successful run: the bands read through the centred
    window of the first band, stacked, their pixel vectors and the
    first band's profile with the window's shape. *)
Lemma prepare_classification_data_inv srcs ws out :
  prepare_classification_data srcs ws = Ok out ->
  exists src rest bs, srcs = src :: rest /\
    let win := center_window (Z.of_nat (p_height (r_profile src))) (Z.of_nat (p_width (r_profile src))) ws in
    let h := Z.to_nat (w_height win) in let w := Z.to_nat (w_width win) in
    read_all srcs win = Ok bs /\
    out = (filter is_valid (pixel_vectors bs (h * w)), map is_valid (pixel_vectors bs (h * w)), (h, w),
           update_shape (r_profile src) h w).
Proof.
  destruct srcs as [| src rest]; [discriminate |]. unfold prepare_classification_data.
  set (win := center_window _ _ ws).
  destruct (read_all (src :: rest) win) as [bs |] eqn:Hbs; cbn [res_bind]; [| discriminate].
  destruct (read_all_shape _ _ _ Hbs) as [Hlen Hshape].
  destruct bs as [| b bs']; [discriminate |].
  rewrite (stack_ok b bs' _ _ Hshape). intros E. injection E as <-.
  exists src, rest, (b :: bs'). split; [reflexivity |]. split; [exact Hbs | reflexivity].
Qed.

(** What the classifier receives: clean vectors, one flag per window
    pixel, one vector per flag set, and a profile of the window's shape. *)
Lemma prepare_classification_data_out srcs ws data valid h w prof :
  prepare_classification_data srcs ws = Ok (data, valid, (h, w), prof) ->
  Forall (Forall (fun x => exists q, x = Num q /\ ~ q == 0)) data /\
  length valid = (h * w)%nat /\ length data = count_occ Bool.bool_dec valid true /\
  p_height prof = h /\ p_width prof = w.
Proof.
  intros E. destruct (prepare_classification_data_inv _ _ _ E) as (src & rest & bs & -> & _ & Eout).
  cbn zeta in Eout. inversion Eout; subst. split; [| split; [| split]]; [| | | cbn; auto].
  - apply Forall_forall. intros v Hv. apply filter_In in Hv. apply is_valid_spec, Hv.
  - rewrite length_map, pixel_vectors_length. reflexivity.
  - apply filter_length_count.
Qed.

(** C29: On bands of the first band's height and width,
    [prepare_classification_data] succeeds: it returns the pixel vectors
    of the centred window that pass the validity test, the validity mask
    of all window pixels, the window's shape and the updated profile. *)
Theorem prepare_classification_data_ok (src : raster f32) rest ws :
  0 <= ws ->
  Forall (fun s => p_height (r_profile s) = p_height (r_profile src) /\
                   p_width (r_profile s) = p_width (r_profile src)) rest ->
  let win := center_window (Z.of_nat (p_height (r_profile src))) (Z.of_nat (p_width (r_profile src))) ws in
  let h := Z.to_nat (w_height win) in let w := Z.to_nat (w_width win) in
  exists bs, read_all (src :: rest) win = Ok bs /\
    prepare_classification_data (src :: rest) ws =
      Ok (filter is_valid (pixel_vectors bs (h * w)), map is_valid (pixel_vectors bs (h * w)), (h, w),
          update_shape (r_profile src) h w).
Proof.
  intros Hws Hrest win h w.
  destruct (read_all_ok (src :: rest) win) as [bs Hbs].
  { constructor; [apply center_window_inside; auto |].
    eapply Forall_impl; [| exact Hrest]. intros s [? ?]. apply center_window_inside; auto. }
  exists bs. split; [exact Hbs |].
  destruct (read_all_shape _ _ _ Hbs) as [Hlen Hshape].
  destruct bs as [| b bs']; [discriminate |].
  unfold prepare_classification_data. fold win. rewrite Hbs. cbn [res_bind].
  rewrite (stack_ok b bs' _ _ Hshape). reflexivity.
Qed.

(** C30: Every pixel vector handed to the classifier is free of NaN and of
    zero band values; there is one validity flag per window pixel, and
    as many vectors as flags set. *)
Theorem prepare_classification_data_valid srcs ws data valid h w prof :
  prepare_classification_data srcs ws = Ok (data, valid, (h, w), prof) ->
  Forall (Forall (fun x => exists q, x = Num q /\ ~ q == 0)) data /\
  length valid = (h * w)%nat /\ length data = count_occ Bool.bool_dec valid true.
Proof. intros E. destruct (prepare_classification_data_out _ _ _ _ _ _ _ E) as (? & ? & ? & _); auto. Qed.

(** C33: The profile returned has the window's height and width but keeps
    the full raster's transform (and every other entry): the window's
    offset is not applied to the georeferencing, contrary to the spec's
    "updated geotransform reflecting the new offset". *)
Theorem prepare_classification_data_profile src rest ws data valid h w prof :
  prepare_classification_data (src :: rest) ws = Ok (data, valid, (h, w), prof) ->
  p_height prof = h /\ p_width prof = w /\ p_transform prof = p_transform (r_profile src) /\
  p_dtype prof = p_dtype (r_profile src) /\ p_nodata prof = p_nodata (r_profile src).
Proof.
  intros E. destruct (prepare_classification_data_inv _ _ _ E) as (src' & rest' & bs & Eq & _ & Eout).
  injection Eq as <- <-. cbn zeta in Eout. inversion Eout; subst. cbn. auto.
Qed.

(** ** Witnesses *)

(** Decides a comparison of integer constants. *)
Ltac zcmp := vm_compute; discriminate.

Definition wprof : profile :=
  mk_profile Uint16 1 4 4 None (mk_affine 10 0 500000 0 (-10) 4000000) 32633.

(** Band values [k] at pixel [k]; the window of size 2 covers pixels
    5, 6, 9 and 10. *)
Definition band_a : raster f32 :=
  mk_raster wprof (mk_nd 4 4 (map (fun k => Num (inject_Z (Z.of_nat k))) (seq 0 16))).

(** A zero at pixel 6 and a NaN at pixel 9. *)
Definition band_b : raster f32 :=
  mk_raster wprof (mk_nd 4 4 (map (fun k => if (k =? 6)%nat then Num 0 else if (k =? 9)%nat then NaN
                                           else Num (inject_Z (Z.of_nat k + 100))) (seq 0 16))).

Lemma center_window_within_witness :
  let win := center_window 5 7 4 in
  0 <= col_off win /\ 0 <= w_width win /\ col_off win + w_width win <= 7 /\ w_width win <= 4 /\
  0 <= row_off win /\ 0 <= w_height win /\ row_off win + w_height win <= 5 /\ w_height win <= 4.
Proof. apply center_window_within; lia. Defined.

(** A requested size of 5 gives a 4 x 4 window. *)
Lemma center_window_interior_witness : center_window 10 10 5 = mk_window 3 3 4 4.
Proof. exact (center_window_interior 10 10 5 ltac:(zcmp) ltac:(zcmp) ltac:(zcmp) ltac:(zcmp) ltac:(zcmp) ltac:(zcmp) ltac:(zcmp)). Defined.

Lemma center_window_clamped_witness : center_window 3 4 10 = mk_window 0 0 4 3.
Proof. exact (center_window_clamped 3 4 10 ltac:(zcmp) ltac:(zcmp) ltac:(zcmp) ltac:(zcmp) ltac:(zcmp)). Defined.

Lemma prepare_classification_data_ok_witness :
  let win := center_window 4 4 2 in
  let h := Z.to_nat (w_height win) in let w := Z.to_nat (w_width win) in
  exists bs, read_all [band_a; band_b] win = Ok bs /\
    prepare_classification_data [band_a; band_b] 2 =
      Ok (filter is_valid (pixel_vectors bs (h * w)), map is_valid (pixel_vectors bs (h * w)), (h, w),
          update_shape wprof h w).
Proof. apply (prepare_classification_data_ok band_a [band_b] 2); [lia | repeat constructor]. Defined.

(** The two bands yield two valid pixels out of four. *)
Example prepare_classification_data_scenario :
  prepare_classification_data [band_a; band_b] 2 =
    Ok ([[Num 5; Num 105]; [Num 10; Num 110]], [true; false; false; true], (2%nat, 2%nat), update_shape wprof 2 2).
Proof. vm_compute. reflexivity. Qed.

Lemma prepare_classification_data_valid_witness :
  Forall (Forall (fun x => exists q, x = Num q /\ ~ q == 0)) [[Num 5; Num 105]; [Num 10; Num 110]] /\
  length [true; false; false; true] = (2 * 2)%nat /\
  length [[Num 5; Num 105]; [Num 10; Num 110]] = count_occ Bool.bool_dec [true; false; false; true] true.
Proof.
  apply (prepare_classification_data_valid [band_a; band_b] 2 _ _ 2 2 (update_shape wprof 2 2)).
  vm_compute. reflexivity.
Defined.

(** The window starts at pixel (1, 1), yet the profile keeps the origin
    of pixel (0, 0). *)
Lemma prepare_classification_data_profile_witness :
  col_off (center_window 4 4 2) = 1 /\
  (p_height (update_shape wprof 2 2) = 2%nat /\ p_width (update_shape wprof 2 2) = 2%nat /\
   p_transform (update_shape wprof 2 2) = p_transform (r_profile band_a) /\
   p_dtype (update_shape wprof 2 2) = p_dtype (r_profile band_a) /\
   p_nodata (update_shape wprof 2 2) = p_nodata (r_profile band_a)).
Proof.
  split; [reflexivity |].
  apply (prepare_classification_data_profile band_a [band_b] 2
           [[Num 5; Num 105]; [Num 10; Num 110]] [true; false; false; true]).
  vm_compute. reflexivity.
Defined.
End Window.
