(* ===== verification/Scaler.v ===== *)
(** * Scaler: scikit-learn's [StandardScaler] as [perform_classification] uses it

    [scaler.fit_transform(data)] (src/land_cover_classification.py,
    lines 65-67) computes, for every feature (band) [j], the mean and the
    population variance of column [j] over the samples, replaces a zero
    variance's scale by 1 (scikit-learn's [_handle_zeros_in_scale]) and
    maps every value to [(x - mean_j) / scale_j].  scikit-learn does
    this in float64 on the float32 inputs; the model computes in exact
    rationals, and the square root is a class [Sqrt] so that the
    theorems hold for every square root with the two properties they use.

    Theorems: every standardised column has sum (hence mean) zero, and a
    column of non-zero variance has unit variance once the square root is
    exact on it. *)

From Stdlib Require Import QArith Qfield List Lia Arith ZArith Lqa.
From S2P Require Import Prelude.
Import ListNotations.

Open Scope Q_scope.

(** A square root on the rationals: non-negative, positive on positive
    arguments. *)
Class Sqrt : Type := {
  qsqrt : Q -> Q;
  qsqrt_nonneg x : 0 <= qsqrt x;
  qsqrt_pos x : 0 < x -> 0 < qsqrt x
}.

(** The executable square root: exact on squares of rationals, the
    integer square root of numerator and denominator elsewhere. *)
Definition qsqrt_exact (q : Q) : Q :=
  let r := Qred q in Z.sqrt (Qnum r) # Z.to_pos (Z.sqrt (Zpos (Qden r))).

Lemma qsqrt_exact_nonneg x : 0 <= qsqrt_exact x.
Proof. unfold qsqrt_exact, Qle; cbn. pose proof (Z.sqrt_nonneg (Qnum (Qred x))). lia. Qed.

Lemma qsqrt_exact_pos x : 0 < x -> 0 < qsqrt_exact x.
Proof.
  intros Hx. rewrite <- (Qred_correct x) in Hx. unfold qsqrt_exact, Qlt in *; cbn in *.
  assert (0 < Z.sqrt (Qnum (Qred x)))%Z by (apply Z.sqrt_pos; lia). lia.
Qed.

#[export] Instance exact_sqrt : Sqrt := {|
  qsqrt := qsqrt_exact; qsqrt_nonneg := qsqrt_exact_nonneg; qsqrt_pos := qsqrt_exact_pos |}.

Fixpoint qsum (l : list Q) : Q :=
  match l with [] => 0 | x :: t => x + qsum t end.

Definition qlen {A} (l : list A) : Q := inject_Z (Z.of_nat (length l)).

Lemma qlen_cons {A} (x : A) l : qlen (x :: l) == qlen l + 1.
Proof. unfold qlen. cbn [length]. rewrite Nat2Z.inj_succ, <- Z.add_1_r, inject_Z_plus. reflexivity. Qed.

Lemma qlen_pos {A} (l : list A) : l <> [] -> ~ qlen l == 0.
Proof.
  destruct l as [| x t]; [congruence |]. intros _. rewrite qlen_cons. unfold qlen.
  assert (0 <= inject_Z (Z.of_nat (length t))) by (change 0 with (inject_Z 0); rewrite <- Zle_Qle; lia). lra.
Qed.

Lemma qsum_map_ext {A} (f g : A -> Q) l :
  (forall x, In x l -> f x == g x) -> qsum (map f l) == qsum (map g l).
Proof.
  induction l as [| x t IH]; intros H; cbn; [reflexivity |].
  rewrite (H x (or_introl eq_refl)), IH; [reflexivity | intros y Hy; apply H; right; exact Hy].
Qed.

Lemma qsum_mul_r {A} (f : A -> Q) k l : qsum (map (fun x => f x * k) l) == qsum (map f l) * k.
Proof. induction l as [| x t IH]; cbn; [ring | rewrite IH; ring]. Qed.

(** Shifting and scaling every element of a list. *)
Lemma qsum_affine (l : list Q) c s : qsum (map (fun x => (x - c) / s) l) == (qsum l - qlen l * c) / s.
Proof.
  induction l as [| x t IH]; cbn [map qsum]; [unfold qlen; cbn; unfold Qdiv; ring |].
  rewrite IH, qlen_cons. unfold Qdiv. ring.
Qed.

Module StandardScaler.

(** Column [j] of a sample matrix stored row by row. *)
Definition column (data : list (list Q)) (j : nat) : list Q := map (fun r => nth j r 0) data.

Definition mean (l : list Q) : Q := qsum l / qlen l.

(** [np.var]: the population variance. *)
Definition var (l : list Q) : Q := qsum (map (fun x => (x - mean l) * (x - mean l)) l) / qlen l.

(** The fitted attributes [mean_] and [scale_]. *)
Record scaler : Type := mk_scaler { mean_ : list Q; scale_ : list Q }.

Section Fit.
Context {S : Sqrt}.

(** [_handle_zeros_in_scale(np.sqrt(var_))]. *)
Definition scale_of (v : Q) : Q := if Qeq_bool v 0 then 1 else qsqrt v.

(** [StandardScaler().fit(data)] on [n_features] columns. *)
Definition fit (data : list (list Q)) : scaler :=
  let d := length (hd [] data) in
  mk_scaler (map (fun j => mean (column data j)) (seq 0 d))
            (map (fun j => scale_of (var (column data j))) (seq 0 d)).

(** [scaler.transform(data)]. *)
Definition transform (s : scaler) (data : list (list Q)) : list (list Q) :=
  map (fun r => zipWith (fun x ms => (x - fst ms) / snd ms) r (combine (mean_ s) (scale_ s))) data.

Definition fit_transform (data : list (list Q)) : list (list Q) := transform (fit data) data.
End Fit.

Section Lemmas.
Context {S : Sqrt}.

(** Column [j] of the standardised data is column [j] shifted by its mean
    and divided by its scale, when every row has [n_features] values. *)
Lemma column_fit_transform data j :
  (forall r, In r data -> length r = length (hd [] data)) -> (j < length (hd [] data))%nat ->
  column (fit_transform data) j =
    map (fun x => (x - mean (column data j)) / scale_of (var (column data j))) (column data j).
Proof.
  intros Hrows Hj. unfold fit_transform, transform, fit, column. cbn [mean_ scale_].
  rewrite !map_map. apply map_ext_in. intros r Hr.
  set (d := length (hd [] data)) in *.
  rewrite (nth_zipWith _ _ _ j 0 (0, 0)); rewrite ?length_combine, ?length_map, ?length_seq, ?Hrows by (auto; lia).
  rewrite combine_nth by (rewrite !length_map; reflexivity).
  - rewrite !nth_map_seq by exact Hj. reflexivity.
  - exact Hj.
  - lia.
Qed.

Lemma column_nonempty data j : (j < length (hd [] data))%nat -> column data j <> [].
Proof. destruct data; cbn; [lia | discriminate]. Qed.

(** The standardised column sums to zero. *)
Lemma qsum_column_fit_transform data j :
  (forall r, In r data -> length r = length (hd [] data)) -> (j < length (hd [] data))%nat ->
  qsum (column (fit_transform data) j) == 0.
Proof.
  intros Hrows Hj. rewrite column_fit_transform by assumption. rewrite qsum_affine.
  pose proof (qlen_pos _ (column_nonempty data j Hj)).
  assert (E : qsum (column data j) - qlen (column data j) * mean (column data j) == 0) by (unfold mean; field; auto).
  rewrite E. unfold Qdiv. ring.
Qed.
End Lemmas.

(** Ties the scale of a non-zero variance to the square root. *)
Lemma scale_of_nonzero {S : Sqrt} v : ~ v == 0 -> scale_of v = qsqrt v.
Proof. intros Hv. unfold scale_of. destruct (Qeq_bool v 0) eqn:E; [apply Qeq_bool_iff in E; contradiction | reflexivity]. Qed.

Section Theorems.
Context {S : Sqrt}.

(** After [fit_transform], every feature column has mean zero: the
    mean of column [j] of the output is 0 for every feature [j] of a
    sample matrix whose rows all have [n_features] values. *)
Theorem fit_transform_mean_zero data j :
  (forall r, In r data -> length r = length (hd [] data)) -> (j < length (hd [] data))%nat ->
  mean (column (fit_transform data) j) == 0.
Proof.
  intros Hrows Hj. unfold mean. rewrite qsum_column_fit_transform by assumption. unfold Qdiv. ring.
Qed.

(** C37: A feature column of non-zero variance has unit variance after
    [fit_transform], whenever the square root is exact on that variance. *)
Theorem fit_transform_unit_variance data j :
  (forall r, In r data -> length r = length (hd [] data)) -> (j < length (hd [] data))%nat ->
  ~ var (column data j) == 0 -> qsqrt (var (column data j)) * qsqrt (var (column data j)) == var (column data j) ->
  var (column (fit_transform data) j) == 1.
Proof.
  intros Hrows Hj Hv Hsq. pose proof (qsum_column_fit_transform data j Hrows Hj) as Hz.
  unfold var at 1.
  rewrite (qsum_map_ext _ (fun x => x * x)) by (intros; unfold mean; rewrite Hz; unfold Qdiv; ring).
  rewrite column_fit_transform by assumption. rewrite scale_of_nonzero by exact Hv.
  set (l := column data j) in *. set (m := mean l). set (s := qsqrt (var l)) in *.
  assert (Hs : ~ s == 0) by (intros E; apply Hv; rewrite <- Hsq, E; ring).
  pose proof (qlen_pos _ (column_nonempty data j Hj)) as Hn.
  replace (qlen (map _ l)) with (qlen l) by (unfold qlen; rewrite length_map; reflexivity). rewrite map_map.
  rewrite (qsum_map_ext _ (fun x => (x - m) * (x - m) * / (s * s))) by (intros; cbv beta; field; exact Hs).
  rewrite qsum_mul_r. revert Hsq; unfold var; fold m. intros Hsq. rewrite Hsq. field.
  split; [exact Hn | intros E; apply Hv; unfold var; fold m; rewrite E; unfold Qdiv; ring].
Qed.
End Theorems.

(** ** Witnesses *)

(** Two samples of two bands: band 0 has mean 2 and variance 1, band 1
    is constant. *)
Definition samples : list (list Q) := [[1; 10]; [3; 10]].

Lemma samples_rows : forall r, In r samples -> length r = length (hd [] samples).
Proof. intros r Hr. destruct Hr as [<- | [<- | []]]; reflexivity. Qed.

Example fit_transform_samples : map (map Qred) (fit_transform samples) = [[-1; 0]; [1; 0]].
Proof. vm_compute. reflexivity. Qed.

Lemma fit_transform_mean_zero_witness : mean (column (fit_transform samples) 1) == 0.
Proof. apply fit_transform_mean_zero; [exact samples_rows | cbn; lia]. Defined.

Lemma fit_transform_unit_variance_witness : var (column (fit_transform samples) 0) == 1.
Proof.
  apply fit_transform_unit_variance; [exact samples_rows | cbn; lia | vm_compute; discriminate | reflexivity].
Defined.
End StandardScaler.
