(* ===== verification/KMeans.v ===== *)
(** * KMeans: scikit-learn's [KMeans(n_clusters, random_state=42, n_init=10)]

    [kmeans.fit_predict(data_scaled)] (src/land_cover_classification.py,
    lines 69-71) runs Lloyd's algorithm [n_init] times from the initial
    centres chosen by k-means++ and keeps the run of lowest inertia.  One
    run ([_kmeans_single_lloyd]) repeats, at most [max_iter = 300] times:
    assign every sample to its nearest centre (first index on ties, as
    [argmin]); move every centre to the mean of its samples; stop when
    the labels did not change (strict convergence) or when the squared
    centre shift is at most [tol]; without strict convergence, the labels
    are recomputed from the final centres.

    The k-means++ seeding depends on NumPy's random generator; the model
    takes the [n_init] initial centre sets as an argument ([inits]).  A
    cluster left without samples keeps its centre (scikit-learn moves it
    to a far sample; with k-means++ seeds on data of more distinct points
    than clusters this branch is not reached).  Arithmetic is exact
    rational arithmetic in place of float64.

    Theorems: the nearest-centre assignment is optimal and in range; the
    centre update is idempotent on fixed labels; every run returns labels
    that are the nearest-centre assignment of the centres it returns;
    [fit_predict] returns one label in [0, n_clusters) per sample; the
    input errors of scikit-learn are raised in its order; the inertia of
    the returned model is at most the k-means objective of the first
    seeds (the E-step and the M-step never raise the cost); and every
    label of the fitted model names a centre of its [cluster_centers_]
    nearest to the sample. *)

From Stdlib Require Import QArith List Lia Arith ZArith Lqa.
From S2P Require Import Prelude Float32 Scaler.
Import ListNotations.

Open Scope Q_scope.

Module KMeans.

Definition point := list Q.

(** Squared Euclidean distance. *)
Definition dist2 (x c : point) : Q := qsum (zipWith (fun a b => (a - b) * (a - b)) x c).

(** [np.argmin]: the first index of the least value. *)
Fixpoint argmin_aux (ds : list Q) (i best : nat) (bd : Q) : nat :=
  match ds with
  | [] => best
  | d :: t => if Qle_bool bd d then argmin_aux t (S i) best bd else argmin_aux t (S i) i d
  end.

Definition argmin (ds : list Q) : nat :=
  match ds with [] => 0%nat | d :: t => argmin_aux t 1 0 d end.

Definition nearest (centers : list point) (x : point) : nat := argmin (map (dist2 x) centers).

(** The E-step: the label of every sample. *)
Definition assign (centers : list point) (pts : list point) : list nat := map (nearest centers) pts.

Fixpoint mapi_from {A B} (f : nat -> A -> B) (i : nat) (l : list A) : list B :=
  match l with [] => [] | x :: t => f i x :: mapi_from f (S i) t end.

(** The M-step for cluster [k]: the mean of its samples, or the old
    centre when it has none. *)
Definition centroid (pts : list point) (labels : list nat) (k : nat) (old : point) : point :=
  match map fst (filter (fun pl => Nat.eqb (snd pl) k) (combine pts labels)) with
  | [] => old
  | members => map (fun j => StandardScaler.mean (StandardScaler.column members j)) (seq 0 (length old))
  end.

Definition update (pts : list point) (labels : list nat) (centers : list point) : list point :=
  mapi_from (centroid pts labels) 0 centers.

(** [(center_shift ** 2).sum()]. *)
Definition center_shift_tot (old new : list point) : Q := qsum (zipWith dist2 old new).

Definition labels_eqb (a b : list nat) : bool :=
  if list_eq_dec Nat.eq_dec a b then true else false.

(** One run of [_kmeans_single_lloyd]: [labels_old] is [None] before the
    first iteration ([np.full(n_samples, -1)]). *)
Fixpoint lloyd (fuel : nat) (tol : Q) (pts : list point) (centers : list point)
    (labels_old : option (list nat)) : list nat * list point :=
  match fuel with
  | O => (assign centers pts, centers)
  | S f =>
      let labels := assign centers pts in
      let centers' := update pts labels centers in
      match labels_old with
      | Some lo => if labels_eqb labels lo then (labels, centers')
                   else if Qle_bool (center_shift_tot centers centers') tol then (assign centers' pts, centers')
                   else lloyd f tol pts centers' (Some labels)
      | None => if Qle_bool (center_shift_tot centers centers') tol then (assign centers' pts, centers')
                else lloyd f tol pts centers' (Some labels)
      end
  end.

Definition max_iter : nat := 300.

Definition inertia (pts : list point) (labels : list nat) (centers : list point) : Q :=
  qsum (zipWith (fun x l => dist2 x (nth l centers [])) pts labels).

(** [_is_same_clustering]: the two labellings agree up to renaming. *)
Fixpoint same_clustering_aux (mapping : list (option nat)) (l1 l2 : list nat) : bool :=
  match l1, l2 with
  | a :: t1, b :: t2 =>
      match nth a mapping None with
      | None => same_clustering_aux (firstn a mapping ++ Some b :: skipn (S a) mapping) t1 t2
      | Some m => if Nat.eqb m b then same_clustering_aux mapping t1 t2 else false
      end
  | _, _ => true
  end.

Definition same_clustering (l1 l2 : list nat) (k : nat) : bool :=
  same_clustering_aux (repeat None k) l1 l2.

(** The loop over the [n_init] runs of [KMeans.fit]: a run replaces the
    best one when its inertia is strictly lower and its clustering
    differs. *)
Fixpoint best_run (k : nat) (tol : Q) (pts : list point) (inits : list (list point))
    (best : list nat * list point) : list nat * list point :=
  match inits with
  | [] => best
  | c0 :: rest =>
      let r := lloyd max_iter tol pts c0 None in
      if Qle_bool (inertia pts (fst best) (snd best)) (inertia pts (fst r) (snd r))
         || same_clustering (fst r) (fst best) k
      then best_run k tol pts rest best
      else best_run k tol pts rest r
  end.

(** [_tolerance(X, 1e-4)]: [1e-4] times the mean of the feature variances. *)
Definition tolerance (pts : list point) : Q :=
  StandardScaler.mean (map (fun j => StandardScaler.var (StandardScaler.column pts j)) (seq 0 (length (hd [] pts))))
  * (1 # 10000).

(** [KMeans(n_clusters=k).fit(X)] with the k-means++ seeds [c0 :: inits]
    of the [n_init] runs: the sample-count check of
    [_check_params_vs_input] comes first; the model is the kept run, its
    [labels_] and its [cluster_centers_]. *)
Definition fit (k : nat) (pts : list point) (c0 : list point) (inits : list (list point))
    : res (list nat * list point) :=
  if Nat.ltb (length pts) k then Err TooFewSamples
  else let tol := tolerance pts in
       Ok (best_run k tol pts inits (lloyd max_iter tol pts c0 None)).

(** [fit_predict(X)]: [fit(X).labels_]. *)
Definition fit_predict (k : nat) (pts : list point) (c0 : list point) (inits : list (list point)) : res (list nat) :=
  match fit k pts c0 inits with Ok m => Ok (fst m) | Err e => Err e end.

(** ** The assignment step *)

Lemma nth_app_len {A} (pre t : list A) d x : nth (length pre) (pre ++ x :: t) d = x.
Proof. rewrite app_nth2 by lia. rewrite Nat.sub_diag. reflexivity. Qed.

Lemma argmin_aux_spec t : forall pre best bd,
  (best < length pre)%nat -> nth best (pre ++ t) 0 = bd ->
  (forall k, (k < length pre)%nat -> bd <= nth k (pre ++ t) 0) ->
  let r := argmin_aux t (length pre) best bd in
  (r < length (pre ++ t))%nat /\ forall k, (k < length (pre ++ t))%nat -> nth r (pre ++ t) 0 <= nth k (pre ++ t) 0.
Proof.
  induction t as [| d t IH]; intros pre best bd Hb Hbd Hle r; subst r; cbn [argmin_aux].
  - rewrite app_nil_r in *. split; [exact Hb | intros k Hk; rewrite Hbd; apply Hle, Hk].
  - replace (pre ++ d :: t) with ((pre ++ [d]) ++ t) in * by (rewrite <- app_assoc; reflexivity).
    assert (Hd : nth (length pre) ((pre ++ [d]) ++ t) 0 = d) by (rewrite <- app_assoc; apply nth_app_len).
    replace (S (length pre)) with (length (pre ++ [d])) by (rewrite length_app; cbn; lia).
    destruct (Qle_bool bd d) eqn:E; [apply Qle_bool_iff in E | apply Qle_bool_false in E];
      apply IH; rewrite ?length_app; cbn [length]; try lia; auto;
      intros k Hk; (destruct (Nat.eq_dec k (length pre)) as [-> | ?]; [rewrite Hd; lra |]).
    + apply Hle; lia.
    + pose proof (Hle k ltac:(lia)). lra.
Qed.

(** [argmin] returns an index of the list holding its least value. *)
Lemma argmin_spec ds :
  ds <> [] -> (argmin ds < length ds)%nat /\ forall k, (k < length ds)%nat -> nth (argmin ds) ds 0 <= nth k ds 0.
Proof.
  destruct ds as [| d t]; [congruence |]. intros _.
  apply (argmin_aux_spec t [d] 0 d); cbn; [lia | reflexivity |].
  intros k Hk. replace k with 0%nat by lia. apply Qle_refl.
Qed.

Lemma nth_map_dist2 x (cs : list point) k :
  (k < length cs)%nat -> nth k (map (dist2 x) cs) 0 = dist2 x (nth k cs []).
Proof.
  intros Hk. rewrite (nth_indep _ 0 (dist2 x [])) by (rewrite length_map; exact Hk). apply map_nth.
Qed.

(** The nearest centre is a centre, and no centre is closer. *)
Lemma nearest_spec (centers : list point) x :
  centers <> [] ->
  (nearest centers x < length centers)%nat /\
  forall c, In c centers -> dist2 x (nth (nearest centers x) centers []) <= dist2 x c.
Proof.
  intros Hc. assert (Hm : map (dist2 x) centers <> []) by (destruct centers; cbn; congruence).
  destruct (argmin_spec _ Hm) as [Hlt Hle]. rewrite length_map in Hlt, Hle. unfold nearest.
  split; [exact Hlt |]. intros c Hin. destruct (In_nth _ _ [] Hin) as (k & Hk & <-).
  specialize (Hle k Hk). rewrite !nth_map_dist2 in Hle by assumption. exact Hle.
Qed.

Lemma length_assign centers pts : length (assign centers pts) = length pts.
Proof. apply length_map. Qed.

Lemma assign_bound centers pts :
  centers <> [] -> Forall (fun l => l < length centers)%nat (assign centers pts).
Proof.
  intros Hc. apply Forall_forall. intros l Hl. apply in_map_iff in Hl as (x & <- & _).
  apply nearest_spec, Hc.
Qed.

(** ** The update step *)

Lemma length_mapi_from {A B} (f : nat -> A -> B) i l : length (mapi_from f i l) = length l.
Proof. revert i; induction l; cbn; auto. Qed.

Lemma mapi_from_idem {A} (f : nat -> A -> A) i l :
  (forall k x, f k (f k x) = f k x) -> mapi_from f i (mapi_from f i l) = mapi_from f i l.
Proof. intros Hf; revert i; induction l; intros i; cbn; [reflexivity | rewrite Hf, IHl; reflexivity]. Qed.

Lemma length_centroid pts labels k old : length (centroid pts labels k old) = length old.
Proof.
  unfold centroid. destruct (map fst _); [reflexivity |]. rewrite length_map, length_seq. reflexivity.
Qed.

(** Moving the centres twice for the same labels moves them once. *)
Lemma update_idem pts labels centers :
  update pts labels (update pts labels centers) = update pts labels centers.
Proof.
  apply mapi_from_idem. intros k old.
  unfold centroid. destruct (map fst _); [reflexivity |]. rewrite length_map, length_seq. reflexivity.
Qed.

Lemma length_update pts labels centers : length (update pts labels centers) = length centers.
Proof. apply length_mapi_from. Qed.

(** ** Runs *)

(** Before an iteration with previous labels [L], the centres are the
    update of some centres for [L]. *)
Definition lloyd_inv (pts : list point) (lo : option (list nat)) (centers : list point) : Prop :=
  match lo with None => True | Some L => exists c0, centers = update pts L c0 end.

Lemma labels_eqb_true a b : labels_eqb a b = true -> a = b.
Proof. unfold labels_eqb. destruct (list_eq_dec Nat.eq_dec a b); congruence. Qed.

(** A run returns the nearest-centre labels of the centres it returns,
    and as many centres as it started from: on strict convergence the
    centres did not move, otherwise the labels are recomputed. *)
Lemma lloyd_assign fuel tol pts : forall centers lo,
  lloyd_inv pts lo centers ->
  fst (lloyd fuel tol pts centers lo) = assign (snd (lloyd fuel tol pts centers lo)) pts /\
  length (snd (lloyd fuel tol pts centers lo)) = length centers.
Proof.
  induction fuel as [| f IH]; intros centers lo Hinv; cbn [lloyd]; [auto |].
  set (labels := assign centers pts). set (centers' := update pts labels centers).
  assert (Hlen : length centers' = length centers) by apply length_update.
  assert (Hnext : fst (lloyd f tol pts centers' (Some labels)) = assign (snd (lloyd f tol pts centers' (Some labels))) pts /\
                  length (snd (lloyd f tol pts centers' (Some labels))) = length centers)
    by (rewrite <- Hlen; apply IH; exists centers; reflexivity).
  destruct lo as [L |].
  - destruct (labels_eqb labels L) eqn:E.
    + apply labels_eqb_true in E. destruct Hinv as [c0 Hc0]. cbn [fst snd]. split; [| exact Hlen].
      assert (centers' = centers) as -> by (unfold centers'; rewrite E, Hc0; apply update_idem). reflexivity.
    + destruct (Qle_bool _ tol); [cbn; auto | exact Hnext].
  - destruct (Qle_bool _ tol); [cbn; auto | exact Hnext].
Qed.

(** A run result whose labels are the assignment of its [k] centres. *)
Definition run_ok (k : nat) (pts : list point) (r : list nat * list point) : Prop :=
  fst r = assign (snd r) pts /\ length (snd r) = k.

Lemma lloyd_run_ok k tol pts c0 : length c0 = k -> run_ok k pts (lloyd max_iter tol pts c0 None).
Proof. intros Hk. destruct (lloyd_assign max_iter tol pts c0 None I) as [H1 H2]. split; congruence. Qed.

Lemma best_run_ok k tol pts inits : forall best,
  run_ok k pts best -> Forall (fun c => length c = k) inits -> run_ok k pts (best_run k tol pts inits best).
Proof.
  induction inits as [| c inits IH]; intros best Hb Hi; cbn [best_run]; [exact Hb |].
  inversion Hi; subst. destruct (_ || _); apply IH; auto using lloyd_run_ok.
Qed.

(** The kept run's inertia never exceeds the first run's. *)
Lemma best_run_inertia k tol pts inits : forall best,
  inertia pts (fst (best_run k tol pts inits best)) (snd (best_run k tol pts inits best)) <= inertia pts (fst best) (snd best).
Proof.
  induction inits as [| c inits IH]; intros best; cbn [best_run orb]; [apply Qle_refl |].
  destruct (Qle_bool _ _) eqn:E; [apply IH |].
  destruct (same_clustering _ _ _); [apply IH |].
  apply Qle_bool_false in E. eapply Qle_trans; [apply IH | apply Qlt_le_weak, E].
Qed.

Lemma fit_predict_run k pts c0 inits :
  (k <= length pts)%nat ->
  fit_predict k pts c0 inits = Ok (fst (best_run k (tolerance pts) pts inits (lloyd max_iter (tolerance pts) pts c0 None))).
Proof. intros Hk. unfold fit_predict, fit. replace (Nat.ltb (length pts) k) with false by (symmetry; apply Nat.ltb_ge; exact Hk). reflexivity. Qed.

Lemma fit_predict_lt k pts c0 inits : (length pts < k)%nat -> fit_predict k pts c0 inits = Err TooFewSamples.
Proof. intros Hlt. unfold fit_predict, fit. apply Nat.ltb_lt in Hlt. rewrite Hlt. reflexivity. Qed.

(** With enough samples and seeds of [k] centres, [fit_predict] returns
    the nearest-centre labels of [k] centres, each below [k]. *)
Lemma fit_predict_labels k pts c0 inits :
  (0 < k)%nat -> (k <= length pts)%nat -> length c0 = k -> Forall (fun c => length c = k) inits ->
  exists labels, fit_predict k pts c0 inits = Ok labels /\
    length labels = length pts /\ Forall (fun l => l < k)%nat labels.
Proof.
  intros Hk Hn Hc0 Hi. rewrite fit_predict_run by exact Hn.
  destruct (best_run_ok k (tolerance pts) pts inits _ (lloyd_run_ok k (tolerance pts) pts c0 Hc0) Hi) as [Hr Hlen].
  revert Hr Hlen. generalize (best_run k (tolerance pts) pts inits (lloyd max_iter (tolerance pts) pts c0 None)).
  intros r Hr Hlen. exists (fst r). split; [reflexivity |]. rewrite Hr. split; [apply length_assign |].
  rewrite <- Hlen. apply assign_bound. intros E. rewrite E in Hlen. cbn [length] in Hlen. lia.
Qed.

(** ** The inertia along a run *)

Lemma qsum_app l1 l2 : qsum (l1 ++ l2) == qsum l1 + qsum l2.
Proof. induction l1 as [| x t IH]; cbn; [ring | rewrite IH; ring]. Qed.

Lemma qsum_map_add {A} (f g : A -> Q) l : qsum (map (fun x => f x + g x) l) == qsum (map f l) + qsum (map g l).
Proof. induction l as [| x t IH]; cbn; [ring | rewrite IH; ring]. Qed.

Lemma qsum_map_zero {A} (l : list A) : qsum (map (fun _ => 0) l) == 0.
Proof. induction l as [| x t IH]; cbn; [reflexivity | rewrite IH; ring]. Qed.

Lemma qsum_map_le {A} (f g : A -> Q) l : (forall x, In x l -> f x <= g x) -> qsum (map f l) <= qsum (map g l).
Proof.
  induction l as [| x t IH]; intros H; cbn; [lra |].
  pose proof (H x (or_introl eq_refl)). pose proof (IH (fun y Hy => H y (or_intror Hy))). lra.
Qed.

(** Summing an indicator over the cluster indices [0, K). *)
Lemma qsum_seq_indicator (f : nat -> Q) l K :
  qsum (map (fun k => if Nat.eqb l k then f k else 0) (seq 0 K)) == if Nat.ltb l K then f l else 0.
Proof.
  induction K as [| K IH]; [reflexivity |].
  rewrite seq_S, map_app, qsum_app, IH. cbn [map qsum Nat.add].
  destruct (Nat.ltb_spec l K), (Nat.ltb_spec l (S K)), (Nat.eqb_spec l K); try lia; subst; ring.
Qed.

(** Exchanging a sum over samples and a sum over coordinates. *)
Lemma qsum_swap {A} (g : A -> nat -> Q) l d :
  qsum (map (fun x => qsum (map (g x) (seq 0 d))) l) == qsum (map (fun j => qsum (map (fun x => g x j) l)) (seq 0 d)).
Proof.
  induction l as [| x t IH]; cbn [map qsum]; [symmetry; apply qsum_map_zero |].
  rewrite IH, <- qsum_map_add. reflexivity.
Qed.

(** The samples of cluster [k]. *)
Definition members (pts : list point) (labels : list nat) (k : nat) : list point :=
  map fst (filter (fun pl => Nat.eqb (snd pl) k) (combine pts labels)).

Definition cluster_cost (pts : list point) (labels : list nat) (k : nat) (c : point) : Q :=
  qsum (map (fun x => dist2 x c) (members pts labels k)).

Lemma dist2_nil x : dist2 x [] == 0.
Proof. destruct x; reflexivity. Qed.

Lemma cluster_cost_cons x l pts labels k c :
  cluster_cost (x :: pts) (l :: labels) k c == (if Nat.eqb l k then dist2 x c else 0) + cluster_cost pts labels k c.
Proof. unfold cluster_cost, members. cbn [combine filter snd]. destruct (Nat.eqb l k); cbn [map fst qsum]; ring. Qed.

(** The inertia is the sum of the costs of the clusters. *)
Lemma inertia_clusters pts labels cs :
  length labels = length pts ->
  inertia pts labels cs == qsum (map (fun k => cluster_cost pts labels k (nth k cs [])) (seq 0 (length cs))).
Proof.
  revert labels. induction pts as [| x pts IH]; intros [| l labels] Hlen; cbn in Hlen; try lia.
  - symmetry. apply qsum_map_zero.
  - unfold inertia in *. cbn [zipWith qsum]. rewrite IH by lia.
    rewrite (qsum_map_ext (fun k => cluster_cost (x :: pts) (l :: labels) k (nth k cs []))
                          (fun k => (if Nat.eqb l k then dist2 x (nth k cs []) else 0) +
                                    cluster_cost pts labels k (nth k cs [])))
      by (intros; apply cluster_cost_cons).
    rewrite qsum_map_add, qsum_seq_indicator.
    destruct (Nat.ltb_spec l (length cs)); [reflexivity |].
    rewrite nth_overflow by lia. rewrite dist2_nil. reflexivity.
Qed.

Lemma dist2_coords x y d :
  length x = d -> length y = d ->
  dist2 x y == qsum (map (fun j => (nth j x 0 - nth j y 0) * (nth j x 0 - nth j y 0)) (seq 0 d)).
Proof.
  revert y d. induction x as [| a x IH]; intros [| b y] d Hx Hy; subst d; cbn in *; try lia; [reflexivity |].
  unfold dist2 in *. cbn [zipWith qsum]. rewrite (IH y (length x)) by lia.
  rewrite <- seq_shift, map_map. reflexivity.
Qed.

(** [sum (y - c)^2 = sum (y - m)^2 + (m - c) (2 sum y - n (m + c))]. *)
Lemma sq_shift (l : list Q) m c :
  qsum (map (fun y => (y - c) * (y - c)) l) ==
    qsum (map (fun y => (y - m) * (y - m)) l) + (m - c) * (2 * qsum l - qlen l * (m + c)).
Proof. induction l as [| y t IH]; cbn [map qsum]; [unfold qlen; cbn; ring | rewrite IH, qlen_cons; ring]. Qed.

Lemma Qsq_nonneg x : 0 <= x * x.
Proof.
  destruct (Qlt_le_dec x 0) as [H | H]; [| apply Qmult_le_0_compat; exact H].
  setoid_replace (x * x) with ((- x) * (- x)) by ring. apply Qmult_le_0_compat; lra.
Qed.

(** The mean minimises the sum of squared deviations. *)
Lemma sq_mean_le (l : list Q) c :
  l <> [] ->
  qsum (map (fun y => (y - StandardScaler.mean l) * (y - StandardScaler.mean l)) l) <= qsum (map (fun y => (y - c) * (y - c)) l).
Proof.
  intros Hl. rewrite (sq_shift l (StandardScaler.mean l) c). set (m := StandardScaler.mean l).
  pose proof (qlen_pos l Hl) as Hn.
  assert (Hn0 : 0 <= qlen l) by (unfold qlen; change 0 with (inject_Z 0); rewrite <- Zle_Qle; lia).
  assert (Hs : qsum l == qlen l * m) by (unfold m, StandardScaler.mean; field; exact Hn).
  rewrite Hs. setoid_replace ((m - c) * (2 * (qlen l * m) - qlen l * (m + c))) with (qlen l * ((m - c) * (m - c))) by ring.
  assert (0 <= qlen l * ((m - c) * (m - c))) by (apply Qmult_le_0_compat; [exact Hn0 | apply Qsq_nonneg]). lra.
Qed.

(** The centroid of a non-empty cluster of [d]-dimensional samples
    costs at most any [d]-dimensional centre. *)
Lemma mean_point_cost (ms : list point) (c : point) :
  ms <> [] -> Forall (fun x => length x = length c) ms ->
  qsum (map (fun x => dist2 x (map (fun j => StandardScaler.mean (StandardScaler.column ms j)) (seq 0 (length c)))) ms)
    <= qsum (map (fun x => dist2 x c) ms).
Proof.
  intros Hne Hd. set (d := length c). set (mu := map _ (seq 0 d)).
  assert (Hmu : length mu = d) by (unfold mu; rewrite length_map, length_seq; reflexivity).
  pose proof (proj1 (Forall_forall _ _) Hd) as Hx.
  rewrite (qsum_map_ext _ (fun x => qsum (map (fun j => (nth j x 0 - nth j mu 0) * (nth j x 0 - nth j mu 0)) (seq 0 d))))
    by (intros x Hin; apply dist2_coords; [apply Hx, Hin | exact Hmu]).
  rewrite (qsum_map_ext (fun x => dist2 x c) (fun x => qsum (map (fun j => (nth j x 0 - nth j c 0) * (nth j x 0 - nth j c 0)) (seq 0 d))))
    by (intros x Hin; apply dist2_coords; [apply Hx, Hin | reflexivity]).
  rewrite !(qsum_swap (fun x j => (nth j x 0 - _) * (nth j x 0 - _))).
  apply qsum_map_le. intros j Hj%in_seq. unfold mu. rewrite nth_map_seq by lia.
  pose proof (sq_mean_le (StandardScaler.column ms j) (nth j c 0)) as H.
  unfold StandardScaler.column in H. rewrite !map_map in H. apply H.
  destruct ms; [contradiction | discriminate].
Qed.

Lemma members_in pts labels k x : In x (members pts labels k) -> In x pts.
Proof. unfold members. intros ([y l] & <- & Hin)%in_map_iff. apply filter_In in Hin as [Hin _]. exact (in_combine_l _ _ _ _ Hin). Qed.

Lemma centroid_cost pts labels k c :
  Forall (fun x => length x = length c) pts ->
  cluster_cost pts labels k (centroid pts labels k c) <= cluster_cost pts labels k c.
Proof.
  intros Hd. unfold cluster_cost, centroid. change (map fst (filter _ (combine pts labels))) with (members pts labels k).
  destruct (members pts labels k) as [| m ms] eqn:E; [apply Qle_refl |].
  apply mean_point_cost; [discriminate |]. rewrite <- E.
  apply Forall_forall. intros x Hx. exact (proj1 (Forall_forall _ _) Hd x (members_in _ _ _ _ Hx)).
Qed.

Lemma nth_mapi_from {A B} (f : nat -> A -> B) l : forall i k d d',
  (k < length l)%nat -> nth k (mapi_from f i l) d = f (i + k)%nat (nth k l d').
Proof.
  induction l as [| x t IH]; intros i [| k] d d' Hk; cbn in *; try lia.
  - rewrite Nat.add_0_r. reflexivity.
  - rewrite (IH (S i) k d d') by lia. f_equal. lia.
Qed.

Lemma In_mapi_from {A B} (f : nat -> A -> B) l : forall i y, In y (mapi_from f i l) -> exists k x, In x l /\ y = f k x.
Proof.
  induction l as [| x t IH]; intros i y Hy; [destruct Hy |]. cbn in Hy.
  destruct Hy as [<- | Hy]; [exists i, x; split; [left |]; reflexivity |].
  destruct (IH _ _ Hy) as (k & z & ? & ->). exists k, z. split; [right |]; auto.
Qed.

(** The M-step never increases the inertia of fixed labels. *)
Lemma update_inertia pts labels cs d :
  length labels = length pts -> Forall (fun x => length x = d) pts -> Forall (fun c => length c = d) cs ->
  inertia pts labels (update pts labels cs) <= inertia pts labels cs.
Proof.
  intros Hl Hp Hc. rewrite !inertia_clusters, length_update by exact Hl.
  apply qsum_map_le. intros k Hk%in_seq. cbv beta. unfold update. rewrite (nth_mapi_from (centroid pts labels) cs 0 k [] []) by lia.
  apply centroid_cost. assert (Hk2 : (k < length cs)%nat) by (unfold point in *; lia). assert (Hk3 : In (nth k cs []) cs) by (apply nth_In; exact Hk2).
  eapply Forall_impl; [| exact Hp]. intros x Hx. cbv beta. rewrite Hx. symmetry. exact (proj1 (Forall_forall _ _) Hc _ Hk3).
Qed.

(** The E-step gives the least inertia of all labellings into the centres. *)
Lemma assign_inertia pts labels cs :
  cs <> [] -> length labels = length pts -> Forall (fun l => l < length cs)%nat labels ->
  inertia pts (assign cs pts) cs <= inertia pts labels cs.
Proof.
  intros Hc. revert labels. induction pts as [| x pts IH]; intros [| l labels] Hl Hb; cbn in Hl; try lia; [apply Qle_refl |].
  inversion Hb as [| ? ? Hlt Hb']; subst. change (assign cs (x :: pts)) with (nearest cs x :: assign cs pts). unfold inertia in *. cbn [zipWith qsum].
  pose proof (IH labels ltac:(lia) Hb'). pose proof (proj2 (nearest_spec cs x Hc) (nth l cs []) (nth_In _ _ Hlt)). lra.
Qed.

Lemma update_dims pts labels cs d :
  Forall (fun c => length c = d) cs -> Forall (fun c => length c = d) (update pts labels cs).
Proof.
  intros Hc. apply Forall_forall. intros y (k & c & Hin & ->)%In_mapi_from.
  rewrite length_centroid. exact (proj1 (Forall_forall _ _) Hc c Hin).
Qed.

(** Lloyd's objective: the inertia of the nearest-centre labels. *)
Definition objective (pts : list point) (cs : list point) : Q := inertia pts (assign cs pts) cs.

(** One iteration, E-step then M-step, does not increase the objective. *)
Lemma objective_step pts cs d :
  cs <> [] -> Forall (fun x => length x = d) pts -> Forall (fun c => length c = d) cs ->
  objective pts (update pts (assign cs pts) cs) <= objective pts cs.
Proof.
  intros Hne Hp Hc. unfold objective. set (cs' := update pts (assign cs pts) cs).
  assert (Hne' : cs' <> []) by (intros E; apply Hne, length_zero_iff_nil; rewrite <- (length_update pts (assign cs pts)); fold cs'; rewrite E; reflexivity).
  eapply Qle_trans; [apply (assign_inertia pts (assign cs pts)); [exact Hne' | apply length_assign |] |].
  - unfold cs'. rewrite length_update. apply assign_bound, Hne.
  - apply (update_inertia _ _ _ d); [apply length_assign | exact Hp | exact Hc].
Qed.

(** A run returns a model of inertia at most the objective of the centres
    it starts from. *)
Lemma lloyd_inertia fuel tol pts d : forall cs lo,
  cs <> [] -> Forall (fun x => length x = d) pts -> Forall (fun c => length c = d) cs ->
  inertia pts (fst (lloyd fuel tol pts cs lo)) (snd (lloyd fuel tol pts cs lo)) <= objective pts cs.
Proof.
  induction fuel as [| f IH]; intros cs lo Hne Hp Hc; cbn [lloyd]; [apply Qle_refl |].
  set (labels := assign cs pts). set (cs' := update pts labels cs).
  assert (Hne' : cs' <> []) by (intros E; apply Hne, length_zero_iff_nil; rewrite <- (length_update pts labels); fold cs'; rewrite E; reflexivity).
  assert (Hstep : objective pts cs' <= objective pts cs) by (apply (objective_step _ _ d); assumption).
  assert (Hnext : inertia pts (fst (lloyd f tol pts cs' (Some labels))) (snd (lloyd f tol pts cs' (Some labels))) <= objective pts cs)
    by (eapply Qle_trans; [apply IH; [exact Hne' | exact Hp | apply update_dims, Hc] | exact Hstep]).
  destruct lo as [L |]; [destruct (labels_eqb labels L) |]; try (destruct (Qle_bool _ tol); [exact Hstep | exact Hnext]).
  apply (update_inertia _ _ _ d); [apply length_assign | exact Hp | exact Hc].
Qed.

(** ** Theorems *)

(** C15: With at least [n_clusters] samples and seeds of [n_clusters]
    centres, [fit_predict] succeeds and returns one label per sample, each
    in [0, n_clusters): the nearest-centre labels of [n_clusters] centres. *)
Theorem fit_predict_ok k pts c0 inits :
  (0 < k)%nat -> (k <= length pts)%nat -> length c0 = k -> Forall (fun c => length c = k) inits ->
  exists labels centers, fit_predict k pts c0 inits = Ok labels /\
    length centers = k /\ labels = assign centers pts /\
    length labels = length pts /\ Forall (fun l => l < k)%nat labels.
Proof.
  intros Hk Hn Hc0 Hi. rewrite fit_predict_run by exact Hn.
  set (r := best_run _ _ _ _ _). destruct (best_run_ok k (tolerance pts) pts inits _ (lloyd_run_ok k (tolerance pts) pts c0 Hc0) Hi) as [Hr Hlen].
  fold r in Hr, Hlen. clearbody r. exists (fst r), (snd r). rewrite Hr.
  split; [reflexivity | split; [exact Hlen | split; [reflexivity | split; [apply length_assign |]]]].
  rewrite <- Hlen. apply assign_bound. intros E. rewrite E in Hlen. cbn [length] in Hlen. lia.
Qed.

(** C17: Every label of the fitted model names a centre of the model's own
    [cluster_centers_] at least as close to the sample as any other of
    those [n_clusters] centres: the labels [fit] returns are consistent
    with the centres it returns (on strict convergence the centres did
    not move; otherwise the final E-step recomputes the labels). *)
Theorem fit_nearest k pts c0 inits labels centers :
  (0 < k)%nat -> length c0 = k -> Forall (fun c => length c = k) inits ->
  fit k pts c0 inits = Ok (labels, centers) ->
  length centers = k /\
    forall i c, (i < length pts)%nat -> In c centers ->
      dist2 (nth i pts []) (nth (nth i labels 0%nat) centers []) <= dist2 (nth i pts []) c.
Proof.
  intros Hk Hc0 Hi E. unfold fit in E. destruct (Nat.ltb (length pts) k); [discriminate |].
  apply Ok_inj in E.
  destruct (best_run_ok k (tolerance pts) pts inits _ (lloyd_run_ok k (tolerance pts) pts c0 Hc0) Hi) as [Hr Hlen].
  rewrite E in Hr, Hlen. cbn [fst snd] in Hr, Hlen. subst labels.
  split; [exact Hlen |]. intros i c Hi' Hc. unfold assign.
  rewrite (nth_indep _ 0%nat (nearest centers [])) by (rewrite length_map; exact Hi'). rewrite map_nth.
  apply nearest_spec; [intros E'; rewrite E' in Hlen; cbn [length] in Hlen; lia | exact Hc].
Qed.

(** C16: Lloyd's iterations and the choice among the [n_init] runs
    never make the objective worse: the model [fit_predict] keeps (its
    labels and centres) has an inertia at most that of the
    nearest-centre assignment to the first run's seeds, for samples and
    seeds of one dimension [d]. *)
Theorem fit_predict_inertia k pts c0 inits d :
  (0 < k)%nat -> (k <= length pts)%nat -> length c0 = k ->
  Forall (fun x => length x = d) pts -> Forall (fun c => length c = d) c0 ->
  let r := best_run k (tolerance pts) pts inits (lloyd max_iter (tolerance pts) pts c0 None) in
  fit_predict k pts c0 inits = Ok (fst r) /\ inertia pts (fst r) (snd r) <= objective pts c0.
Proof.
  intros Hk Hn Hc0 Hp Hd r. split; [apply fit_predict_run, Hn |].
  eapply Qle_trans; [apply best_run_inertia |]. apply (lloyd_inertia _ _ _ d); [| exact Hp | exact Hd].
  intros E. rewrite E in Hc0. cbn in Hc0. lia.
Qed.

(** [fit_predict] raises the too-few-samples error exactly when there
    are fewer samples than clusters. *)
Theorem fit_predict_too_few k pts c0 inits :
  fit_predict k pts c0 inits = Err TooFewSamples <-> (length pts < k)%nat.
Proof.
  split; intros H.
  - destruct (Nat.ltb_spec (length pts) k) as [Hlt | Hge]; [exact Hlt |].
    rewrite fit_predict_run in H by exact Hge. discriminate.
  - apply fit_predict_lt, H.
Qed.

(** ** Witnesses *)

(** Two well separated pairs of values, two clusters, two seeds. *)
Definition kpts : list point := [[0]; [1]; [10]; [11]].

Example fit_predict_kpts : fit_predict 2 kpts [[0]; [1]] [[[10]; [11]]] = Ok [0; 0; 1; 1]%nat.
Proof. vm_compute. reflexivity. Qed.

Lemma fit_predict_ok_witness :
  exists labels centers, fit_predict 2 kpts [[0]; [1]] [[[10]; [11]]] = Ok labels /\
    length centers = 2%nat /\ labels = assign centers kpts /\
    length labels = length kpts /\ Forall (fun l => l < 2)%nat labels.
Proof. apply fit_predict_ok; cbn; [lia | lia | reflexivity | repeat constructor]. Defined.

Lemma fit_predict_inertia_witness :
  let r := best_run 2 (tolerance kpts) kpts [[[10]; [11]]] (lloyd max_iter (tolerance kpts) kpts [[0]; [1]] None) in
  fit_predict 2 kpts [[0]; [1]] [[[10]; [11]]] = Ok (fst r) /\ inertia kpts (fst r) (snd r) <= objective kpts [[0]; [1]].
Proof. apply (fit_predict_inertia 2 kpts [[0]; [1]] [[[10]; [11]]] 1); cbn; [lia | lia | reflexivity | repeat constructor | repeat constructor]. Defined.

(** The example of three close values and one far value: the model
    labels the first three with the centre [3 # 3] (the mean 1) and the last with [10]. *)
Lemma fit_nearest_witness :
  fit 2 [[0]; [1]; [2]; [10]] [[0]; [1]] [] = Ok ([0; 0; 0; 1]%nat, [[3 # 3]; [10]]) /\
  length [[3 # 3]; [10]] = 2%nat /\
    forall i c, (i < length [[0]; [1]; [2]; [10]])%nat -> In c [[3 # 3]; [10]] ->
      dist2 (nth i [[0]; [1]; [2]; [10]] []) (nth (nth i [0; 0; 0; 1]%nat 0%nat) [[3 # 3]; [10]] []) <=
      dist2 (nth i [[0]; [1]; [2]; [10]] []) c.
Proof.
  assert (E : fit 2 [[0]; [1]; [2]; [10]] [[0]; [1]] [] = Ok ([0; 0; 0; 1]%nat, [[3 # 3]; [10]])) by (vm_compute; reflexivity).
  split; [exact E |]. exact (fit_nearest 2 _ [[0]; [1]] [] _ _ ltac:(lia) eq_refl (Forall_nil _) E).
Defined.
End KMeans.
