(* ===== verification/ClassMap.v ===== *)
(** * ClassMap: [perform_classification], [create_classification_map]
    and the body of one year of src/land_cover_classification.py

    [perform_classification] (lines 59-73) standardises the valid pixel
    vectors and clusters them; the k-means++ seeding is the class
    [Seeding], whose instances supply the [n_init] initial centre sets
    from the scaled data.  [create_classification_map] (lines 75-94)
    scatters [labels + 1] into a zeroed uint8 buffer at the valid
    positions ([full_map[valid_pixels] = labels + 1]: NumPy casts the
    int labels to uint8 modulo 256, broadcasts a single value, and
    raises when the mask or the value count does not fit), reshapes it
    to the window and writes it with the profile updated to uint8,
    count 1, nodata 0.  [classify_year] is the body of the year loop of
    [main] (lines 147-164); the loop itself, with its file checks and
    writes, is [Pipeline.landcover_main].

    Theorems: the map holds [label + 1] at the valid positions, in order,
    and 0 elsewhere; with fewer than 255 clusters its zero pixels are
    exactly the invalid ones; the error branches of the scatter; a year
    whose bands have one shape and enough valid pixels yields a map whose
    labels lie in [1, n_clusters]; with 256 clusters the last label wraps
    to the nodata value 0. *)

From Stdlib Require Import QArith List Lia Arith ZArith Bool.
From S2P Require Import Prelude Float32 NdArray Raster Window Scaler KMeans.
Import ListNotations.

Module Classification.

(** The k-means++ seeding of [KMeans(random_state=42, n_init=10)]: the
    first run's centres and those of the other runs, [n_clusters] each
    when there are at least [n_clusters] samples. *)
Class Seeding : Type := {
  seeds : list KMeans.point -> nat -> list KMeans.point * list (list KMeans.point);
  seeds_length pts k : (k <= length pts)%nat ->
    length (fst (seeds pts k)) = k /\ Forall (fun c => length c = k) (snd (seeds pts k))
}.

(** The float64 value of a valid float32 sample. *)
Definition f32_q (x : f32) : Q := match x with Num q => q | NaN => 0 end.

Section Perform.
Context {S : Sqrt} {SD : Seeding}.

(** [perform_classification(data, n_clusters)]: the labels.  The scaler
    refuses an empty sample set; KMeans refuses NaN, then too few
    samples. *)
Definition perform_classification (data : list (list f32)) (n_clusters : nat) : res (list nat) :=
  match data with
  | [] => Err EmptyInput
  | _ =>
      if existsb (existsb isnan) data then Err InputContainsNaN
      else
        let data_scaled := StandardScaler.fit_transform (map (map f32_q) data) in
        let '(c0, inits) := seeds data_scaled n_clusters in
        KMeans.fit_predict n_clusters data_scaled c0 inits
  end.
End Perform.

(** [full_map[valid_pixels] = values] on a zeroed buffer, once the
    value count fits the mask. *)
Fixpoint scatter (mask : list bool) (vals : list Z) : list Z :=
  match mask with
  | [] => []
  | true :: m => match vals with v :: vs => v :: scatter m vs | [] => 0%Z :: scatter m [] end
  | false :: m => 0%Z :: scatter m vals
  end.

(** [labels + 1] cast to uint8 on assignment. *)
Definition to_uint8 (z : Z) : Z := Z.modulo z 256.

(** [create_classification_map(labels, valid_pixels, original_shape,
    output_path, profile)]: the map and the written dataset. *)
Definition create_classification_map (labels : list nat) (valid_pixels : list bool)
    (original_shape : nat * nat) (profile : profile) : res (ndarray Z * raster Z) :=
  let '(h, w) := original_shape in
  let n_true := count_occ Bool.bool_dec valid_pixels true in
  let vals := map (fun l => to_uint8 (Z.of_nat l + 1)) labels in
  if negb (Nat.eqb (length valid_pixels) (h * w)) then Err BooleanIndexError
  else if negb (Nat.eqb (length vals) n_true || Nat.eqb (length vals) 1) then Err AssignSizeError
  else
    let vals' := if Nat.eqb (length vals) 1 then repeat (hd 0%Z vals) n_true else vals in
    let classification_map := mk_nd h w (scatter valid_pixels vals') in
    let profile' := set_output profile Uint8 0 in
    dst <- write_band profile' classification_map ;;
    Ok (classification_map, dst).

(** The body of one year of [main] (lines 147-164): [None] when the
    window has no valid pixel ([continue]), otherwise the classification
    map and the dataset written. *)
Definition classify_year {S : Sqrt} {SD : Seeding} (bands : list (raster f32)) (window_size : Z)
    (n_clusters : nat) : res (option (ndarray Z * raster Z)) :=
  r <- Window.prepare_classification_data bands window_size ;;
  let '(data, valid_pixels, original_shape, profile) := r in
  match data with
  | [] => Ok None
  | _ =>
      labels <- perform_classification data n_clusters ;;
      cm <- create_classification_map labels valid_pixels original_shape profile ;;
      Ok (Some cm)
  end.

(** [classification_map[mask]]: the cells at the positions the mask sets. *)
Definition gather {A} (mask : list bool) (l : list A) : list A := map snd (filter fst (combine mask l)).

(** ** The scatter *)

Lemma length_scatter m vals : length (scatter m vals) = length m.
Proof. revert vals; induction m as [| [|] m IH]; intros [| v vs]; cbn; auto. Qed.

(** Reading the scattered buffer through the mask gives the values back. *)
Lemma gather_scatter m vals :
  length vals = count_occ Bool.bool_dec m true -> gather m (scatter m vals) = vals.
Proof.
  unfold gather. revert vals; induction m as [| [|] m IH]; intros [| v vs] Hl; cbn in *; try lia; auto.
  - f_equal. apply IH. lia.
Qed.

(** The positions the mask leaves unset stay zero. *)
Lemma gather_scatter_unset m vals :
  Forall (fun v => v = 0%Z) (gather (map negb m) (scatter m vals)).
Proof.
  unfold gather. revert vals; induction m as [| [|] m IH]; intros [| v vs]; cbn; auto.
Qed.

(** With non-zero values, the non-zero cells are exactly the mask. *)
Lemma scatter_nonzero m vals :
  length vals = count_occ Bool.bool_dec m true -> Forall (fun v => v <> 0%Z) vals ->
  map (fun v => negb (Z.eqb v 0)) (scatter m vals) = m.
Proof.
  revert vals; induction m as [| [|] m IH]; intros [| v vs] Hl Hv; cbn in *; try lia; auto.
  - inversion Hv; subst. rewrite (proj2 (Z.eqb_neq v 0)) by assumption. cbn. f_equal. apply IH; auto.
  - f_equal. apply IH; auto.
  - f_equal. apply IH; auto.
Qed.

Lemma to_uint8_small l : (l < 255)%nat -> to_uint8 (Z.of_nat l + 1) = (Z.of_nat l + 1)%Z.
Proof. intros Hl. unfold to_uint8. apply Z.mod_small. lia. Qed.

Lemma repeat_hd_single (vals : list Z) : length vals = 1%nat -> repeat (hd 0%Z vals) 1 = vals.
Proof. destruct vals as [| v [| ]]; cbn; congruence. Qed.

(** ** [create_classification_map] *)

Definition label_values (labels : list nat) : list Z := map (fun l => to_uint8 (Z.of_nat l + 1)) labels.

Lemma create_classification_map_eq labels valid h w p :
  length valid = (h * w)%nat -> length labels = count_occ Bool.bool_dec valid true ->
  p_height p = h -> p_width p = w ->
  create_classification_map labels valid (h, w) p =
    Ok (mk_nd h w (scatter valid (label_values labels)),
        mk_raster (set_output p Uint8 0) (mk_nd h w (scatter valid (label_values labels)))).
Proof.
  intros Hv Hl Hh Hw. unfold create_classification_map. fold (label_values labels).
  assert (Hlv : length (label_values labels) = count_occ Bool.bool_dec valid true)
    by (unfold label_values; rewrite length_map; exact Hl).
  rewrite Hv, Nat.eqb_refl, Hlv, Nat.eqb_refl. cbn [negb orb].
  replace (if Nat.eqb (count_occ Bool.bool_dec valid true) 1 then _ else _) with (label_values labels)
    by (destruct (Nat.eqb_spec (count_occ Bool.bool_dec valid true) 1) as [E |]; auto;
        rewrite E; symmetry; apply repeat_hd_single; congruence).
  rewrite write_band_ok by (cbn; congruence). reflexivity.
Qed.

(** C28: When the mask covers the window and there is one label per valid
    pixel, [create_classification_map] writes an [h x w] uint8 map whose
    cells at the valid positions are the labels plus one (modulo 256), in
    order, whose other cells are 0, with the profile set to uint8, one
    band, nodata 0. *)
Theorem create_classification_map_roundtrip labels valid h w p :
  length valid = (h * w)%nat -> length labels = count_occ Bool.bool_dec valid true ->
  p_height p = h -> p_width p = w ->
  exists m dst, create_classification_map labels valid (h, w) p = Ok (m, dst) /\
    nrows m = h /\ ncols m = w /\ wf m /\
    gather valid (cells m) = label_values labels /\
    Forall (fun v => v = 0%Z) (gather (map negb valid) (cells m)) /\
    r_profile dst = set_output p Uint8 0.
Proof.
  intros Hv Hl Hh Hw. rewrite create_classification_map_eq by assumption.
  eexists _, _. split; [reflexivity |]. cbn [nrows ncols cells r_profile].
  split; [reflexivity | split; [reflexivity | split; [| split; [| split]]]]; auto using gather_scatter_unset.
  - unfold wf; cbn. rewrite length_scatter. exact Hv.
  - apply gather_scatter. unfold label_values; rewrite length_map; exact Hl.
Qed.

(** With labels below 255 (fewer than 255 clusters), the zero cells of
    the classification map are exactly the invalid pixels: 0 stays the
    nodata value and every cluster label [l] is written as [l + 1]. *)
Theorem create_classification_map_nodata labels valid h w p m dst :
  length labels = count_occ Bool.bool_dec valid true -> Forall (fun l => l < 255)%nat labels ->
  create_classification_map labels valid (h, w) p = Ok (m, dst) ->
  map (fun v => negb (Z.eqb v 0)) (cells m) = valid /\
  Forall (fun l => 1 <= l <= 255)%Z (gather valid (cells m)).
Proof.
  intros Hl Hsmall E.
  assert (Hv : length valid = (h * w)%nat)
    by (unfold create_classification_map in E; destruct (Nat.eqb_spec (length valid) (h * w)); [auto | discriminate]).
  unfold create_classification_map in E. fold (label_values labels) in E.
  assert (Hlv : length (label_values labels) = count_occ Bool.bool_dec valid true)
    by (unfold label_values; rewrite length_map; exact Hl).
  rewrite Hv, Nat.eqb_refl, Hlv, Nat.eqb_refl in E. cbn [negb orb] in E.
  replace (if Nat.eqb (count_occ Bool.bool_dec valid true) 1 then _ else _) with (label_values labels) in E
    by (destruct (Nat.eqb_spec (count_occ Bool.bool_dec valid true) 1) as [E1 |]; auto;
        rewrite E1; symmetry; apply repeat_hd_single; congruence).
  apply res_bind_inv in E as (d & _ & E). apply Ok_inj in E. injection E as <- _. cbn [cells].
  assert (Hvals : Forall (fun l => 1 <= l <= 255)%Z (label_values labels)).
  { unfold label_values. apply Forall_map. eapply Forall_impl; [| exact Hsmall].
    intros l Hl'. cbv beta in *. rewrite to_uint8_small by exact Hl'. lia. }
  split.
  - apply scatter_nonzero; [exact Hlv |]. eapply Forall_impl; [| exact Hvals]. cbn. lia.
  - rewrite gather_scatter by exact Hlv. exact Hvals.
Qed.

(** ** The per-year pipeline *)

Lemma scatter_Forall (P : Z -> Prop) m vals : P 0%Z -> Forall P vals -> Forall P (scatter m vals).
Proof.
  intros H0 Hv. revert vals Hv; induction m as [| [|] m IH]; intros [| v vs] Hv; cbn; auto;
    inversion Hv; subst; auto.
Qed.

Lemma length_fit_transform {S : Sqrt} data : length (StandardScaler.fit_transform data) = length data.
Proof. apply length_map. Qed.

Lemma no_nan_data (data : list (list f32)) :
  Forall (Forall (fun x => exists q, x = Num q /\ ~ (q == 0)%Q)) data -> existsb (existsb isnan) data = false.
Proof.
  intros H. apply not_true_iff_false. rewrite existsb_exists. intros (r & Hr & Hn).
  apply existsb_exists in Hn as (x & Hx & Hnan). eapply Forall_forall in H; [| exact Hr].
  eapply Forall_forall in H; [| exact Hx]. destruct H as (q & -> & _). discriminate.
Qed.

(** [perform_classification] on clean data of at least [k] samples. *)
Lemma perform_classification_labels {S : Sqrt} {SD : Seeding} data k :
  Forall (Forall (fun x => exists q, x = Num q /\ ~ (q == 0)%Q)) data -> (0 < k)%nat -> (k <= length data)%nat ->
  exists labels, perform_classification data k = Ok labels /\
    length labels = length data /\ Forall (fun l => l < k)%nat labels.
Proof.
  intros Hd Hk Hn. unfold perform_classification.
  destruct data as [| r rs] eqn:Edata; [cbn in Hn; lia |]. rewrite <- Edata in *.
  rewrite no_nan_data by exact Hd.
  set (ds := StandardScaler.fit_transform (map (map f32_q) data)).
  assert (Hds : length ds = length data) by (unfold ds; rewrite length_fit_transform, length_map; reflexivity).
  assert (Hkds : (k <= length ds)%nat) by lia. destruct (seeds_length ds k Hkds) as [Hc0 Hi]. destruct (seeds ds k) as [c0 inits] eqn:Es.
  rewrite <- Hds. apply KMeans.fit_predict_labels; auto; lia.
Qed.

(** [perform_classification] on clean, non-empty data of fewer than [k]
    samples. *)
Lemma perform_classification_too_few {S : Sqrt} {SD : Seeding} data k :
  Forall (Forall (fun x => exists q, x = Num q /\ ~ (q == 0)%Q)) data -> data <> [] -> (length data < k)%nat ->
  perform_classification data k = Err TooFewSamples.
Proof.
  intros Hd Hne Hn. unfold perform_classification.
  destruct data as [| r rs] eqn:Edata; [congruence |]. rewrite <- Edata in *.
  rewrite no_nan_data by exact Hd. destruct (seeds _ k). apply KMeans.fit_predict_lt.
  rewrite length_fit_transform, length_map. exact Hn.
Qed.

(** [create_classification_map] raises only when the mask does not
    cover the window ([IndexError]) or when the labels neither match the
    valid pixels in number nor broadcast from a single value
    ([ValueError]); a profile of the window's shape is always written. *)
Theorem create_classification_map_errors labels valid h w p e :
  p_height p = h -> p_width p = w -> create_classification_map labels valid (h, w) p = Err e ->
  (length valid <> (h * w)%nat /\ e = BooleanIndexError) \/
  (length valid = (h * w)%nat /\ length labels <> count_occ Bool.bool_dec valid true /\ length labels <> 1%nat /\
   e = AssignSizeError).
Proof.
  intros Hh Hw. unfold create_classification_map. rewrite length_map.
  destruct (Nat.eqb_spec (length valid) (h * w)) as [Hv | Hv]; cbn [negb];
    [| intros E; injection E as <-; left; auto].
  destruct (Nat.eqb_spec (length labels) (count_occ Bool.bool_dec valid true)) as [Hc | Hc];
    destruct (Nat.eqb_spec (length labels) 1) as [H1 | H1]; cbn [orb negb];
    try (rewrite write_band_ok by (cbn; congruence); discriminate).
  intros E; injection E as <-. right. auto.
Qed.

(** C27: A year whose window holds at least [n_clusters] valid pixels, for
    [0 < n_clusters < 255], yields a classification map of the window's
    shape whose zero cells are exactly the invalid pixels and whose
    other cells are cluster numbers in [1, n_clusters]; it is written as
    a uint8 raster with nodata 0 and the window's profile. *)
Theorem classify_year_ok {S : Sqrt} {SD : Seeding} bands ws k data valid h w prof :
  (0 < k < 255)%nat -> Window.prepare_classification_data bands ws = Ok (data, valid, (h, w), prof) ->
  (k <= length data)%nat ->
  exists m, classify_year bands ws k = Ok (Some (m, mk_raster (set_output prof Uint8 0) m)) /\
    nrows m = h /\ ncols m = w /\ wf m /\
    map (fun v => negb (Z.eqb v 0)) (cells m) = valid /\ Forall (fun v => 0 <= v <= Z.of_nat k)%Z (cells m).
Proof.
  intros Hk E Hn.
  destruct (Window.prepare_classification_data_out _ _ _ _ _ _ _ E) as (Hd & Hv & Hl & Hh & Hw).
  destruct (perform_classification_labels data k Hd ltac:(lia) Hn) as (labels & Hp & Hll & Hlt).
  unfold classify_year. rewrite E. cbn [res_bind].
  destruct data as [| r rs]; [cbn in Hn; lia |]. rewrite Hp. cbn [res_bind].
  rewrite create_classification_map_eq by congruence. cbn [res_bind].
  assert (Hvals : Forall (fun v => 1 <= v <= Z.of_nat k)%Z (label_values labels)).
  { unfold label_values. apply Forall_map. eapply Forall_impl; [| exact Hlt].
    intros l Hl'. cbv beta in *. rewrite to_uint8_small by lia. lia. }
  assert (Hlv : length (label_values labels) = count_occ Bool.bool_dec valid true)
    by (unfold label_values; rewrite length_map; congruence).
  eexists. split; [reflexivity |]. cbn [nrows ncols cells].
  split; [reflexivity | split; [reflexivity | split; [| split]]].
  - unfold wf; cbn. rewrite length_scatter. exact Hv.
  - apply scatter_nonzero; [exact Hlv |]. eapply Forall_impl; [| exact Hvals]. intros v Hv'. cbv beta in *. lia.
  - apply scatter_Forall; [lia |]. eapply Forall_impl; [| exact Hvals]. intros v Hv'. cbv beta in *. lia.
Qed.

(** A year whose window holds some, but fewer than [n_clusters], valid
    pixels raises scikit-learn's [ValueError]. *)
Lemma classify_year_too_few {S : Sqrt} {SD : Seeding} bands ws k data valid h w prof :
  Window.prepare_classification_data bands ws = Ok (data, valid, (h, w), prof) ->
  data <> [] -> (length data < k)%nat ->
  classify_year bands ws k = Err TooFewSamples.
Proof.
  intros E Hne Hn. destruct (Window.prepare_classification_data_out _ _ _ _ _ _ _ E) as (Hd & _).
  unfold classify_year. rewrite E. cbn [res_bind].
  destruct data as [| r rs]; [congruence |]. rewrite perform_classification_too_few by assumption. reflexivity.
Qed.

(** ** Witnesses *)

Lemma first_k_seeds_length (pts : list KMeans.point) k :
  (k <= length pts)%nat -> length (fst (firstn k pts, @nil (list KMeans.point))) = k /\
    Forall (fun c => length c = k) (snd (firstn k pts, @nil (list KMeans.point))).
Proof. intros Hk. cbn. split; [rewrite length_firstn; lia | constructor]. Qed.

(** A deterministic seeding: one run, seeded with the first [k] samples. *)
#[export] Instance first_k_seeding : Seeding := {|
  seeds pts k := (firstn k pts, []);
  seeds_length := first_k_seeds_length |}.

Definition wprof2 : profile := Window.update_shape Window.wprof 2 2.

Lemma create_classification_map_roundtrip_witness :
  exists m dst, create_classification_map [0; 2]%nat [true; false; false; true] (2, 2)%nat wprof2 = Ok (m, dst) /\
    nrows m = 2%nat /\ ncols m = 2%nat /\ wf m /\
    gather [true; false; false; true] (cells m) = label_values [0; 2]%nat /\
    Forall (fun v => v = 0%Z) (gather (map negb [true; false; false; true]) (cells m)) /\
    r_profile dst = set_output wprof2 Uint8 0.
Proof. apply create_classification_map_roundtrip; reflexivity. Defined.

Lemma create_classification_map_nodata_witness :
  map (fun v => negb (Z.eqb v 0)) (cells (mk_nd 2 2 [1; 0; 0; 3]%Z)) = [true; false; false; true] /\
  Forall (fun l => 1 <= l <= 255)%Z (gather [true; false; false; true] (cells (mk_nd 2 2 [1; 0; 0; 3]%Z))).
Proof.
  apply (create_classification_map_nodata [0; 2]%nat _ 2 2 wprof2 _
           (mk_raster (set_output wprof2 Uint8 0) (mk_nd 2 2 [1; 0; 0; 3]%Z)));
    [reflexivity | repeat constructor | vm_compute; reflexivity].
Defined.

(** A mask of three flags for a 2 x 2 window. *)
Lemma create_classification_map_errors_witness :
  (length [true; true; false] <> (2 * 2)%nat /\ BooleanIndexError = BooleanIndexError) \/
  (length [true; true; false] = (2 * 2)%nat /\ length [0%nat] <> count_occ Bool.bool_dec [true; true; false] true /\
   length [0%nat] <> 1%nat /\ BooleanIndexError = AssignSizeError).
Proof. apply (create_classification_map_errors [0%nat] _ 2 2 wprof2); reflexivity. Defined.

(** With 256 clusters, cluster 255 is written as 0, the nodata value. *)
Example create_classification_map_wrap :
  create_classification_map [255%nat] [true] (1, 1)%nat (Window.update_shape Window.wprof 1 1) =
    Ok (mk_nd 1 1 [0%Z], mk_raster (set_output (Window.update_shape Window.wprof 1 1) Uint8 0) (mk_nd 1 1 [0%Z])).
Proof. vm_compute. reflexivity. Qed.

Lemma classify_year_ok_witness :
  exists m, classify_year [Window.band_a; Window.band_b] 2 2 = Ok (Some (m, mk_raster (set_output wprof2 Uint8 0) m)) /\
    nrows m = 2%nat /\ ncols m = 2%nat /\
    wf m /\ map (fun v => negb (Z.eqb v 0)) (cells m) = [true; false; false; true] /\
    Forall (fun v => 0 <= v <= Z.of_nat 2)%Z (cells m).
Proof.
  apply (classify_year_ok _ _ _ [[Num 5; Num 105]; [Num 10; Num 110]] _ _ _ wprof2); [lia | vm_compute; reflexivity | cbn; lia].
Defined.

(** The two bands of the window witnesses are classified into two
    clusters. *)
Example classify_year_scenario :
  classify_year [Window.band_a; Window.band_b] 2 2 =
    Ok (Some (mk_nd 2 2 [1; 0; 0; 2]%Z, mk_raster (set_output wprof2 Uint8 0) (mk_nd 2 2 [1; 0; 0; 2]%Z))).
Proof. vm_compute. reflexivity. Qed.
End Classification.
