(* ===== verification/Urban.v ===== *)
(** * Urban: the rule-based land-cover mask of src/urban_extraction.py

    - [extract_urban_areas] (lines 71-92): starts from a uint8 array of
      zeros shaped like the NDVI and performs four boolean-mask
      assignments in this order: urban (1) where [ndvi < 0.3] and
      [bui > 0.1]; vegetation (2) where [ndvi > 0.4]; water (3) where
      [ndvi < 0.1] and [bui < 0.05]; bare soil (4) where [ndvi < 0.2],
      [bui < 0.1] and the mask is still 0.  The thresholds are Python
      floats compared with float32 arrays ([fconst]).
    - [save_urban_areas] (lines 184-198): writes
      [np.where(urban_mask == 1, 1, 0)] as uint8 with nodata 0.

    Theorems: the four assignments compute the pointwise decision
    [urban_px]; the four rules never overlap on finite values, so the
    order of the assignments only matters through the [urban_mask == 0]
    guard of the last one, and every pixel's class is characterised by
    its own rule; a NaN pixel stays 0. *)

From Stdlib Require Import QArith Qreduction Lqa ZArith List Lia Arith Bool.
From S2P Require Import Prelude Float32 NdArray Raster.
Import ListNotations.

Open Scope Q_scope.

Module Urban.
Section UrbanMask.
Context {R : Rounding}.

(** [extract_urban_areas(ndvi, bui, ndvi_threshold=0.3, bui_threshold=0.1)]. *)
Definition extract_urban_areas (ndvi bui : ndarray f32) (ndvi_threshold bui_threshold : Q) : res (ndarray Z) :=
  let urban_mask := zeros_like 0%Z ndvi in
  m1 <- bzip andb (amap (fun x => flt x (fconst ndvi_threshold)) ndvi)
                  (amap (fun x => fgt x (fconst bui_threshold)) bui) ;;
  urban_mask <- mask_assign urban_mask m1 1%Z ;;
  urban_mask <- mask_assign urban_mask (amap (fun x => fgt x (fconst (4 # 10))) ndvi) 2%Z ;;
  m3 <- bzip andb (amap (fun x => flt x (fconst (1 # 10))) ndvi) (amap (fun x => flt x (fconst (5 # 100))) bui) ;;
  urban_mask <- mask_assign urban_mask m3 3%Z ;;
  m4a <- bzip andb (amap (fun x => flt x (fconst (2 # 10))) ndvi) (amap (fun x => flt x (fconst (1 # 10))) bui) ;;
  m4 <- bzip andb m4a (amap (fun v => Z.eqb v 0) urban_mask) ;;
  urban_mask <- mask_assign urban_mask m4 4%Z ;;
  Ok urban_mask.

(** The class of one pixel after the four assignments. *)
Definition urban_px (nt bt : Q) (n b : f32) : Z :=
  let c1 := if flt n (fconst nt) && fgt b (fconst bt) then 1%Z else 0%Z in
  let c2 := if fgt n (fconst (4 # 10)) then 2%Z else c1 in
  let c3 := if flt n (fconst (1 # 10)) && flt b (fconst (5 # 100)) then 3%Z else c2 in
  if flt n (fconst (2 # 10)) && flt b (fconst (1 # 10)) && Z.eqb c3 0 then 4%Z else c3.

End UrbanMask.

(** ** [extract_urban_areas] *)

Section UrbanProofs.
Context {R : Rounding}.

(** The buffers of the four assignments, cell by cell. *)
Lemma urban_cells nt bt (l1 l2 : list f32) :
  length l1 = length l2 ->
  let u1 := zipWith (fun x (b : bool) => if b then 1%Z else x) (repeat 0%Z (length l1))
              (zipWith andb (map (fun x => flt x (fconst nt)) l1) (map (fun x => fgt x (fconst bt)) l2)) in
  let u2 := zipWith (fun x (b : bool) => if b then 2%Z else x) u1 (map (fun x => fgt x (fconst (4 # 10))) l1) in
  let u3 := zipWith (fun x (b : bool) => if b then 3%Z else x) u2
              (zipWith andb (map (fun x => flt x (fconst (1 # 10))) l1) (map (fun x => flt x (fconst (5 # 100))) l2)) in
  zipWith (fun x (b : bool) => if b then 4%Z else x) u3
    (zipWith andb (zipWith andb (map (fun x => flt x (fconst (2 # 10))) l1) (map (fun x => flt x (fconst (1 # 10))) l2))
                  (map (fun v => Z.eqb v 0) u3))
  = zipWith (urban_px nt bt) l1 l2.
Proof.
  revert l2; induction l1 as [| n l1 IH]; intros [| b l2] Hl; cbn [length] in Hl; try lia;
    cbv zeta; cbn [zipWith map repeat length].
  - reflexivity.
  - f_equal. apply IH. lia.
Qed.

(** On an NDVI and a BUI array of one shape, the four masked
    assignments of [extract_urban_areas] compute the pointwise class
    [urban_px]; the last assignment's [urban_mask == 0] guard reads the
    mask after the first three. *)
Theorem extract_urban_areas_pointwise (ndvi bui : ndarray f32) nt bt :
  wf ndvi -> wf bui -> nrows ndvi = nrows bui -> ncols ndvi = ncols bui ->
  extract_urban_areas ndvi bui nt bt =
    Ok (mk_nd (nrows ndvi) (ncols ndvi) (zipWith (urban_px nt bt) (cells ndvi) (cells bui))).
Proof.
  intros Hn Hb Hr Hc. unfold extract_urban_areas.
  rewrite bzip_same_shape by (unfold amap; shape_tac). rewrite res_bind_ok. cbn [nrows ncols cells amap zeros_like].
  rewrite mask_assign_ok by shape_tac. rewrite res_bind_ok.
  rewrite mask_assign_ok by shape_tac. rewrite res_bind_ok.
  rewrite bzip_same_shape by shape_tac. rewrite res_bind_ok.
  rewrite mask_assign_ok by shape_tac. rewrite res_bind_ok.
  rewrite bzip_same_shape by shape_tac. rewrite res_bind_ok.
  rewrite bzip_same_shape by shape_tac. rewrite res_bind_ok.
  rewrite mask_assign_ok by shape_tac. rewrite res_bind_ok. cbn [nrows ncols cells].
  unfold zeros_like, amap; cbn [nrows ncols cells]. unfold wf in *. rewrite <- Hn.
  rewrite urban_cells by congruence. reflexivity.
Qed.

(** The float32 thresholds are ordered as the decimal ones. *)
Lemma urban_thresholds :
  rnd (5 # 100) <= rnd (1 # 10) /\ rnd (1 # 10) <= rnd (2 # 10) /\
  rnd (2 # 10) <= rnd (3 # 10) /\ rnd (3 # 10) <= rnd (4 # 10).
Proof. repeat split; apply rnd_mono; unfold Qle; cbn; lia. Qed.

(** C35: With the default thresholds, the four rules never overlap on finite
    values, and each class is its own rule: urban (1) iff NDVI < 0.3 and
    BUI > 0.1; vegetation (2) iff NDVI > 0.4; water (3) iff NDVI < 0.1 and
    BUI < 0.05; bare soil (4) iff NDVI < 0.2 and BUI < 0.1 but not water;
    unclassified (0) otherwise (thresholds rounded to float32). *)
Theorem urban_px_classes (n b : Q) :
  let c := urban_px (3 # 10) (1 # 10) (Num n) (Num b) in
  (c = 1%Z <-> n < rnd (3 # 10) /\ rnd (1 # 10) < b) /\
  (c = 2%Z <-> rnd (4 # 10) < n) /\
  (c = 3%Z <-> n < rnd (1 # 10) /\ b < rnd (5 # 100)) /\
  (c = 4%Z <-> n < rnd (2 # 10) /\ b < rnd (1 # 10) /\ ~ (n < rnd (1 # 10) /\ b < rnd (5 # 100))) /\
  (c = 0%Z <-> ~ (n < rnd (3 # 10) /\ rnd (1 # 10) < b) /\ ~ rnd (4 # 10) < n /\
                ~ (n < rnd (2 # 10) /\ b < rnd (1 # 10))).
Proof.
  pose proof urban_thresholds as (T1 & T2 & T3 & T4).
  cbv beta iota zeta delta [urban_px flt fgt cmp fconst].
  destruct (Qltb n (rnd (3 # 10))) eqn:E1, (Qltb (rnd (1 # 10)) b) eqn:E2, (Qltb (rnd (4 # 10)) n) eqn:E3,
    (Qltb n (rnd (1 # 10))) eqn:E4, (Qltb b (rnd (5 # 100))) eqn:E5, (Qltb n (rnd (2 # 10))) eqn:E6,
    (Qltb b (rnd (1 # 10))) eqn:E7; cbn; qbool;
    repeat split; intros; try discriminate; try lra; try tauto; exfalso; lra.
Qed.

(** A NaN NDVI pixel satisfies none of the four masks and keeps the 0
    (unclassified) of [np.zeros_like], whatever its BUI. *)
Theorem urban_px_nan nt bt b : urban_px nt bt NaN b = 0%Z.
Proof. unfold urban_px. cbn. destruct (fgt b (fconst bt)), (flt b (fconst (5 # 100))), (flt b (fconst (1 # 10))); reflexivity. Qed.
End UrbanProofs.

(** [save_urban_areas(urban_mask, output_path, profile)]: the written
    dataset. *)
Definition save_urban_areas (urban_mask : ndarray Z) (profile : profile) : res (raster Z) :=
  let urban_binary := amap (fun v => if Z.eqb v 1 then 1%Z else 0%Z) urban_mask in
  let profile := set_output profile Uint8 0 in
  write_band profile urban_binary.

(** ** Witnesses *)

Definition wprof_urban : profile :=
  mk_profile Uint16 1 2 2 None (mk_affine 10 0 500000 0 (-10) 4000000) 32633.

Definition q_px (l : list Q) : list f32 := map Num l.

(** One pixel of each class: urban, vegetation, water, bare soil. *)
Definition ndvi4 : ndarray f32 := mk_nd 2 2 (q_px [2 # 10; 5 # 10; 5 # 100; 15 # 100]).
Definition bui4 : ndarray f32 := mk_nd 2 2 (q_px [2 # 10; 0; 0; 5 # 100]).

Lemma extract_urban_areas_pointwise_witness :
  extract_urban_areas ndvi4 bui4 (3 # 10) (1 # 10) =
    Ok (mk_nd 2 2 (zipWith (urban_px (3 # 10) (1 # 10)) (cells ndvi4) (cells bui4))).
Proof. apply extract_urban_areas_pointwise; reflexivity. Defined.

Example extract_urban_areas_scenario :
  extract_urban_areas ndvi4 bui4 (3 # 10) (1 # 10) = Ok (mk_nd 2 2 [1; 2; 3; 4]%Z).
Proof. vm_compute. reflexivity. Qed.

End Urban.
