(* ===== verification/Stats.v ===== *)
(** * Stats: the statistics reporter

    - [unique_counts] is [np.unique(a, return_counts=True)]: NumPy sorts
      the flattened array and counts the runs of equal values; the model
      does the same (insertion sort, then run-length counting).
    - [class_report] is the loop of [calculate_urban_statistics]
      (src/urban_extraction.py, lines 100-118) and of
      [calculate_change_statistics] (src/change_detection.py, lines
      142-150): count, percentage of the total and area of every value.
    - [calculate_urban_statistics] (src/urban_extraction.py, lines
      94-130) returns the urban pixel count, percentage and area.
    - [classification_change_summary] is lines 153-159 of
      [calculate_change_statistics]; [class_distribution] is the
      per-class report of src/land_cover_classification.py, lines 174-178.

    Percentages and areas are float64 divisions of integers; the model
    computes them exactly ([Num] of a rational), and [0 / 0] is [NaN] as
    in NumPy.  The printed NDVI-difference minimum, maximum, mean and
    standard deviation (lines 136-139) are not modelled.

    Theorems: [np.unique] returns the distinct values in increasing order
    with their number of occurrences, which add up to the array size; the
    percentages of a report add up to 100; the urban statistics count the
    pixels of class 1; the classification-change summary counts the
    changed pixels of a transition matrix; the land-cover distribution is
    relative to the valid pixels, not to the grid.  The report refines
    its contract [report_spec] (spec section 4.6): read value by value
    through [report_lookup], it gives each present value's count,
    percentage of all cells and area, and nothing for an absent value. *)

From Stdlib Require Import QArith Lqa ZArith List Lia Arith Bool Sorting.Permutation Sorting.Sorted.
From S2P Require Import Prelude Float32 NdArray Scaler.
Import ListNotations.

Open Scope Q_scope.

Module Statistics.

Fixpoint insert_sorted (x : Z) (l : list Z) : list Z :=
  match l with
  | [] => [x]
  | y :: t => if Z.leb x y then x :: l else y :: insert_sorted x t
  end.

(** The sort of [np.unique]. *)
Definition sort (l : list Z) : list Z := fold_right insert_sorted [] l.

(** Counting the runs of equal values of a sorted list. *)
Fixpoint runs (l : list Z) : list (Z * nat) :=
  match l with
  | [] => []
  | x :: t =>
      match runs t with
      | (y, c) :: r => if Z.eqb x y then (y, S c) :: r else (x, 1%nat) :: (y, c) :: r
      | [] => [(x, 1%nat)]
      end
  end.

(** [np.unique(a, return_counts=True)] on the flattened array. *)
Definition unique_counts (l : list Z) : list (Z * nat) := runs (sort l).

Definition nsum (l : list nat) : nat := fold_right Nat.add 0%nat l.

(** [(count / total) * 100] in float64. *)
Definition percentage (count total : nat) : f32 :=
  if Nat.eqb total 0 then NaN else Num (inject_Z (Z.of_nat count) / inject_Z (Z.of_nat total) * 100).

(** [(count * pixel_area_m2) / 1e6]. *)
Definition area_km2 (count : nat) (pixel_area_m2 : Q) : Q :=
  inject_Z (Z.of_nat count) * pixel_area_m2 / 1000000.

(** The per-value lines of the report: value, count, percentage, area. *)
Definition class_report (l : list Z) (pixel_area_m2 : Q) : list (Z * nat * f32 * Q) :=
  let uc := unique_counts l in
  let total_pixels := nsum (map snd uc) in
  map (fun '(v, c) => (v, c, percentage c total_pixels, area_km2 c pixel_area_m2)) uc.

(** [calculate_urban_statistics(urban_mask, pixel_area_m2)]. *)
Definition calculate_urban_statistics (urban_mask : ndarray Z) (pixel_area_m2 : Q) : nat * f32 * Q :=
  let uc := unique_counts (cells urban_mask) in
  let total_pixels := nsum (map snd uc) in
  let urban_pixels := match find (fun p => Z.eqb (fst p) 1) uc with Some (_, c) => c | None => 0%nat end in
  (urban_pixels, percentage urban_pixels total_pixels, area_km2 urban_pixels pixel_area_m2).

(** Lines 153-159: changed pixels and percentage, unchanged pixels and
    percentage, when a transition matrix is given. *)
Definition classification_change_summary (change_matrix : option (ndarray Z)) : option (Z * f32 * Z) :=
  match change_matrix with
  | None => None
  | Some m =>
      let changed_pixels := fold_right Z.add 0%Z (cells m) in
      let total_pixels_class := length (cells m) in
      let change_percentage :=
        if Nat.eqb total_pixels_class 0 then NaN
        else Num (inject_Z changed_pixels / inject_Z (Z.of_nat total_pixels_class) * 100) in
      Some (changed_pixels, change_percentage, (Z.of_nat total_pixels_class - changed_pixels)%Z)
  end.

(** [np.unique(labels, return_counts=True)] and the printed class
    numbers [class_id + 1] with their percentage of [len(labels)]. *)
Definition class_distribution (labels : list nat) : list (Z * nat * f32) :=
  map (fun '(v, c) => ((v + 1)%Z, c, percentage c (length labels))) (unique_counts (map Z.of_nat labels)).

(** ** The contract of a report

    The specification (spec section 4.6) describes the report by what it
    says of each value: a value present in the array has one line with
    its pixel count, its percentage of all cells and its area; an absent
    value has none.  [report_spec] states this contract value by value,
    [report_lookup] reads a computed report the same way. *)
Definition report_spec (l : list Z) (pixel_area_m2 : Q) (v : Z) : option (nat * f32 * Q) :=
  let c := count_occ Z.eq_dec l v in
  if Nat.eqb c 0 then None else Some (c, percentage c (length l), area_km2 c pixel_area_m2).

Definition report_lookup (rows : list (Z * nat * f32 * Q)) (v : Z) : option (nat * f32 * Q) :=
  match find (fun e => Z.eqb (fst (fst (fst e))) v) rows with
  | Some (_, c, p, a) => Some (c, p, a)
  | None => None
  end.

(** ** [np.unique] *)

Lemma insert_sorted_perm x l : Permutation (insert_sorted x l) (x :: l).
Proof.
  induction l as [| y t IH]; cbn; [reflexivity |]. destruct (Z.leb x y); [reflexivity |].
  rewrite IH. apply perm_swap.
Qed.

Lemma sort_perm l : Permutation (sort l) l.
Proof. induction l as [| x t IH]; cbn; [reflexivity |]. rewrite insert_sorted_perm, IH. reflexivity. Qed.

Lemma insert_sorted_sorted x l : StronglySorted Z.le l -> StronglySorted Z.le (insert_sorted x l).
Proof.
  induction 1 as [| y t Ht IH Hy]; cbn; [repeat constructor |].
  destruct (Z.leb_spec x y).
  - constructor; [constructor; auto |]. constructor; [lia |]. eapply Forall_impl; [| exact Hy]. cbn; lia.
  - constructor; [exact IH |]. apply Forall_forall. intros z Hz.
    apply (Permutation_in _ (insert_sorted_perm x t)) in Hz as [<- | Hz]; [lia |].
    eapply Forall_forall in Hy; [exact Hy | exact Hz].
Qed.

Lemma sort_sorted l : StronglySorted Z.le (sort l).
Proof. induction l; cbn; [constructor | apply insert_sorted_sorted; assumption]. Qed.

(** The counts of the runs add up to the length. *)
Lemma runs_length l : nsum (map snd (runs l)) = length l.
Proof.
  induction l as [| x t IH]; cbn; [reflexivity |].
  destruct (runs t) as [| [y c] r]; cbn in *; [lia |]. destruct (Z.eqb x y); cbn; lia.
Qed.

Lemma runs_values l p : In p (runs l) -> In (fst p) l.
Proof.
  revert p; induction l as [| x t IH]; intros p; cbn; [tauto |].
  destruct (runs t) as [| [y c] r] eqn:E.
  - intros [<- | []]. left; reflexivity.
  - destruct (Z.eqb_spec x y) as [<- | _].
    + intros [<- | Hp]; [left; reflexivity | right; apply IH; right; exact Hp].
    + intros [<- | Hp]; [left; reflexivity | right; apply IH; exact Hp].
Qed.

Lemma runs_head x t : exists c r, runs (x :: t) = (x, c) :: r.
Proof.
  cbn. destruct (runs t) as [| [y c] r]; [eauto |].
  destruct (Z.eqb_spec x y) as [<- |]; eauto.
Qed.

(** On a sorted list, the runs have strictly increasing values, and each
    run counts the occurrences of its value. *)
Lemma runs_sorted_spec s : StronglySorted Z.le s ->
  StronglySorted (fun p q => (fst p < fst q)%Z) (runs s) /\
  forall v c, In (v, c) (runs s) -> c = count_occ Z.eq_dec s v.
Proof.
  induction 1 as [| x t Ht [IHs IHc] Hx]; [split; [constructor | cbn; tauto] |].
  assert (Hge : forall p, In p (runs t) -> (x <= fst p)%Z)
    by (intros p Hp; apply runs_values in Hp; eapply Forall_forall in Hx; eauto).
  cbn [runs]. destruct (runs t) as [| [y c] r] eqn:E.
  - assert (t = []) as -> by (pose proof (runs_length t) as L; rewrite E in L; destruct t; cbn in L; [auto | lia]).
    split; [repeat constructor |]. intros v c [Hp | []]. injection Hp as Hv Hc. subst. cbn.
    destruct (Z.eq_dec _ _); congruence.
  - destruct t as [| z t']; [cbn in E; discriminate |].
    destruct (runs_head z t') as (c0 & r0 & E0). rewrite E in E0. injection E0 as Hy Hc Hr. subst y c0 r0.
    assert (Hzt : forall p, In p r -> (z < fst p)%Z) by (inversion IHs as [| ? ? _ F]; intros p Hp; eapply Forall_forall in F; eauto).
    assert (Hxz : (x <= z)%Z) by (apply (Hge (z, c)); left; reflexivity).
    destruct (Z.eqb_spec x z) as [<- | Hne].
    + split.
      * inversion IHs as [| ? ? Hr F]; subst. constructor; [exact Hr |]. exact F.
      * intros v c' [Hp | Hp].
        -- injection Hp as Hv Hc. subst. rewrite count_occ_cons_eq by reflexivity. f_equal. apply IHc. left; reflexivity.
        -- rewrite count_occ_cons_neq by (specialize (Hzt _ Hp); cbn in Hzt; lia). apply IHc. right; exact Hp.
    + split.
      * constructor; [exact IHs |]. constructor; [cbn; lia |].
        apply Forall_forall. intros p Hp. specialize (Hzt p Hp). cbn. lia.
      * assert (Hnot : forall v c', In (v, c') ((z, c) :: r) -> v <> x).
        { intros v c' [Hp | Hp]; [injection Hp as Hv Hc; subst; congruence | specialize (Hzt _ Hp); cbn in Hzt; lia]. }
        intros v c' [Hp | Hp].
        -- injection Hp as Hv Hc. subst. rewrite count_occ_cons_eq by reflexivity.
           replace (count_occ Z.eq_dec (z :: t') v) with 0%nat; [reflexivity |].
           symmetry. apply count_occ_not_In. intros Hin.
           inversion Ht as [| ? ? _ Fz]; subst. destruct Hin as [-> | Hin]; [congruence |].
           eapply Forall_forall in Fz; [| exact Hin]. lia.
        -- rewrite count_occ_cons_neq by (intros Heq; apply (Hnot v c' Hp); auto). apply IHc, Hp.
Qed.

(** Every element of a list is the value of one of its runs. *)
Lemma runs_cover l v : In v l -> exists c, In (v, c) (runs l).
Proof.
  induction l as [| x t IH]; [intros [] |]. intros [Hx | Hv].
  - subst x. destruct (runs_head v t) as (c & r & E). exists c. rewrite E. left; reflexivity.
  - destruct (IH Hv) as [c Hc]. cbn. destruct (runs t) as [| [y c0] r]; [destruct Hc |].
    destruct (Z.eqb_spec x y) as [<- |].
    + destruct Hc as [Hc | Hc]; [injection Hc as Hy Hc'; subst; eexists; left; reflexivity | exists c; right; exact Hc].
    + exists c. right. exact Hc.
Qed.

Lemma unique_counts_count l v c :
  In (v, c) (unique_counts l) -> c = count_occ Z.eq_dec l v /\ (0 < c)%nat.
Proof.
  unfold unique_counts. intros Hin. destruct (runs_sorted_spec _ (sort_sorted l)) as [_ Hc].
  pose proof (proj1 (Permutation_count_occ Z.eq_dec _ _) (sort_perm l)) as Hperm.
  pose proof (runs_values _ _ Hin) as Hv. cbn in Hv. rewrite (Hc v c Hin), Hperm.
  split; [reflexivity |]. rewrite <- Hperm. apply count_occ_In, Hv.
Qed.

Lemma unique_counts_cover l v : In v l -> exists c, In (v, c) (unique_counts l).
Proof. intros Hv. apply runs_cover. apply (Permutation_in _ (Permutation_sym (sort_perm l))), Hv. Qed.

Lemma unique_counts_length l : nsum (map snd (unique_counts l)) = length l.
Proof. unfold unique_counts. rewrite runs_length. apply Permutation_length, sort_perm. Qed.


(** ** Reports *)

(** The number a percentage prints, [NaN] aside. *)
Definition pct_value (x : f32) : Q := match x with Num q => q | NaN => 0 end.

Lemma qsum_shares (cs : list nat) (T : Q) :
  qsum (map (fun c => inject_Z (Z.of_nat c) / T * 100) cs) == inject_Z (Z.of_nat (nsum cs)) / T * 100.
Proof.
  induction cs as [| c cs IH]; cbn [map qsum nsum fold_right]; [unfold Qdiv; ring |].
  rewrite IH. fold (nsum cs). rewrite Nat2Z.inj_add, inject_Z_plus. unfold Qdiv. ring.
Qed.

Lemma percentage_pos c T : T <> 0%nat -> percentage c T = Num (inject_Z (Z.of_nat c) / inject_Z (Z.of_nat T) * 100).
Proof. intros HT. unfold percentage. destruct (Nat.eqb_spec T 0); [contradiction | reflexivity]. Qed.

(** On a non-empty array, every percentage of the report is a number
    and the percentages add up to 100. *)
Theorem class_report_percentages l pixel_area_m2 :
  l <> [] ->
  Forall (fun e => isnan (snd (fst e)) = false) (class_report l pixel_area_m2) /\
  qsum (map (fun e => pct_value (snd (fst e))) (class_report l pixel_area_m2)) == 100.
Proof.
  intros Hl. unfold class_report. rewrite unique_counts_length.
  assert (HT : length l <> 0%nat) by (destruct l; cbn; congruence).
  assert (HTq : ~ inject_Z (Z.of_nat (length l)) == 0)
    by (rewrite inject_Z_injective with (b := 0%Z) in *; lia).
  split.
  - apply Forall_map, Forall_forall. intros [v c] _. cbn. rewrite percentage_pos by exact HT. reflexivity.
  - rewrite map_map.
    rewrite (map_ext (fun x => pct_value (snd (fst (let '(v, c) := x in (v, c, percentage c (length l), area_km2 c pixel_area_m2)))))
                     (fun x => inject_Z (Z.of_nat (snd x)) / inject_Z (Z.of_nat (length l)) * 100))
      by (intros [v c]; cbn; rewrite percentage_pos by exact HT; reflexivity).
    rewrite <- (map_map snd (fun c => inject_Z (Z.of_nat c) / inject_Z (Z.of_nat (length l)) * 100)).
    rewrite qsum_shares, unique_counts_length. field. exact HTq.
Qed.

(** [calculate_urban_statistics] returns the number of pixels of class
    1, its percentage of all pixels and its area: the lookup through
    [np.unique] agrees with counting the class-1 cells directly (0 when
    the class is absent). *)
Theorem calculate_urban_statistics_spec (urban_mask : ndarray Z) pixel_area_m2 :
  let n := count_occ Z.eq_dec (cells urban_mask) 1%Z in
  calculate_urban_statistics urban_mask pixel_area_m2 =
    (n, percentage n (length (cells urban_mask)), area_km2 n pixel_area_m2).
Proof.
  cbv zeta. unfold calculate_urban_statistics. rewrite unique_counts_length.
  destruct (find _ _) as [[v c] |] eqn:E.
  - apply find_some in E as [Hin Hv]. cbn in Hv. apply Z.eqb_eq in Hv. subst v.
    rewrite (proj1 (unique_counts_count _ _ _ Hin)). reflexivity.
  - replace (count_occ Z.eq_dec (cells urban_mask) 1%Z) with 0%nat; [reflexivity |].
    symmetry. apply count_occ_not_In. intros Hin. destruct (unique_counts_cover _ _ Hin) as [c Hc].
    pose proof (find_none _ _ E _ Hc) as Hf. cbn in Hf. discriminate.
Qed.

Lemma count_occ_le_length (l : list Z) v : (count_occ Z.eq_dec l v <= length l)%nat.
Proof. induction l as [| x t IH]; cbn; [lia |]. destruct (Z.eq_dec x v); lia. Qed.

(** On a non-empty mask the urban percentage is a number in
    [[0, 100]] and the urban area is the class-1 count times the pixel
    area over 10^6. *)
Theorem calculate_urban_statistics_bounds (urban_mask : ndarray Z) pixel_area_m2 n pct area :
  cells urban_mask <> [] -> calculate_urban_statistics urban_mask pixel_area_m2 = (n, pct, area) ->
  (exists q, pct = Num q /\ 0 <= q <= 100) /\ area == inject_Z (Z.of_nat n) * pixel_area_m2 / 1000000.
Proof.
  intros Hne E. unfold calculate_urban_statistics in E.
  rewrite unique_counts_length in E. injection E as En Ep Ea. rewrite En in Ep, Ea. subst pct area.
  assert (Hn : (n <= length (cells urban_mask))%nat).
  { subst n. destruct (find _ _) as [[v c] |] eqn:F; [| lia].
    apply find_some in F as [Hin _]. rewrite (proj1 (unique_counts_count _ _ _ Hin)). apply count_occ_le_length. }
  assert (HT : length (cells urban_mask) <> 0%nat) by (destruct (cells urban_mask); cbn; congruence).
  split; [| reflexivity]. rewrite percentage_pos by exact HT. eexists. split; [reflexivity |].
  set (T := length (cells urban_mask)) in *.
  assert (0 < inject_Z (Z.of_nat T)) by (change 0 with (inject_Z 0); rewrite <- Zlt_Qlt; lia).
  assert (inject_Z (Z.of_nat n) <= inject_Z (Z.of_nat T)) by (rewrite <- Zle_Qle; lia).
  assert (0 <= inject_Z (Z.of_nat n)) by (change 0 with (inject_Z 0); rewrite <- Zle_Qle; lia).
  split.
  - apply Qmult_le_0_compat; [apply Qle_shift_div_l; [assumption | lra] | lra].
  - apply (Qmult_le_r _ _ (1 # 100)); [reflexivity |]. setoid_replace (100 * (1 # 100)) with 1 by reflexivity.
    setoid_replace (inject_Z (Z.of_nat n) / inject_Z (Z.of_nat T) * 100 * (1 # 100))
      with (inject_Z (Z.of_nat n) / inject_Z (Z.of_nat T)) by (field; lra).
    apply Qle_shift_div_r; lra.
Qed.

Lemma count_occ_Z_cons x t v :
  count_occ Z.eq_dec (x :: t) v = if Z.eqb x v then S (count_occ Z.eq_dec t v) else count_occ Z.eq_dec t v.
Proof. cbn. destruct (Z.eq_dec x v), (Z.eqb_spec x v); congruence. Qed.

Lemma sum_binary (l : list Z) :
  Forall (fun v => v = 0%Z \/ v = 1%Z) l ->
  fold_right Z.add 0%Z l = Z.of_nat (count_occ Z.eq_dec l 1%Z) /\
  length l = (count_occ Z.eq_dec l 0%Z + count_occ Z.eq_dec l 1%Z)%nat.
Proof.
  induction 1 as [| x t Hx _ [IH1 IH2]]; [split; reflexivity |].
  destruct Hx as [-> | ->]; cbn [fold_right length]; rewrite IH1, !count_occ_Z_cons;
    rewrite ?(proj2 (Z.eqb_neq 0 1) ltac:(discriminate)), ?(proj2 (Z.eqb_neq 1 0) ltac:(discriminate)), !Z.eqb_refl; split; lia.
Qed.

(** On a transition matrix of 0s and 1s, the printed summary counts as
    changed the pixels marked 1 and as unchanged those marked 0. *)
Theorem classification_change_summary_counts (m : ndarray Z) :
  Forall (fun v => v = 0%Z \/ v = 1%Z) (cells m) ->
  exists pct, classification_change_summary (Some m) =
    Some (Z.of_nat (count_occ Z.eq_dec (cells m) 1%Z), pct, Z.of_nat (count_occ Z.eq_dec (cells m) 0%Z)).
Proof.
  intros H. destruct (sum_binary _ H) as [Hs Hl]. cbn. rewrite Hs, Hl. eexists. f_equal. f_equal. lia.
Qed.

(** ** Witnesses *)

Definition mask4 : ndarray Z := mk_nd 2 2 [1; 2; 1; 0]%Z.

Example unique_counts_mask4 : unique_counts (cells mask4) = [(0%Z, 1%nat); (1%Z, 2%nat); (2%Z, 1%nat)].
Proof. reflexivity. Qed.

(** ** Refinement of the report contract *)

Lemma find_map_comp {A B} (f : A -> B) (p : B -> bool) l :
  find p (map f l) = option_map f (find (fun x => p (f x)) l).
Proof. induction l as [| x t IH]; cbn; [reflexivity |]. destruct (p (f x)); [reflexivity | exact IH]. Qed.

Lemma StronglySorted_map_iff {A B} (R : B -> B -> Prop) (f : A -> B) l :
  StronglySorted (fun x y => R (f x) (f y)) l -> StronglySorted R (map f l).
Proof.
  induction 1 as [| x t _ IH Hx]; cbn; constructor; [exact IH |].
  apply Forall_map. exact Hx.
Qed.

Lemma find_ext_fun {A} (p q : A -> bool) l : (forall x, p x = q x) -> find p l = find q l.
Proof. intros H. induction l as [| x t IH]; cbn; [reflexivity |]. rewrite H, IH. reflexivity. Qed.

Lemma StronglySorted_weaken {A} (R S : A -> A -> Prop) l :
  (forall x y, R x y -> S x y) -> StronglySorted R l -> StronglySorted S l.
Proof.
  intros HRS. induction 1 as [| x t _ IH Hx]; constructor; [exact IH |].
  eapply Forall_impl; [| exact Hx]. intros y. apply HRS.
Qed.

(** Looking a value up in [np.unique]'s output finds its number of
    occurrences, and nothing for an absent value. *)
Lemma unique_counts_find l v :
  find (fun p => Z.eqb (fst p) v) (unique_counts l) =
  let c := count_occ Z.eq_dec l v in if Nat.eqb c 0 then None else Some (v, c).
Proof.
  cbv zeta. destruct (find _ _) as [[w c] |] eqn:E.
  - apply find_some in E as [Hin Hw]. cbn in Hw. apply Z.eqb_eq in Hw. subst w.
    destruct (unique_counts_count _ _ _ Hin) as [-> Hc]. destruct (Nat.eqb_spec (count_occ Z.eq_dec l v) 0); [lia | reflexivity].
  - destruct (Nat.eqb_spec (count_occ Z.eq_dec l v) 0) as [| Hne]; [reflexivity |].
    destruct (unique_counts_cover l v) as [c Hc]; [apply (count_occ_In Z.eq_dec); lia |].
    pose proof (find_none _ _ E _ Hc) as Hf. cbn in Hf. rewrite Z.eqb_refl in Hf. discriminate.
Qed.

(** C14: Refinement: the report of [class_report] (the loop over
    [np.unique] in [calculate_urban_statistics] and
    [calculate_change_statistics]) implements the report contract: its
    lines have strictly increasing values, so each value has at most one
    line, and the line found for any value is exactly the count,
    percentage of all cells and area the contract gives, or nothing for a
    value absent from the array. *)
Theorem class_report_refines l pixel_area_m2 :
  StronglySorted (fun e1 e2 => (fst (fst (fst e1)) < fst (fst (fst e2)))%Z) (class_report l pixel_area_m2) /\
  forall v, report_lookup (class_report l pixel_area_m2) v = report_spec l pixel_area_m2 v.
Proof.
  unfold class_report. rewrite unique_counts_length. split.
  - apply StronglySorted_map_iff. eapply StronglySorted_weaken; [| apply runs_sorted_spec, sort_sorted].
    intros [v c] [w d] H. exact H.
  - intros v. unfold report_lookup, report_spec.
    rewrite find_map_comp.
    rewrite (find_ext_fun _ (fun p => Z.eqb (fst p) v)) by (intros [w c]; reflexivity).
    rewrite unique_counts_find. cbv zeta. destruct (Nat.eqb _ 0); reflexivity.
Qed.

Lemma class_report_percentages_witness :
  Forall (fun e => isnan (snd (fst e)) = false) (class_report (cells mask4) 100) /\
  qsum (map (fun e => pct_value (snd (fst e))) (class_report (cells mask4) 100)) == 100.
Proof. apply class_report_percentages. discriminate. Defined.

Lemma calculate_urban_statistics_bounds_witness :
  (exists q, percentage 2 4 = Num q /\ 0 <= q <= 100) /\ area_km2 2 100 == inject_Z (Z.of_nat 2) * 100 / 1000000.
Proof.
  apply (calculate_urban_statistics_bounds mask4 100 2); [discriminate |].
  unfold calculate_urban_statistics. vm_compute. reflexivity.
Defined.

Lemma classification_change_summary_counts_witness :
  exists pct, classification_change_summary (Some (mk_nd 2 2 [0; 1; 0; 0]%Z)) =
    Some (Z.of_nat (count_occ Z.eq_dec [0; 1; 0; 0]%Z 1%Z), pct, Z.of_nat (count_occ Z.eq_dec [0; 1; 0; 0]%Z 0%Z)).
Proof. apply classification_change_summary_counts. repeat constructor; (left; reflexivity) || (right; reflexivity). Defined.

(** The labels [0; 1] of the two valid pixels of a 2 x 2 window print as
    50 % each, although each class covers a quarter of the grid. *)
Example class_distribution_valid_only :
  class_distribution [0; 1]%nat = [(1%Z, 1%nat, Num (100 # 2)); (2%Z, 1%nat, Num (100 # 2))].
Proof. vm_compute. reflexivity. Qed.
End Statistics.
