(* ===== verification/ChangeStats.v ===== *)
(** * ChangeStats: [calculate_change_statistics] of src/change_detection.py

    [calculate_change_statistics(ndvi_diff, changes, change_matrix)]
    (lines 127-159) prints the minimum, maximum, mean and standard
    deviation of the NDVI difference (lines 135-139), a line per value of
    the change raster with its label, count and percentage (lines
    142-150), and, when a transition matrix is given, the changed and
    unchanged pixels (lines 153-159, [Statistics.classification_change_summary]).
    The model returns the printed values as a record; [Pipeline.change_main]
    sequences it after the plot, where an empty difference raises.

    NumPy's reductions: [np.min] and [np.max] propagate NaN and raise on
    an empty array; [np.mean] and [np.std] (population deviation, the
    [mean] and [var] of [StandardScaler]) propagate NaN.  They are
    computed exactly, the square root through the class [Sqrt]; the
    printout rounds them to three decimals.  A change value without a
    name in [change_labels] prints as [Class <v>].

    Theorems: on a non-empty NaN-free difference the printed minimum,
    mean and maximum are ordered and the deviation is non-negative; a
    NaN pixel turns all four into NaN; on the change raster that
    [classify_changes] computes, the report names only Decrease,
    Increase and No Change, except one line [Class 0] that appears
    exactly when the difference has a NaN pixel. *)

From Stdlib Require Import QArith Qminmax Lqa ZArith List Lia Arith Bool.
From S2P Require Import Prelude Float32 NdArray Raster ChangeDetection Scaler Stats.
Import ListNotations.

Open Scope Q_scope.

Module ChangeStats.
Import Statistics.

(** ** NumPy reductions *)

Definition has_nan (l : list f32) : bool := existsb isnan l.

(** The values of a NaN-free array. *)
Definition values (l : list f32) : list Q := map pct_value l.

(** [np.min(a)] and [np.max(a)]. *)
Definition np_min (l : list f32) : res f32 :=
  match l with
  | [] => Err EmptyReduction
  | x :: t => Ok (if has_nan l then NaN else Num (fold_left Qmin (values t) (pct_value x)))
  end.

Definition np_max (l : list f32) : res f32 :=
  match l with
  | [] => Err EmptyReduction
  | x :: t => Ok (if has_nan l then NaN else Num (fold_left Qmax (values t) (pct_value x)))
  end.

(** [np.mean(a)] and [np.std(a)]: NaN on an empty or NaN-holding array. *)
Definition np_mean (l : list f32) : f32 :=
  match l with
  | [] => NaN
  | _ => if has_nan l then NaN else Num (StandardScaler.mean (values l))
  end.

Definition np_std {S : Sqrt} (l : list f32) : f32 :=
  match l with
  | [] => NaN
  | _ => if has_nan l then NaN else Num (qsqrt (StandardScaler.var (values l)))
  end.

(** ** The report *)

(** [change_labels.get(change_id, f'Class {change_id}')]. *)
Inductive change_label : Type :=
  | Decrease
  | Increase
  | NoChange
  | ClassOther (v : Z).

Definition change_label_of (v : Z) : change_label :=
  if Z.eqb v 1 then Decrease
  else if Z.eqb v 2 then Increase
  else if Z.eqb v 3 then NoChange
  else ClassOther v.

Record change_statistics := mk_change_statistics {
  diff_min : f32;
  diff_max : f32;
  diff_mean : f32;
  diff_std : f32;
  change_lines : list (change_label * nat * f32);
  classification_changes : option (Z * f32 * Z)
}.

Definition calculate_change_statistics {S : Sqrt} (ndvi_diff : ndarray f32) (changes : ndarray Z)
    (change_matrix : option (ndarray Z)) : res change_statistics :=
  mn <- np_min (cells ndvi_diff) ;;
  mx <- np_max (cells ndvi_diff) ;;
  let uc := unique_counts (cells changes) in
  let total_pixels := nsum (map snd uc) in
  Ok (mk_change_statistics mn mx (np_mean (cells ndvi_diff)) (np_std (cells ndvi_diff))
        (map (fun '(v, c) => (change_label_of v, c, percentage c total_pixels)) uc)
        (classification_change_summary change_matrix)).

(** ** Lemmas *)

(** [np.min] and [np.max] succeed exactly on a non-empty array. *)
Lemma np_min_max_ok l : l <> [] -> exists a b, np_min l = Ok a /\ np_max l = Ok b.
Proof. destruct l; [congruence |]. intros _. do 2 eexists. split; reflexivity. Qed.

Lemma calculate_change_statistics_ok {S : Sqrt} d c cm :
  cells d <> [] -> exists s, calculate_change_statistics d c cm = Ok s.
Proof.
  intros H. destruct (np_min_max_ok _ H) as (a & b & Ea & Eb).
  unfold calculate_change_statistics. rewrite Ea, Eb. eexists. reflexivity.
Qed.

Lemma calculate_change_statistics_empty {S : Sqrt} d c cm :
  cells d = [] -> calculate_change_statistics d c cm = Err EmptyReduction.
Proof. intros H. unfold calculate_change_statistics. rewrite H. reflexivity. Qed.

Lemma has_nan_false l : has_nan l = false <-> Forall (fun x => isnan x = false) l.
Proof.
  unfold has_nan. rewrite <- Bool.not_true_iff_false, existsb_exists, Forall_forall.
  split; [intros H x Hx; apply Bool.not_true_iff_false; intros E; apply H; eauto |].
  intros H [x [Hx E]]. rewrite (H x Hx) in E. discriminate.
Qed.

Lemma has_nan_true l : has_nan l = true <-> exists x, In x l /\ isnan x = true.
Proof. unfold has_nan. apply existsb_exists. Qed.

Lemma fold_min_le l x0 : fold_left Qmin l x0 <= x0 /\ forall y, In y l -> fold_left Qmin l x0 <= y.
Proof.
  revert x0. induction l as [| x l IH]; intros x0; cbn; [split; [lra | tauto] |].
  destruct (IH (Qmin x0 x)) as [H1 H2]. pose proof (Q.le_min_l x0 x). pose proof (Q.le_min_r x0 x).
  split; [lra | intros y [<- | Hy]; [lra | auto]].
Qed.

Lemma fold_max_ge l x0 : x0 <= fold_left Qmax l x0 /\ forall y, In y l -> y <= fold_left Qmax l x0.
Proof.
  revert x0. induction l as [| x l IH]; intros x0; cbn; [split; [lra | tauto] |].
  destruct (IH (Qmax x0 x)) as [H1 H2]. pose proof (Q.le_max_l x0 x). pose proof (Q.le_max_r x0 x).
  split; [lra | intros y [<- | Hy]; [lra | auto]].
Qed.

Lemma qsum_lower (l : list Q) a : (forall x, In x l -> a <= x) -> qlen l * a <= qsum l.
Proof.
  induction l as [| x l IH]; intros H; cbn [qsum]; [change (qlen (@nil Q)) with 0; lra |].
  rewrite qlen_cons. assert (a <= x) by (apply H; left; reflexivity).
  assert (qlen l * a <= qsum l) by (apply IH; intros y Hy; apply H; right; exact Hy). lra.
Qed.

Lemma qsum_upper (l : list Q) b : (forall x, In x l -> x <= b) -> qsum l <= qlen l * b.
Proof.
  induction l as [| x l IH]; intros H; cbn [qsum]; [change (qlen (@nil Q)) with 0; lra |].
  rewrite qlen_cons. assert (x <= b) by (apply H; left; reflexivity).
  assert (qsum l <= qlen l * b) by (apply IH; intros y Hy; apply H; right; exact Hy). lra.
Qed.

Lemma qlen_gt {A} (l : list A) : l <> [] -> 0 < qlen l.
Proof.
  destruct l as [| x t]; [congruence |]. intros _. rewrite qlen_cons. unfold qlen.
  assert (0 <= inject_Z (Z.of_nat (length t))) by (change 0 with (inject_Z 0); rewrite <- Zle_Qle; lia). lra.
Qed.

(** The mean lies between any lower and upper bound of the values. *)
Lemma mean_between (l : list Q) a b :
  l <> [] -> (forall x, In x l -> a <= x <= b) -> a <= StandardScaler.mean l <= b.
Proof.
  intros Hl H. pose proof (qlen_gt l Hl) as Hn. unfold StandardScaler.mean.
  pose proof (qsum_lower l a (fun x Hx => proj1 (H x Hx))). pose proof (qsum_upper l b (fun x Hx => proj2 (H x Hx))).
  split; [apply Qle_shift_div_l | apply Qle_shift_div_r]; try exact Hn; lra.
Qed.

(** [change_px] is 0 exactly on NaN. *)
Lemma change_px_zero {R : Rounding} t x : 0 <= t -> Change.change_px t x = 0%Z <-> isnan x = true.
Proof.
  intros Ht. destruct x as [q |]; [| split; reflexivity].
  rewrite Change.change_px_num by exact Ht. cbn [isnan].
  destruct (Qltb q (- rnd t)); [| destruct (Qltb (rnd t) q)]; split; discriminate.
Qed.

Lemma change_label_cases v :
  change_label_of v = Decrease \/ change_label_of v = Increase \/ change_label_of v = NoChange \/
  change_label_of v = ClassOther v.
Proof. unfold change_label_of. destruct (Z.eqb v 1); [| destruct (Z.eqb v 2); [| destruct (Z.eqb v 3)]]; auto. Qed.

Lemma change_label_other v w : change_label_of v = ClassOther w -> v = w /\ v <> 1%Z /\ v <> 2%Z /\ v <> 3%Z.
Proof.
  unfold change_label_of. destruct (Z.eqb_spec v 1); [discriminate |].
  destruct (Z.eqb_spec v 2); [discriminate |]. destruct (Z.eqb_spec v 3); [discriminate |].
  intros E. injection E as <-. auto.
Qed.

(** The values of [np.unique] are the values of the array. *)
Lemma unique_counts_values l v : (exists c, In (v, c) (unique_counts l)) <-> In v l.
Proof.
  split; [intros [c Hc]; apply (count_occ_In Z.eq_dec); pose proof (unique_counts_count _ _ _ Hc); lia |].
  apply unique_counts_cover.
Qed.

(** ** Theorems *)

Section Theorems.
Context {R : Rounding} {S : Sqrt}.

(** On a non-empty NaN-free NDVI difference, the statistics are
    computed without error and the printed minimum, mean and maximum are
    numbers in that order, with a non-negative standard deviation. *)
Theorem change_statistics_bounds ndvi_diff changes change_matrix :
  cells ndvi_diff <> [] -> Forall (fun x => isnan x = false) (cells ndvi_diff) ->
  exists s mn mx m sd, calculate_change_statistics ndvi_diff changes change_matrix = Ok s /\
    diff_min s = Num mn /\ diff_max s = Num mx /\ diff_mean s = Num m /\ diff_std s = Num sd /\
    mn <= m <= mx /\ 0 <= sd.
Proof.
  intros Hne Hnan. unfold calculate_change_statistics, np_min, np_max, np_mean, np_std.
  pose proof (proj2 (has_nan_false _) Hnan) as Hf.
  destruct (cells ndvi_diff) as [| x t] eqn:E; [contradiction |]. rewrite Hf. cbn [res_bind].
  do 5 eexists. split; [reflexivity |]. cbn. do 4 (split; [reflexivity |]).
  split; [| apply qsqrt_nonneg].
  destruct (fold_min_le (values t) (pct_value x)) as [Hm0 Hm]. destruct (fold_max_ge (values t) (pct_value x)) as [HM0 HM].
  apply mean_between; [discriminate |]. intros y [<- | Hy]; split; auto.
Qed.

(** NumPy's reductions propagate NaN: one NaN pixel of the NDVI
    difference makes the printed minimum, maximum, mean and standard
    deviation all NaN. *)
Theorem change_statistics_nan ndvi_diff changes change_matrix x :
  In x (cells ndvi_diff) -> isnan x = true ->
  exists s, calculate_change_statistics ndvi_diff changes change_matrix = Ok s /\
    diff_min s = NaN /\ diff_max s = NaN /\ diff_mean s = NaN /\ diff_std s = NaN.
Proof.
  intros Hx Hn. assert (Ht : has_nan (cells ndvi_diff) = true) by (apply has_nan_true; eauto).
  unfold calculate_change_statistics, np_min, np_max, np_mean, np_std.
  destruct (cells ndvi_diff) as [| y t]; [destruct Hx |]. rewrite Ht. cbn. eexists. split; [reflexivity | auto].
Qed.

(** C19: On the change raster of [classify_changes] (with a non-negative
    threshold), the printed change classification names only Decrease,
    Increase and No Change, and a line [Class 0] appears exactly when the
    NDVI difference has a NaN pixel: NaN falls in none of the three masks
    and keeps the 0 of [np.zeros_like]. *)
Theorem change_report_labels ndvi_diff t changes change_matrix s :
  wf ndvi_diff -> 0 <= t -> Change.classify_changes ndvi_diff t = Ok changes ->
  calculate_change_statistics ndvi_diff changes change_matrix = Ok s ->
  (forall l, In l (map (fun e => fst (fst e)) (change_lines s)) ->
     l = Decrease \/ l = Increase \/ l = NoChange \/ l = ClassOther 0%Z) /\
  (In (ClassOther 0%Z) (map (fun e => fst (fst e)) (change_lines s)) <->
     exists x, In x (cells ndvi_diff) /\ isnan x = true).
Proof.
  intros Hwf Ht Hc Hs. rewrite Change.classify_changes_eq in Hc by exact Hwf. injection Hc as <-.
  unfold calculate_change_statistics in Hs.
  destruct (np_min _) as [mn |]; cbn in Hs; [| discriminate]. destruct (np_max _) as [mx |]; cbn in Hs; [| discriminate].
  injection Hs as <-. cbn [change_lines]. rewrite map_map.
  assert (Hlab : forall l, In l (map (fun x => fst (fst (let '(v, c) := x in
                   (change_label_of v, c, percentage c (nsum (map snd (unique_counts (cells (amap (Change.change_px t) ndvi_diff)))))))))
                   (unique_counts (cells (amap (Change.change_px t) ndvi_diff)))) <->
                   exists v c, In (v, c) (unique_counts (cells (amap (Change.change_px t) ndvi_diff))) /\ l = change_label_of v).
  { intros l. rewrite in_map_iff. split; [intros [[v c] [<- Hin]]; eauto | intros (v & c & Hin & ->); exists (v, c); auto]. }
  split.
  - intros l Hl. apply Hlab in Hl as (v & c & Hin & ->).
    destruct (change_label_cases v) as [| [| [| E]]]; auto. right; right; right. rewrite E.
    assert (Hv : In v (cells (amap (Change.change_px t) ndvi_diff))) by (apply unique_counts_values; eauto).
    cbn in Hv. apply in_map_iff in Hv as (x & <- & _). destruct x as [q |]; [| reflexivity].
    exfalso. apply change_label_other in E as (_ & H1 & H2 & H3).
    rewrite Change.change_px_num in H1, H2, H3 by exact Ht.
    destruct (Qltb q (- rnd t)); [| destruct (Qltb (rnd t) q)]; congruence.
  - rewrite Hlab. split.
    + intros (v & c & Hin & E). apply eq_sym, change_label_other in E as (-> & _).
      assert (Hv : In 0%Z (cells (amap (Change.change_px t) ndvi_diff))) by (apply unique_counts_values; eauto).
      cbn in Hv. apply in_map_iff in Hv as (x & Hx & Hin'). exists x. split; [exact Hin' | apply (change_px_zero t x Ht), Hx].
    + intros (x & Hin & Hn). destruct (proj2 (unique_counts_values (cells (amap (Change.change_px t) ndvi_diff)) 0%Z)) as [c Hc].
      { cbn. apply in_map_iff. exists x. split; [apply (change_px_zero t x Ht), Hn | exact Hin]. }
      exists 0%Z, c. split; [exact Hc | reflexivity].
Qed.
End Theorems.

(** ** Witnesses *)

Definition diff_ok : ndarray f32 := mk_nd 1 3 [Num (-2 # 10); Num 0; Num (3 # 10)].
Definition diff_nan : ndarray f32 := mk_nd 1 2 [Num (1 # 10); NaN].

Lemma change_statistics_bounds_witness :
  cells diff_ok <> [] /\ Forall (fun x => isnan x = false) (cells diff_ok) /\
  exists s mn mx m sd, calculate_change_statistics diff_ok (mk_nd 1 3 [1; 3; 2]%Z) None = Ok s /\
    diff_min s = Num mn /\ diff_max s = Num mx /\ diff_mean s = Num m /\ diff_std s = Num sd /\
    mn <= m <= mx /\ 0 <= sd.
Proof.
  assert (H1 : cells diff_ok <> []) by discriminate.
  assert (H2 : Forall (fun x => isnan x = false) (cells diff_ok)) by repeat constructor.
  split; [exact H1 | split; [exact H2 | exact (change_statistics_bounds _ _ _ H1 H2)]].
Defined.

Lemma change_statistics_nan_witness :
  In NaN (cells diff_nan) /\ isnan NaN = true /\
  exists s, calculate_change_statistics diff_nan (mk_nd 1 2 [3; 0]%Z) None = Ok s /\
    diff_min s = NaN /\ diff_max s = NaN /\ diff_mean s = NaN /\ diff_std s = NaN.
Proof.
  assert (H1 : In NaN (cells diff_nan)) by (right; left; reflexivity).
  split; [exact H1 | split; [reflexivity | exact (change_statistics_nan _ _ _ NaN H1 eq_refl)]].
Defined.

Lemma change_report_labels_witness :
  exists changes s, wf diff_nan /\ 0 <= 1 # 10 /\ Change.classify_changes diff_nan (1 # 10) = Ok changes /\
    calculate_change_statistics diff_nan changes None = Ok s /\
    (forall l, In l (map (fun e => fst (fst e)) (change_lines s)) ->
       l = Decrease \/ l = Increase \/ l = NoChange \/ l = ClassOther 0%Z) /\
    (In (ClassOther 0%Z) (map (fun e => fst (fst e)) (change_lines s)) <->
       exists x, In x (cells diff_nan) /\ isnan x = true).
Proof.
  assert (Hw : wf diff_nan) by reflexivity. assert (Ht : 0 <= 1 # 10) by (unfold Qle; cbn; lia).
  assert (Hc : Change.classify_changes diff_nan (1 # 10) = Ok (amap (Change.change_px (1 # 10)) diff_nan))
    by (apply Change.classify_changes_eq, Hw).
  eexists. eexists. split; [exact Hw | split; [exact Ht | split; [exact Hc | split; [reflexivity |]]]].
  exact (change_report_labels _ _ _ None _ Hw Ht Hc eq_refl).
Defined.

End ChangeStats.
