(* ===== verification/Pipeline.v ===== *)
(** * Pipeline: the per-year drivers and the orchestrator

    Each analysis script is a [main] that reads band files, computes and
    writes rasters, year by year; [run_all_analyses.py] runs the four
    scripts one after the other as subprocesses.  The model threads a
    file store through a small state-and-error monad [M]: a script is a
    function from the store to the new store and its outcome, so a file
    written before an exception stays written, as on disk.

    - [ndvi_main]: src/calculate_ndvi.py, lines 55-109.
    - [landcover_main]: src/land_cover_classification.py, lines 117-178.
    - [change_main]: src/change_detection.py, lines 161-217.
    - [urban_main]: src/urban_extraction.py, lines 213-268.
    - [run_all]: src/run_all_analyses.py, lines 11-31 and 124-150, the
      dependency guard and the analysis loop ([Orchestrator.main] adds
      the data check, whose answer it does not use).
    - [python_script]: a script run as its own process executes its
      imports first (lines 7-15 of each script); a missing package
      raises [ImportError] before any write.
    - [created]: [rasterio.open(path, 'w', **profile)] creates the file
      before [dst.write]; a write of another shape raises and leaves the
      blank (nodata-filled) dataset of the profile.

    A plot function's [plt.savefig] writes a PNG file ([save_plot]);
    the printed statistics are steps where NumPy can raise ([np.min] and
    [np.max] of an empty array: the NDVI statistics and
    [ChangeStats.calculate_change_statistics]); printing itself, the
    plots' display and [mkdir] have no effect on the store and are left
    out; the result dictionary of [run_all] is the list of
    (description, success) pairs in insertion order.

    Theorems: the NDVI year step writes what [calculate_ndvi] returns and
    its plot; a one-row red band against a taller NIR band makes
    [calculate_ndvi.main] stop on 2021 leaving a blank NDVI file; a
    missing ROI fails the script after its outputs are written; a 2021
    window with one to four valid pixels stops the classification before
    2025; the change driver writes the difference and change rasters the
    core computes. *)

From Stdlib Require Import QArith Qround ZArith List Lia Arith Bool String.
From S2P Require Import Prelude Float32 NdArray Raster Resample Indices ChangeDetection Window Scaler KMeans ClassMap Urban Stats ChangeStats.
Import ListNotations.

Open Scope string_scope.

Module Pipeline.

(** A file of the store: a float band or index raster, an integer label
    raster, a shapefile, or any other file (an archive, metadata). *)
Inductive file : Type :=
  | FBand (r : raster f32)
  | LBand (r : raster Z)
  | Shapefile
  | Blob.

Definition store : Type := list (string * file).

(** The most recent write of a path. *)
Fixpoint lookup (path : string) (st : store) : option file :=
  match st with
  | [] => None
  | (p, f) :: rest => if String.eqb p path then Some f else lookup path rest
  end.

(** A script step: the new store and its outcome. *)
Definition M (A : Type) : Type := store -> store * res A.

Definition ret {A} (a : A) : M A := fun st => (st, Ok a).

Definition bind {A B} (m : M A) (k : A -> M B) : M B :=
  fun st => match m st with
            | (st', Ok a) => k a st'
            | (st', Err e) => (st', Err e)
            end.

Declare Scope pipe_scope.
Notation "x <~ m ;; k" := (bind m (fun x => k)) (at level 61, m at next level, right associativity) : pipe_scope.
Open Scope pipe_scope.

(** A computation of the core: raises its error, leaves the store. *)
Definition lift {A} (r : res A) : M A := fun st => (st, r).

(** [Path(p).exists()]. *)
Definition file_exists (path : string) : M bool :=
  fun st => (st, Ok (match lookup path st with Some _ => true | None => false end)).

(** [rasterio.open(p)] and [src.read(1)] of a float band; opening a
    missing file raises. *)
Definition read_band (path : string) : M (raster f32) :=
  fun st => match lookup path st with Some (FBand r) => (st, Ok r) | _ => (st, Err FileMissing) end.

Definition read_labels (path : string) : M (raster Z) :=
  fun st => match lookup path st with Some (LBand r) => (st, Ok r) | _ => (st, Err FileMissing) end.

(** [gpd.read_file(p)]. *)
Definition read_shapefile (path : string) : M unit :=
  fun st => match lookup path st with Some Shapefile => (st, Ok tt) | _ => (st, Err FileMissing) end.

(** Writing [f] at [path]. *)
Definition write_file (path : string) (f : file) : M unit := fun st => ((path, f) :: st, Ok tt).

Fixpoint all_exist (paths : list string) : M bool :=
  match paths with
  | [] => ret true
  | p :: ps => e <~ file_exists p ;; es <~ all_exist ps ;; ret (e && es)
  end.

Fixpoint read_bands (paths : list string) : M (list (raster f32)) :=
  match paths with
  | [] => ret []
  | p :: ps => b <~ read_band p ;; bs <~ read_bands ps ;; ret (b :: bs)
  end.

(** [for year in years: body(year)]. *)
Fixpoint for_years (years : list string) (body : string -> M unit) : M unit :=
  match years with
  | [] => ret tt
  | y :: ys => _ <~ body y ;; for_years ys body
  end.

Definition years : list string := ["2021"; "2025"].

Definition band_path (year band : string) : string := "data/" ++ year ++ "/" ++ band ++ ".tif".
Definition output_path (name : string) : string := "data/output/" ++ name.
Definition roi_shapefile : string := "data/roi/ne_10m_admin_0_countries.shp".

(** [plt.savefig(output_path, dpi=300, bbox_inches='tight')] in the
    plot functions: a PNG file that no script reads back. *)
Definition save_plot (path : string) : M unit := write_file path Blob.

(** ** The plot functions

    A plot function draws its arrays with matplotlib, saves the figure
    when [output_path] is given ([if output_path:], a non-empty string)
    and shows it.  The figure's content is display only; its effect on
    the data directory is the saved PNG. *)
Definition plot_file (output_path : string) : M unit :=
  if String.eqb output_path "" then ret tt else save_plot output_path.

(** [plot_ndvi(ndvi, title, output_path)], src/calculate_ndvi.py 40-52. *)
Definition plot_ndvi (ndvi : ndarray f32) (title output_path : string) : M unit := plot_file output_path.

(** [plot_classification(classification_map, title, output_path)],
    src/land_cover_classification.py 95-115. *)
Definition plot_classification (classification_map : ndarray Z) (title output_path : string) : M unit :=
  plot_file output_path.

(** [plot_changes(ndvi_diff, changes, title, output_path)],
    src/change_detection.py 89-125. *)
Definition plot_changes (ndvi_diff : ndarray f32) (changes : ndarray Z) (title output_path : string) : M unit :=
  plot_file output_path.

(** [plot_urban_extraction(ndvi, bui, urban_mask, title, output_path)],
    src/urban_extraction.py 132-182. *)
Definition plot_urban_extraction (ndvi bui : ndarray f32) (urban_mask : ndarray Z) (title output_path : string) : M unit :=
  plot_file output_path.

(** ** Writing a dataset

    [with rasterio.open(path, 'w', **profile) as dst: dst.write(a, 1)]:
    opening creates the file with the profile's shape; [dst.write]
    raises for an array of another shape ([WriteShapeError]), and GDAL,
    closing the file, fills the blocks never written with the nodata
    value (0 without one).  The core functions return the dataset they
    write, or the error; [created] adds the file an aborted write leaves:
    the blank dataset of the profile.  Every other error of a core
    function is raised before its [rasterio.open] and creates nothing. *)
Definition nodata_or_zero (p : profile) : Q := match p_nodata p with Some nd => nd | None => 0 end.

Definition blank_band (p : profile) : raster f32 :=
  mk_raster p (mk_nd (p_height p) (p_width p) (repeat (Num (nodata_or_zero p)) (p_height p * p_width p))).

Definition blank_labels (p : profile) : raster Z :=
  mk_raster p (mk_nd (p_height p) (p_width p) (repeat (Qfloor (nodata_or_zero p)) (p_height p * p_width p))).

Definition created {B} (path : string) (blank : file) (r : res B) : M B :=
  fun st => match r with
            | Err WriteShapeError => ((path, blank) :: st, r)
            | _ => (st, r)
            end.

Section Drivers.
Context {R : Rounding} {S : Sqrt} {SD : Classification.Seeding} {RS : Resampler}.

(** One year of [calculate_ndvi.main] (lines 64-88): the printed
    statistics of lines 84-88 leave the store alone, but [np.min] and
    [np.max] raise on an empty array ([np.mean] and [np.std] only warn). *)
Definition ndvi_year (year : string) : M unit :=
  red_ok <~ file_exists (band_path year "B4") ;;
  nir_ok <~ file_exists (band_path year "B8") ;;
  if negb (red_ok && nir_ok) then ret tt
  else
    red <~ read_band (band_path year "B4") ;;
    nir <~ read_band (band_path year "B8") ;;
    r <~ created (output_path ("ndvi_" ++ year ++ ".tif"))
           (FBand (blank_band (set_output (r_profile red) Float32 (-9999))))
           (SpectralIndex.calculate_ndvi red nir) ;;
    _ <~ write_file (output_path ("ndvi_" ++ year ++ ".tif")) (FBand (fst r)) ;;
    _ <~ plot_ndvi (snd r) ("NDVI " ++ year) (output_path ("ndvi_" ++ year ++ "_plot.png")) ;;
    _ <~ lift (ChangeStats.np_min (cells (snd r))) ;;
    _ <~ lift (ChangeStats.np_max (cells (snd r))) ;;
    ret tt.

(** [calculate_ndvi.main]: the years, then the CRS and bounds checks of
    lines 91-109, which open the 2021 blue band and the ROI shapefile. *)
Definition ndvi_main : M unit :=
  _ <~ for_years years ndvi_year ;;
  _ <~ read_band (band_path "2021" "B2") ;;
  _ <~ read_shapefile roi_shapefile ;;
  _ <~ read_band (band_path "2021" "B2") ;;
  read_shapefile roi_shapefile.

Definition classification_bands (year : string) : list string :=
  map (band_path year) ["B2"; "B3"; "B4"; "B8"].

(** One year of [land_cover_classification.main] (lines 131-171). *)
Definition landcover_year (year : string) : M unit :=
  ok <~ all_exist (classification_bands year) ;;
  if negb ok then ret tt
  else
    bands <~ read_bands (classification_bands year) ;;
    r <~ lift (Classification.classify_year bands 100 5) ;;
    match r with
    | None => ret tt
    | Some (classification_map, dst) =>
        _ <~ write_file (output_path ("classification_" ++ year ++ ".tif")) (LBand dst) ;;
        plot_classification classification_map ("Land Cover Classification " ++ year)
          (output_path ("classification_" ++ year ++ "_plot.png"))
    end.

Definition landcover_main : M unit := for_years years landcover_year.

(** [change_detection.main]. *)
Definition change_main : M unit :=
  let ndvi_2021_path := output_path "ndvi_2021.tif" in
  let ndvi_2025_path := output_path "ndvi_2025.tif" in
  e1 <~ file_exists ndvi_2021_path ;;
  e2 <~ file_exists ndvi_2025_path ;;
  if negb (e1 && e2) then ret tt
  else
    let class_2021_path := output_path "classification_2021.tif" in
    let class_2025_path := output_path "classification_2025.tif" in
    src_2021 <~ read_band ndvi_2021_path ;;
    src_2025 <~ read_band ndvi_2025_path ;;
    d <~ created (output_path "ndvi_difference.tif")
           (FBand (blank_band (set_output (r_profile src_2021) Float32 (-9999))))
           (Change.calculate_ndvi_difference src_2021 src_2025) ;;
    _ <~ write_file (output_path "ndvi_difference.tif") (FBand (fst d)) ;;
    changes <~ lift (Change.classify_changes (snd d) (1 # 10)) ;;
    src <~ read_band ndvi_2021_path ;;
    dst <~ created (output_path "changes.tif") (LBand (blank_labels (set_output (r_profile src) Uint8 0)))
             (write_band (set_output (r_profile src) Uint8 0) changes) ;;
    _ <~ write_file (output_path "changes.tif") (LBand dst) ;;
    c1 <~ file_exists class_2021_path ;;
    c2 <~ file_exists class_2025_path ;;
    change_matrix <~ (if c1 && c2 then
            a <~ read_labels class_2021_path ;;
            b <~ read_labels class_2025_path ;;
            cm <~ created (output_path "classification_changes.tif")
                    (LBand (blank_labels (set_output (r_profile a) Uint8 0)))
                    (Change.compare_classifications a b) ;;
            _ <~ write_file (output_path "classification_changes.tif") (LBand (fst cm)) ;;
            ret (Some (snd cm))
          else ret None) ;;
    _ <~ plot_changes (snd d) changes "Change Detection: 2021-2025" (output_path "change_detection_plot.png") ;;
    _ <~ lift (ChangeStats.calculate_change_statistics (snd d) changes change_matrix) ;;
    ret tt.

Definition urban_bands (year : string) : list string :=
  map (band_path year) ["B4"; "B8"; "B11"].

(** One year of [urban_extraction.main] (lines 226-262). *)
Definition urban_year (year : string) : M unit :=
  ok <~ all_exist (urban_bands year) ;;
  if negb ok then ret tt
  else
    red <~ read_band (band_path year "B4") ;;
    nir <~ read_band (band_path year "B8") ;;
    swir <~ read_band (band_path year "B11") ;;
    r <~ created (output_path ("bui_" ++ year ++ ".tif"))
           (FBand (blank_band (set_output (r_profile red) Float32 (-9999))))
           (SpectralIndex.calculate_built_up_index red nir swir) ;;
    let '(out, (bui, ndvi, ndbi)) := r in
    _ <~ write_file (output_path ("bui_" ++ year ++ ".tif")) (FBand out) ;;
    urban_mask <~ lift (Urban.extract_urban_areas ndvi bui (3 # 10) (1 # 10)) ;;
    src <~ read_band (band_path year "B4") ;;
    dst <~ lift (Urban.save_urban_areas urban_mask (r_profile src)) ;;
    _ <~ write_file (output_path ("urban_areas_" ++ year ++ ".tif")) (LBand dst) ;;
    plot_urban_extraction ndvi bui urban_mask ("Urban Area Extraction " ++ year)
      (output_path ("urban_extraction_" ++ year ++ "_plot.png")).

Definition urban_main : M unit := for_years years urban_year.

(** The exit status of a script: [check=True] raises for a non-zero one. *)
Definition succeeded {A} (r : res A) : bool := match r with Ok _ => true | Err _ => false end.

(** [run_script]: the script's exception becomes [False]; its writes stay. *)
Definition run_script (script : M unit) : M bool :=
  fun st => let '(st', r) := script st in (st', Ok (succeeded r)).

(** ** Imports

    A script runs its imports (its first lines) before any other
    statement: a module that is not installed raises [ImportError] there
    and the script writes nothing.  [installed m] says whether the
    top-level package [m] imports.  The MongoDB client and GridFS bucket
    that [urban_extraction.py] builds at import time (lines 17-20) do not
    contact the server before the first upload, so they raise nothing. *)
Definition python_script (installed : string -> bool) (imports : list string) (body : M unit) : M unit :=
  if forallb installed imports then body else fun st => (st, Err ImportError).

(** src/calculate_ndvi.py, lines 7-11. *)
Definition ndvi_imports : list string := ["rasterio"; "numpy"; "matplotlib"; "pathlib"; "geopandas"].

(** src/land_cover_classification.py, lines 7-15. *)
Definition landcover_imports : list string :=
  ["rasterio"; "numpy"; "matplotlib"; "sklearn"; "pathlib"; "geopandas"; "shapely"].

(** src/change_detection.py, lines 7-14. *)
Definition change_imports : list string := ["rasterio"; "numpy"; "matplotlib"; "pathlib"; "geopandas"; "shapely"].

(** src/urban_extraction.py, lines 7-15. *)
Definition urban_imports : list string :=
  ["rasterio"; "numpy"; "matplotlib"; "pathlib"; "geopandas"; "pymongo"; "gridfs"].

(** The [analyses] list of [run_all_analyses.main], each script run as
    its own Python process. *)
Definition analyses (installed : string -> bool) : list (M unit * string) :=
  [(python_script installed ndvi_imports ndvi_main, "NDVI Calculation");
   (python_script installed landcover_imports landcover_main, "Land Cover Classification");
   (python_script installed change_imports change_main, "Change Detection");
   (python_script installed urban_imports urban_main, "Urban Area Extraction")].

Fixpoint run_analyses (l : list (M unit * string)) : M (list (string * bool)) :=
  match l with
  | [] => ret []
  | (script, description) :: rest =>
      success <~ run_script script ;;
      results <~ run_analyses rest ;;
      ret ((description, success) :: results)
  end.

(** [run_all_analyses.main] in the environment [installed]; [deps_ok] is
    the answer of [check_dependencies].  [check_data_files] only reads
    (its answer is unused). *)
Definition run_all (installed : string -> bool) (deps_ok : bool) : M (list (string * bool)) :=
  if negb deps_ok then ret [] else run_analyses (analyses installed).
End Drivers.

(** ** Monad lemmas *)

Lemma bind_step {A B} (m : M A) (k : A -> M B) st st' a :
  m st = (st', Ok a) -> bind m k st = k a st'.
Proof. intros E. unfold bind. rewrite E. reflexivity. Qed.

Lemma bind_fail {A B} (m : M A) (k : A -> M B) st st' e :
  m st = (st', Err e) -> bind m k st = (st', Err e).
Proof. intros E. unfold bind. rewrite E. reflexivity. Qed.

Lemma file_exists_eval path st :
  file_exists path st = (st, Ok (match lookup path st with Some _ => true | None => false end)).
Proof. reflexivity. Qed.

Lemma read_band_eval path st r : lookup path st = Some (FBand r) -> read_band path st = (st, Ok r).
Proof. intros E. unfold read_band. rewrite E. reflexivity. Qed.

(** Unfolds one step of a driver whose effect is known. *)
Ltac step :=
  first [ erewrite bind_step by (first [ apply file_exists_eval | eapply read_band_eval; eassumption
                                       | reflexivity | eassumption ])
        | erewrite bind_fail by eassumption ].

Section Theorems.
Context {R : Rounding} {S : Sqrt} {SD : Classification.Seeding} {RS : Resampler}.

(** One year of the NDVI script when both bands are present. *)
Lemma ndvi_year_eval year st red nir r :
  lookup (band_path year "B4") st = Some (FBand red) -> lookup (band_path year "B8") st = Some (FBand nir) ->
  raster_ok red -> SpectralIndex.calculate_ndvi red nir = Ok r ->
  ndvi_year year st =
    ((output_path ("ndvi_" ++ year ++ "_plot.png"), Blob) :: (output_path ("ndvi_" ++ year ++ ".tif"), FBand (fst r)) :: st, Ok tt).
Proof.
  intros Hr Hn Hok Hc. unfold ndvi_year.
  destruct (ChangeStats.np_min_max_ok _ (SpectralIndex.calculate_ndvi_nonempty _ _ _ Hok Hc)) as (a & b & Ea & Eb).
  do 2 (erewrite bind_step by apply file_exists_eval). rewrite Hr, Hn. cbn [andb negb].
  erewrite bind_step by (eapply read_band_eval; eassumption).
  erewrite bind_step by (eapply read_band_eval; eassumption).
  erewrite bind_step by (unfold lift, created; rewrite Hc; reflexivity).
  do 2 (erewrite bind_step by reflexivity).
  erewrite bind_step by (unfold lift, created; rewrite Ea; reflexivity).
  erewrite bind_step by (unfold lift, created; rewrite Eb; reflexivity). reflexivity.
Qed.

(** When a year's red and NIR bands are in the store and
    [calculate_ndvi] succeeds on them, [calculate_ndvi.main] writes
    exactly the dataset [calculate_ndvi] returns at
    [data/output/ndvi_<year>.tif], then its plot
    [ndvi_<year>_plot.png], and nothing else. *)
Theorem ndvi_year_writes year st red nir r :
  lookup (band_path year "B4") st = Some (FBand red) -> lookup (band_path year "B8") st = Some (FBand nir) ->
  raster_ok red -> SpectralIndex.calculate_ndvi red nir = Ok r ->
  ndvi_year year st =
    ((output_path ("ndvi_" ++ year ++ "_plot.png"), Blob) :: (output_path ("ndvi_" ++ year ++ ".tif"), FBand (fst r)) :: st, Ok tt).
Proof. apply ndvi_year_eval. Qed.


Lemma ndvi_year_skip year st :
  lookup (band_path year "B4") st = None -> ndvi_year year st = (st, Ok tt).
Proof.
  intros H. unfold ndvi_year. do 2 (erewrite bind_step by apply file_exists_eval). rewrite H. reflexivity.
Qed.

(** A missing 2021 red band only skips 2021: [calculate_ndvi.main]
    then processes 2025 exactly as if 2021 were absent from the loop. *)
Theorem ndvi_years_missing_2021 st :
  lookup (band_path "2021" "B4") st = None ->
  for_years years ndvi_year st = bind (ndvi_year "2025") (fun _ => ret tt) st.
Proof. intros H. unfold years. cbn [for_years]. erewrite bind_step by (apply ndvi_year_skip, H). reflexivity. Qed.

Lemma ndvi_main_no_roi st st1 b2 :
  for_years years ndvi_year st = (st1, Ok tt) ->
  lookup (band_path "2021" "B2") st1 = Some (FBand b2) -> lookup roi_shapefile st1 = None ->
  ndvi_main st = (st1, Err FileMissing).
Proof.
  intros Hy Hb Hroi. unfold ndvi_main. erewrite bind_step by exact Hy.
  erewrite bind_step by (eapply read_band_eval; exact Hb).
  unfold bind, read_shapefile. rewrite Hroi. reflexivity.
Qed.

(** C32: Once the NDVI rasters are written, [calculate_ndvi.main] still
    opens the 2021 blue band and the ROI shapefile; without the
    shapefile the script raises after its outputs are written, and the
    orchestrator reports the NDVI analysis as failed. *)
Theorem ndvi_main_roi_missing st st1 b2 :
  for_years years ndvi_year st = (st1, Ok tt) ->
  lookup (band_path "2021" "B2") st1 = Some (FBand b2) -> lookup roi_shapefile st1 = None ->
  ndvi_main st = (st1, Err FileMissing) /\ run_script ndvi_main st = (st1, Ok false).
Proof.
  intros Hy Hb Hroi. pose proof (ndvi_main_no_roi _ _ _ Hy Hb Hroi) as E.
  split; [exact E | unfold run_script; rewrite E; reflexivity].
Qed.

Lemma all_exist_present paths bs st :
  Forall2 (fun p b => lookup p st = Some (FBand b)) paths bs -> all_exist paths st = (st, Ok true).
Proof.
  induction 1 as [| p b ps bs' Hp _ IH]; [reflexivity |]. cbn [all_exist].
  erewrite bind_step by apply file_exists_eval. rewrite Hp. erewrite bind_step by exact IH. reflexivity.
Qed.

Lemma read_bands_present paths bs st :
  Forall2 (fun p b => lookup p st = Some (FBand b)) paths bs -> read_bands paths st = (st, Ok bs).
Proof.
  induction 1 as [| p b ps bs' Hp _ IH]; [reflexivity |]. cbn [read_bands].
  erewrite bind_step by (apply read_band_eval, Hp). erewrite bind_step by exact IH. reflexivity.
Qed.

(** C31: When the 2021 window holds some valid pixels but fewer than the
    five clusters, [land_cover_classification.main] raises on 2021 and
    never reaches 2025: nothing is written, whatever the 2025 data, while
    the specification requires per-year failures to stay isolated. *)
Theorem landcover_main_too_few st bs data valid h w prof :
  Forall2 (fun p b => lookup p st = Some (FBand b)) (classification_bands "2021") bs ->
  Window.prepare_classification_data bs 100 = Ok (data, valid, (h, w), prof) ->
  data <> [] -> (List.length data < 5)%nat ->
  landcover_main st = (st, Err TooFewSamples).
Proof.
  intros Hb Hp Hne Hn. unfold landcover_main, years. cbn [for_years]. apply bind_fail.
  unfold landcover_year. erewrite bind_step by (eapply all_exist_present; exact Hb). cbn [negb].
  erewrite bind_step by (eapply read_bands_present; exact Hb).
  apply bind_fail. unfold lift. rewrite (Classification.classify_year_too_few _ _ _ _ _ _ _ _ Hp Hne Hn). reflexivity.
Qed.

Lemma lookup_other p path f st : String.eqb p path = false -> lookup path ((p, f) :: st) = lookup path st.
Proof. intros E. cbn. rewrite E. reflexivity. Qed.

(** [change_detection.main] on the two NDVI rasters of the store,
    without classification maps: it writes the difference raster, then
    the three-class change raster with the 2021 NDVI profile set to
    uint8 and nodata 0, exactly as the core functions compute them,
    skips the classification comparison and saves its plot. *)
Theorem change_main_writes st a b d changes :
  lookup (output_path "ndvi_2021.tif") st = Some (FBand a) ->
  lookup (output_path "ndvi_2025.tif") st = Some (FBand b) ->
  raster_ok a -> Change.calculate_ndvi_difference a b = Ok d -> Change.classify_changes (snd d) (1 # 10) = Ok changes ->
  nrows changes = p_height (r_profile a) -> ncols changes = p_width (r_profile a) ->
  lookup (output_path "classification_2021.tif") st = None ->
  change_main st =
    ((output_path "change_detection_plot.png", Blob) ::
     (output_path "changes.tif", LBand (mk_raster (set_output (r_profile a) Uint8 0) changes)) ::
     (output_path "ndvi_difference.tif", FBand (fst d)) :: st, Ok tt).
Proof.
  intros Ha Hb Hok Hd Hc Hr Hcol Hcl. unfold change_main. cbv zeta.
  destruct (ChangeStats.calculate_change_statistics_ok (snd d) changes None
              (Change.calculate_ndvi_difference_nonempty _ _ _ Hok Hd)) as (cs & Ecs).
  do 2 (erewrite bind_step by apply file_exists_eval). rewrite Ha, Hb. cbn [andb negb].
  erewrite bind_step by (eapply read_band_eval; eassumption).
  erewrite bind_step by (eapply read_band_eval; eassumption).
  erewrite bind_step by (unfold lift, created; rewrite Hd; reflexivity).
  erewrite bind_step by reflexivity.
  erewrite bind_step by (unfold lift, created; rewrite Hc; reflexivity).
  erewrite bind_step by (apply read_band_eval; rewrite lookup_other by reflexivity; exact Ha).
  erewrite bind_step by (unfold lift, created; rewrite write_band_ok by assumption; reflexivity).
  erewrite bind_step by reflexivity.
  erewrite bind_step by apply file_exists_eval.
  rewrite !lookup_other by reflexivity. rewrite Hcl.
  erewrite bind_step by apply file_exists_eval. cbn [andb].
  do 2 (erewrite bind_step by reflexivity).
  erewrite bind_step by (unfold lift, created; rewrite Ecs; reflexivity). reflexivity.
Qed.

End Theorems.

(** ** Witnesses and scenarios *)

#[local] Existing Instance Classification.first_k_seeding.

Definition p0 : profile := mk_profile Uint16 1 2 2 None (mk_affine 10 0 500000 0 (-10) 4000000) 32633.

Definition band0 : raster f32 := mk_raster p0 (mk_nd 2 2 [Num 0; Num 0; Num 0; Num 0]).

(** Scenario 1 of the specification: all-zero band stacks for both
    years, with the SWIR band and the ROI shapefile. *)
Definition zero_store : store :=
  app (map (fun p => (p, FBand band0)) (flat_map (fun y => map (band_path y) ["B2"; "B3"; "B4"; "B8"; "B11"]) years))
      [(roi_shapefile, Shapefile)].

Definition label_cells (f : option file) : option (list Z) :=
  match f with Some (LBand r) => Some (cells (r_band r)) | _ => None end.

Definition band_cells (f : option file) : option (list f32) :=
  match f with Some (FBand r) => Some (cells (r_band r)) | _ => None end.

(** Every analysis completes; the NDVI is 0 everywhere, the change
    raster says no-change (3) everywhere, no pixel is valid for the
    classification, and the urban mask marks water (3), so the binary
    urban raster is 0. *)
Example scenario_zero_stacks :
  snd (run_all (fun _ => true) true zero_store) =
    Ok [("NDVI Calculation", true); ("Land Cover Classification", true);
        ("Change Detection", true); ("Urban Area Extraction", true)] /\
  band_cells (lookup (output_path "ndvi_2021.tif") (fst (run_all (fun _ => true) true zero_store))) = Some [Num 0; Num 0; Num 0; Num 0] /\
  label_cells (lookup (output_path "changes.tif") (fst (run_all (fun _ => true) true zero_store))) = Some [3; 3; 3; 3]%Z /\
  lookup (output_path "classification_2021.tif") (fst (run_all (fun _ => true) true zero_store)) = None /\
  label_cells (lookup (output_path "urban_areas_2025.tif") (fst (run_all (fun _ => true) true zero_store))) = Some [0; 0; 0; 0]%Z.
Proof. vm_compute. repeat split. Qed.

Lemma ndvi_year_writes_witness :
  exists r, SpectralIndex.calculate_ndvi band0 band0 = Ok r /\
    ndvi_year "2021" zero_store =
      ((output_path ("ndvi_" ++ "2021" ++ "_plot.png"), Blob) ::
       (output_path ("ndvi_" ++ "2021" ++ ".tif"), FBand (fst r)) :: zero_store, Ok tt).
Proof.
  eexists. split; [reflexivity |]. apply ndvi_year_writes with (red := band0) (nir := band0); first [reflexivity | raster_ok_tac].
Defined.

(** The zero store without the 2021 red band. *)
Definition store_no_red_2021 : store := List.tl (List.tl (List.tl zero_store)).

Lemma ndvi_years_missing_2021_witness :
  for_years years ndvi_year store_no_red_2021 = bind (ndvi_year "2025") (fun _ => ret tt) store_no_red_2021.
Proof. apply ndvi_years_missing_2021. reflexivity. Defined.

(** The zero store without the ROI shapefile. *)
Definition store_no_roi : store := List.removelast zero_store.

Lemma ndvi_main_roi_missing_witness :
  ndvi_main store_no_roi = (fst (for_years years ndvi_year store_no_roi), Err FileMissing) /\
  run_script ndvi_main store_no_roi = (fst (for_years years ndvi_year store_no_roi), Ok false).
Proof. apply (ndvi_main_roi_missing _ _ band0); vm_compute; reflexivity. Defined.

(** Two non-zero pixels in every 2021 band: too few for five clusters. *)
Definition band2 : raster f32 := mk_raster p0 (mk_nd 2 2 [Num 5; Num 0; Num 0; Num 7]).

Definition store_two_pixels : store :=
  app (map (fun p => (p, FBand band2)) (classification_bands "2021"))
      (map (fun p => (p, FBand band0)) (classification_bands "2025")).

Lemma landcover_main_too_few_witness : landcover_main store_two_pixels = (store_two_pixels, Err TooFewSamples).
Proof.
  apply (landcover_main_too_few _ [band2; band2; band2; band2] [[Num 5; Num 5; Num 5; Num 5]; [Num 7; Num 7; Num 7; Num 7]]
           [true; false; false; true] 2 2 (Window.update_shape p0 2 2));
    [repeat constructor | vm_compute; reflexivity | discriminate | cbn; lia].
Defined.

(** Scenario 4 of the specification through the driver: NDVI 0.2 in
    2021 and 0.35 in 2025. *)
Definition pf : profile := mk_profile Float32 1 2 2 (Some (-9999)) (mk_affine 10 0 500000 0 (-10) 4000000) 32633.
Definition ndvi_a : raster f32 := mk_raster pf (mk_nd 2 2 (repeat (Num (2 # 10)) 4)).
Definition ndvi_b : raster f32 := mk_raster pf (mk_nd 2 2 (repeat (Num (35 # 100)) 4)).
Definition store_ndvi : store := [(output_path "ndvi_2021.tif", FBand ndvi_a); (output_path "ndvi_2025.tif", FBand ndvi_b)].

Lemma change_main_writes_witness :
  exists d changes, Change.calculate_ndvi_difference ndvi_a ndvi_b = Ok d /\
    Change.classify_changes (snd d) (1 # 10) = Ok changes /\ cells changes = [2; 2; 2; 2]%Z /\
    change_main store_ndvi =
      ((output_path "change_detection_plot.png", Blob) ::
       (output_path "changes.tif", LBand (mk_raster (set_output pf Uint8 0) changes)) ::
       (output_path "ndvi_difference.tif", FBand (fst d)) :: store_ndvi, Ok tt).
Proof.
  eexists. eexists. split; [reflexivity | split; [reflexivity | split; [reflexivity |]]].
  apply (change_main_writes _ ndvi_a ndvi_b); first [reflexivity | raster_ok_tac].
Defined.



End Pipeline.
