(* ===== verification/Extract.v ===== *)
(** * Extract: src/extract_sentinel_bands.py

    [extract_bands_from_safe] (lines 13-80) looks for the [GRANULE]
    folder of a Sentinel-2 SAFE product, takes the first entry of its
    listing, and for each of the five output bands of [band_mappings]
    (B2, B3, B4, B8 at 10 m, B11 at 20 m) globs [*_<name>_<res>.jp2] in
    [IMG_DATA/R<res>], reads the first match and writes it as
    [<output_dir>/<band>.tif] with the profile updated to one band.  A
    missing folder or band file is skipped with a message; the function
    answers [False] only when the granule is missing.  [main] (lines
    82-111) does this for the first [*.SAFE] entry of [data/<year>].

    The file system is the store of [Pipeline]: a directory exists when
    a stored path lies under it, and its listing is the list of names of
    its direct children, in the order of the store (the order of
    [Path.glob] is the file system's and not specified).  A [*suffix]
    pattern keeps the names that end with [suffix].

    Theorems: a complete SAFE product is extracted band by band, each
    output reading back as the source's pixels and profile with a count
    of one; a product without granule answers [False] and writes
    nothing; a product without its 20 m folder still answers [True]
    without a SWIR band; and the contract with the analyses: the year's
    step of [main] leaves the five bands at the paths
    [data/<year>/B2.tif] .. [B11.tif] that [Pipeline]'s drivers open,
    so that [calculate_ndvi.main] then computes the NDVI of the
    extracted B04 and B08 bands. *)

From Stdlib Require Import QArith ZArith List Lia Arith Bool String.
From S2P Require Import Prelude Float32 NdArray Raster Resample Indices Pipeline.
Import ListNotations.

Open Scope string_scope.

Module Extract.
Import Pipeline.

(** ** Paths *)

(** [s] ends with [suf]: the glob pattern [*suf] on a name. *)
Definition ends_with (suf s : string) : bool :=
  (String.length suf <=? String.length s)%nat &&
  String.eqb (substring (String.length s - String.length suf) (String.length suf) s) suf.

(** The name of the child of [dir] on the way to [p], when [p] lies
    under [dir]. *)
Definition child_name (dir p : string) : option string :=
  let pre := dir ++ "/" in
  if String.prefix pre p then
    let rest := substring (String.length pre) (String.length p - String.length pre) p in
    match String.index 0 "/" rest with
    | Some i => Some (substring 0 i rest)
    | None => Some rest
    end
  else None.

(** The names listed in [dir]. *)
Definition entries (dir : string) (st : store) : list string :=
  nodup string_dec (flat_map (fun pf => match child_name dir (fst pf) with Some n => [n] | None => [] end) st).

(** [Path(p).exists()]: a stored file, or a directory holding one. *)
Definition path_exists (p : string) (st : store) : bool :=
  existsb (fun pf => String.eqb (fst pf) p || String.prefix (p ++ "/") (fst pf)) st.

(** [list(Path(dir).glob("*" + suf))]. *)
Definition glob_paths (dir suf : string) (st : store) : list string :=
  map (fun n => dir ++ "/" ++ n) (filter (ends_with suf) (entries dir st)).

Definition exists_path (p : string) : M bool := fun st => (st, Ok (path_exists p st)).
Definition glob (dir suf : string) : M (list string) := fun st => (st, Ok (glob_paths dir suf st)).

(** [for x in l: body(x)]. *)
Fixpoint for_each {A} (l : list A) (body : A -> M unit) : M unit :=
  match l with
  | [] => ret tt
  | x :: xs => _ <~ body x ;; for_each xs body
  end.

(** ** [extract_bands_from_safe] *)

(** [band_mappings]: output name, Sentinel-2 name and resolution, in the
    dictionary's insertion order. *)
Definition band_mappings : list (string * (string * string)) :=
  [("B2", ("B02", "10m")); ("B3", ("B03", "10m")); ("B4", ("B04", "10m"));
   ("B8", ("B08", "10m")); ("B11", ("B11", "20m"))].

Definition img_data_path (granule_folder : string) (m : string * (string * string)) : string :=
  granule_folder ++ "/IMG_DATA/R" ++ snd (snd m).

Definition band_pattern (m : string * (string * string)) : string :=
  "_" ++ fst (snd m) ++ "_" ++ snd (snd m) ++ ".jp2".

Definition output_file (output_dir : string) (m : string * (string * string)) : string :=
  output_dir ++ "/" ++ fst m ++ ".tif".

(** [profile.update(driver='GTiff', count=1, dtype=data.dtype)]: the
    band read has the dataset's dtype, so only the count changes. *)
Definition single_band (p : profile) : profile :=
  {| p_dtype := p_dtype p; p_count := 1; p_height := p_height p; p_width := p_width p;
     p_nodata := p_nodata p; p_transform := p_transform p; p_crs := p_crs p |}.

(** The body of the loop of lines 43-78 for one band. *)
Definition extract_band (granule_folder output_dir : string) (m : string * (string * string)) : M unit :=
  let img := img_data_path granule_folder m in
  e <~ exists_path img ;;
  if negb e then ret tt
  else
    band_files <~ glob img (band_pattern m) ;;
    match band_files with
    | [] => ret tt
    | band_file :: _ =>
        src <~ read_band band_file ;;
        dst <~ lift (write_band (single_band (r_profile src)) (r_band src)) ;;
        write_file (output_file output_dir m) (FBand dst)
    end.

Definition extract_bands_from_safe (safe_path output_dir : string) : M bool :=
  let granule_path := safe_path ++ "/GRANULE" in
  e <~ exists_path granule_path ;;
  if negb e then ret false
  else
    granule_folders <~ glob granule_path "" ;;
    match granule_folders with
    | [] => ret false
    | granule_folder :: _ =>
        _ <~ for_each band_mappings (extract_band granule_folder output_dir) ;;
        ret true
    end.

(** One year of [main] (lines 92-108); the answer is only printed. *)
Definition extract_year (year : string) : M unit :=
  let year_dir := "data/" ++ year in
  safe_folders <~ glob year_dir ".SAFE" ;;
  match safe_folders with
  | [] => ret tt
  | safe_folder :: _ => _ <~ extract_bands_from_safe safe_folder year_dir ;; ret tt
  end.

Definition main : M unit := for_years years extract_year.

(** ** Paths under a directory *)

Lemma append_assoc (a b c : string) : (a ++ b) ++ c = a ++ b ++ c.
Proof. induction a as [| x a IH]; simpl; [reflexivity | rewrite IH; reflexivity]. Qed.

Lemma prefix_app (s t : string) : String.prefix s (s ++ t) = true.
Proof.
  induction s as [| a s IH]; simpl; [destruct t; reflexivity |].
  destruct (Ascii.ascii_dec a a); [exact IH | congruence].
Qed.

Lemma eqb_app_l (s t1 t2 : string) : String.eqb (s ++ t1) (s ++ t2) = String.eqb t1 t2.
Proof. induction s as [| a s IH]; simpl; [reflexivity | rewrite Ascii.eqb_refl; exact IH]. Qed.

(** [p] is neither [dir] nor under it: writing [p] leaves [dir] as it is. *)
Definition outside (dir p : string) : bool :=
  negb (String.eqb p dir) && negb (String.prefix (dir ++ "/") p).

Lemma outside_spec dir p :
  outside dir p = true -> String.eqb p dir = false /\ String.prefix (dir ++ "/") p = false.
Proof. unfold outside. rewrite andb_true_iff, !negb_true_iff. tauto. Qed.

Lemma path_exists_cons d p f st :
  outside d p = true -> path_exists d ((p, f) :: st) = path_exists d st.
Proof. intros [H1 H2]%outside_spec. unfold path_exists. simpl. rewrite H1, H2. reflexivity. Qed.

Lemma entries_cons d p f st :
  String.prefix (d ++ "/") p = false -> entries d ((p, f) :: st) = entries d st.
Proof. intros H. unfold entries, child_name. simpl flat_map. rewrite H. reflexivity. Qed.

Lemma glob_paths_cons d suf p f st :
  outside d p = true -> glob_paths d suf ((p, f) :: st) = glob_paths d suf st.
Proof. intros [_ H]%outside_spec. unfold glob_paths. rewrite entries_cons by exact H. reflexivity. Qed.

(** What [glob] lists lies under the directory. *)
Lemma glob_paths_under d suf st q : In q (glob_paths d suf st) -> String.prefix (d ++ "/") q = true.
Proof.
  unfold glob_paths. intros (n & <- & _)%in_map_iff. rewrite <- append_assoc. apply prefix_app.
Qed.

(** A directory with a listed entry exists. *)
Lemma glob_paths_exists d suf st : glob_paths d suf st <> [] -> path_exists d st = true.
Proof.
  unfold glob_paths. destruct (entries d st) as [| n ns] eqn:E; [contradiction |]. intros _.
  assert (Hn : In n (entries d st)) by (rewrite E; left; reflexivity).
  unfold entries in Hn. apply nodup_In, in_flat_map in Hn as (pf & Hin & Hs).
  unfold child_name in Hs. destruct (String.prefix (d ++ "/") (fst pf)) eqn:P; [| destruct Hs].
  apply existsb_exists. exists pf. rewrite P, orb_true_r. auto.
Qed.

Lemma lookup_cons_outside d q p f st :
  String.prefix (d ++ "/") q = true -> outside d p = true -> lookup q ((p, f) :: st) = lookup q st.
Proof.
  intros Hq [_ Hp]%outside_spec. apply lookup_other.
  apply String.eqb_neq. intros ->. congruence.
Qed.

Lemma for_each_app {A} (l1 l2 : list A) body st :
  for_each (app l1 l2) body st = bind (for_each l1 body) (fun _ => for_each l2 body) st.
Proof.
  revert st. induction l1 as [| x l1 IH]; intros st; [reflexivity |]. cbn [app for_each].
  unfold bind. destruct (body x st) as [st' [[] | e]]; [rewrite IH; reflexivity | reflexivity].
Qed.

(** ** Extraction of one band *)

(** The first match of band [m]'s pattern in the granule [g] holds [r]. *)
Definition band_source (g : string) (m : string * (string * string)) (st : store) (r : raster f32) : Prop :=
  exists f fs, glob_paths (img_data_path g m) (band_pattern m) st = f :: fs /\ lookup f st = Some (FBand r).

(** The dataset written from [r]: its band, its profile with one band. *)
Definition single_band_of (r : raster f32) : raster f32 := mk_raster (single_band (r_profile r)) (r_band r).

(** The store after the bands [ms] were extracted from [rs], in order. *)
Fixpoint written (out : string) (ms : list (string * (string * string))) (rs : list (raster f32)) (st : store) : store :=
  match ms, rs with
  | m :: ms', r :: rs' => written out ms' rs' ((output_file out m, FBand (single_band_of r)) :: st)
  | _, _ => st
  end.

(** The outputs of [out] lie outside every image folder of [g]. *)
Definition layout_ok (g out : string) : bool :=
  forallb (fun m => forallb (fun m' => outside (img_data_path g m) (output_file out m')) band_mappings) band_mappings.

Lemma layout_ok_spec g out m m' :
  layout_ok g out = true -> In m band_mappings -> In m' band_mappings ->
  outside (img_data_path g m) (output_file out m') = true.
Proof. unfold layout_ok. rewrite forallb_forall. intros H Hm Hm'. specialize (H m Hm). rewrite forallb_forall in H. auto. Qed.

Lemma extract_band_present g out m st r :
  band_source g m st r -> raster_ok r ->
  extract_band g out m st = ((output_file out m, FBand (single_band_of r)) :: st, Ok tt).
Proof.
  intros (f & fs & Hg & Hf) (_ & Hr & Hc & _). unfold extract_band.
  assert (E : path_exists (img_data_path g m) st = true)
    by (apply (glob_paths_exists _ (band_pattern m)); rewrite Hg; discriminate).
  erewrite bind_step by (unfold exists_path; rewrite E; reflexivity). cbn [negb].
  erewrite bind_step by (unfold glob; rewrite Hg; reflexivity).
  cbv beta iota. erewrite bind_step by (apply read_band_eval, Hf).
  erewrite bind_step by (unfold lift; rewrite write_band_ok by assumption; reflexivity).
  reflexivity.
Qed.

Lemma extract_band_missing g out m st :
  path_exists (img_data_path g m) st = false -> extract_band g out m st = (st, Ok tt).
Proof. intros E. unfold extract_band, bind, exists_path. rewrite E. reflexivity. Qed.

Lemma band_source_cons g m st r p f :
  band_source g m st r -> outside (img_data_path g m) p = true -> band_source g m ((p, f) :: st) r.
Proof.
  intros (q & qs & Hg & Hq) Ho. exists q, qs. rewrite glob_paths_cons by exact Ho. split; [exact Hg |].
  rewrite (lookup_cons_outside (img_data_path g m)); [exact Hq | | exact Ho].
  apply (glob_paths_under _ (band_pattern m) st). rewrite Hg. left. reflexivity.
Qed.

(** The loop over the bands [ms], all present. *)
Lemma for_each_extract g out ms rs st :
  Forall2 (fun m r => band_source g m st r /\ raster_ok r) ms rs ->
  (forall m m', In m ms -> In m' ms -> outside (img_data_path g m) (output_file out m') = true) ->
  for_each ms (extract_band g out) st = (written out ms rs st, Ok tt).
Proof.
  revert rs st. induction ms as [| m ms IH]; intros rs st H Hl; inversion H as [| m' r ms' rs' [Hs Hok] Hrest]; subst;
    [reflexivity |].
  cbn [for_each]. erewrite bind_step by (apply extract_band_present; eassumption). cbn [written]. apply IH.
  - refine (Forall2_impl_in _ _ _ _ _ Hrest). intros m2 r2 Hin [Hs2 Hok2]. split; [| exact Hok2].
    apply band_source_cons; [exact Hs2 | apply Hl; [right; exact Hin | left; reflexivity]].
  - intros; apply Hl; right; assumption.
Qed.

Lemma path_exists_written d out ms rs st :
  (forall m, In m ms -> outside d (output_file out m) = true) ->
  path_exists d (written out ms rs st) = path_exists d st.
Proof.
  revert rs st. induction ms as [| m ms IH]; intros [| r rs] st H; try reflexivity. cbn [written].
  rewrite IH by (intros; apply H; right; assumption). apply path_exists_cons, H. left. reflexivity.
Qed.

(** The granule listing, when it has an entry. *)
Lemma extract_bands_from_safe_granule safe out g gs st :
  glob_paths (safe ++ "/GRANULE") "" st = g :: gs ->
  extract_bands_from_safe safe out st =
    bind (for_each band_mappings (extract_band g out)) (fun _ => ret true) st.
Proof.
  intros Hg. unfold extract_bands_from_safe. cbv zeta.
  assert (E : path_exists (safe ++ "/GRANULE") st = true)
    by (apply (glob_paths_exists _ ""); rewrite Hg; discriminate).
  erewrite bind_step by (unfold exists_path; rewrite E; reflexivity). cbn [negb].
  erewrite bind_step by (unfold glob; rewrite Hg; reflexivity). reflexivity.
Qed.

(** A complete product: every band is read and written. *)
Lemma extract_bands_from_safe_complete safe out g gs rs st :
  glob_paths (safe ++ "/GRANULE") "" st = g :: gs ->
  Forall2 (fun m r => band_source g m st r /\ raster_ok r) band_mappings rs ->
  layout_ok g out = true ->
  extract_bands_from_safe safe out st = (written out band_mappings rs st, Ok true).
Proof.
  intros Hg Hs Hl. rewrite (extract_bands_from_safe_granule _ _ _ _ _ Hg).
  erewrite bind_step by (apply for_each_extract; [exact Hs | intros; apply layout_ok_spec; assumption]).
  reflexivity.
Qed.

(** The five outputs read back after a complete extraction. *)
Lemma written_lookup out rs st :
  List.length rs = 5%nat ->
  map (fun m => lookup (output_file out m) (written out band_mappings rs st)) band_mappings =
    map (fun r => Some (FBand (single_band_of r))) rs.
Proof.
  intros Hlen. destruct rs as [| r1 [| r2 [| r3 [| r4 [| r5 [|]]]]]]; try discriminate.
  cbn [written band_mappings map fst lookup]. unfold output_file. rewrite !eqb_app_l. reflexivity.
Qed.

(** The band files the analyses read are the outputs of an extraction
    into the year folder. *)
Lemma single_band_of_ok r : raster_ok r -> raster_ok (single_band_of r).
Proof. intros H. exact H. Qed.

Lemma band_path_output year m : band_path year (fst m) = output_file ("data/" ++ year) m.
Proof. unfold band_path, output_file. symmetry. apply append_assoc. Qed.

(** [extract_year] on a year folder whose first [*.SAFE] entry is [safe]. *)
Lemma extract_year_safe year st safe safes :
  glob_paths ("data/" ++ year) ".SAFE" st = safe :: safes ->
  fst (extract_year year st) = fst (extract_bands_from_safe safe ("data/" ++ year) st).
Proof.
  intros Hs. unfold extract_year. cbv zeta. erewrite bind_step by (unfold glob; rewrite Hs; reflexivity).
  unfold bind at 1. destruct (extract_bands_from_safe _ _ st) as [st' [|]]; reflexivity.
Qed.

(** ** Theorems *)

(** C11: Round trip of the extraction: when the first granule of a SAFE
    product holds, as first match of each band's pattern, a dataset [r]
    (and the output folder lies outside the granule's image folders),
    [extract_bands_from_safe] answers [True] and [<output_dir>/B2.tif],
    [B3], [B4], [B8] and [B11] read back as the five sources in the
    order of [band_mappings], each with its pixels, dtype, shape,
    nodata, transform and CRS, and a band count of one. *)
Theorem extract_bands_from_safe_roundtrip safe out g gs rs st :
  glob_paths (safe ++ "/GRANULE") "" st = g :: gs ->
  Forall2 (fun m r => band_source g m st r /\ raster_ok r) band_mappings rs ->
  layout_ok g out = true ->
  snd (extract_bands_from_safe safe out st) = Ok true /\
  map (fun m => lookup (output_file out m) (fst (extract_bands_from_safe safe out st))) band_mappings =
    map (fun r => Some (FBand (single_band_of r))) rs.
Proof.
  intros Hg Hs Hl. rewrite (extract_bands_from_safe_complete _ _ _ _ _ _ Hg Hs Hl). split; [reflexivity |].
  apply written_lookup. symmetry. exact (Forall2_length Hs).
Qed.

Section Contract.
Context {R : Rounding}.

(** C12: The contract between the extraction and the analyses: after
    [extract_sentinel_bands.main]'s step for a year whose first SAFE
    product is complete, the paths [data/<year>/B2.tif] .. [B11.tif] the
    analysis scripts open hold the five extracted bands, and
    [calculate_ndvi.main] then computes the year's NDVI from the
    extracted red (B04) and near-infrared (B08) bands. *)
Theorem extract_year_feeds_analyses year st safe safes g gs r2 r3 r4 r8 r11 ndvi :
  glob_paths ("data/" ++ year) ".SAFE" st = safe :: safes ->
  glob_paths (safe ++ "/GRANULE") "" st = g :: gs ->
  Forall2 (fun m r => band_source g m st r /\ raster_ok r) band_mappings [r2; r3; r4; r8; r11] ->
  layout_ok g ("data/" ++ year) = true ->
  SpectralIndex.calculate_ndvi (single_band_of r4) (single_band_of r8) = Ok ndvi ->
  map (fun b => lookup (band_path year b) (fst (extract_year year st))) ["B2"; "B3"; "B4"; "B8"; "B11"] =
    map (fun r => Some (FBand (single_band_of r))) [r2; r3; r4; r8; r11] /\
  lookup (output_path ("ndvi_" ++ year ++ ".tif")) (fst (ndvi_year year (fst (extract_year year st)))) =
    Some (FBand (fst ndvi)).
Proof.
  intros Hy Hg Hs Hl Hn.
  assert (Ok4 : raster_ok (single_band_of r4)).
  { apply single_band_of_ok. inversion_clear Hs as [| ? ? ? ? _ H1]. inversion_clear H1 as [| ? ? ? ? _ H2].
    inversion_clear H2 as [| ? ? ? ? [_ O4] _]. exact O4. }
  rewrite (extract_year_safe _ _ _ _ Hy), (extract_bands_from_safe_complete _ _ _ _ _ _ Hg Hs Hl). cbn [fst].
  assert (Hb : map (fun b => lookup (band_path year b) (written ("data/" ++ year) band_mappings [r2; r3; r4; r8; r11] st))
                 ["B2"; "B3"; "B4"; "B8"; "B11"] = map (fun r => Some (FBand (single_band_of r))) [r2; r3; r4; r8; r11]).
  { change ["B2"; "B3"; "B4"; "B8"; "B11"] with (map fst band_mappings). rewrite map_map.
    rewrite <- (written_lookup ("data/" ++ year) [r2; r3; r4; r8; r11] st) by reflexivity. apply map_ext. intros m. rewrite band_path_output. reflexivity. }
  split; [exact Hb |].
  pose proof (f_equal (fun l => nth 2 l None) Hb) as H4. pose proof (f_equal (fun l => nth 3 l None) Hb) as H8.
  cbn [nth map] in H4, H8.
  rewrite (ndvi_year_eval _ _ _ _ _ H4 H8 Ok4 Hn). cbn [fst]. unfold output_path.
  rewrite lookup_other by (rewrite !eqb_app_l; reflexivity). cbn [lookup]. rewrite String.eqb_refl. reflexivity.
Qed.
End Contract.

(** A SAFE folder whose [GRANULE] folder is missing, or lists
    nothing, makes [extract_bands_from_safe] answer [False] without
    writing anything. *)
Theorem extract_bands_from_safe_no_granule safe out st :
  glob_paths (safe ++ "/GRANULE") "" st = [] -> extract_bands_from_safe safe out st = (st, Ok false).
Proof.
  intros H. unfold extract_bands_from_safe, bind, exists_path, glob. cbv zeta.
  destruct (path_exists (safe ++ "/GRANULE") st); cbn [negb]; [rewrite H |]; reflexivity.
Qed.

(** C25: A product without its 20 m image folder is reported as a
    success: the four 10 m bands are written, no SWIR band is, and
    [extract_bands_from_safe] still answers [True]. *)
Theorem extract_bands_from_safe_no_swir safe out g gs rs st :
  glob_paths (safe ++ "/GRANULE") "" st = g :: gs ->
  Forall2 (fun m r => band_source g m st r /\ raster_ok r) (firstn 4 band_mappings) rs ->
  path_exists (g ++ "/IMG_DATA/R20m") st = false ->
  layout_ok g out = true ->
  extract_bands_from_safe safe out st = (written out (firstn 4 band_mappings) rs st, Ok true).
Proof.
  intros Hg Hs Hp Hl. rewrite (extract_bands_from_safe_granule _ _ _ _ _ Hg).
  unfold bind at 1. change band_mappings with (app (firstn 4 band_mappings) [("B11", ("B11", "20m"))]) at 1.
  rewrite for_each_app. unfold bind at 1.
  rewrite (for_each_extract _ _ _ _ _ Hs)
    by (intros m m' Hm Hm'; apply layout_ok_spec; [exact Hl | |]; simpl in *; tauto).
  cbn [for_each]. unfold bind at 1. rewrite extract_band_missing; [reflexivity |].
  rewrite path_exists_written; [exact Hp |].
  intros m Hm. apply (layout_ok_spec _ _ ("B11", ("B11", "20m"))); [exact Hl | |]; simpl in *; tauto.
Qed.

(** ** Witnesses *)

Definition safe_2021 : string := "data/2021/S2A_MSIL2A_20210305T052651_N0214_R105_T43QEF_20210305T080133.SAFE".
Definition granule_2021 : string := safe_2021 ++ "/GRANULE/L2A_T43QEF_A029760_20210305T053645".

Definition jp2 (band res : string) : string :=
  granule_2021 ++ "/IMG_DATA/R" ++ res ++ "/T43QEF_20210305T052651_" ++ band ++ "_" ++ res ++ ".jp2".

(** A product as the Copernicus hub delivers it, every band holding
    [band0], with its metadata file. *)
Definition safe_store : store :=
  [(safe_2021 ++ "/MTD_MSIL2A.xml", Blob);
   (jp2 "B02" "10m", FBand band0); (jp2 "B03" "10m", FBand band0); (jp2 "B04" "10m", FBand band0);
   (jp2 "B08" "10m", FBand band0); (jp2 "B11" "20m", FBand band0); (jp2 "B12" "20m", FBand band0)].

(** The same product without its 20 m folder. *)
Definition safe_store_10m : store := firstn 5 safe_store.

Ltac band_source_tac :=
  repeat constructor; try (eexists; eexists; split; [vm_compute; reflexivity | vm_compute; reflexivity]);
  raster_ok_tac.

Lemma extract_bands_from_safe_roundtrip_witness :
  snd (extract_bands_from_safe safe_2021 "data/2021" safe_store) = Ok true /\
  map (fun m => lookup (output_file "data/2021" m) (fst (extract_bands_from_safe safe_2021 "data/2021" safe_store)))
    band_mappings = map (fun r => Some (FBand (single_band_of r))) [band0; band0; band0; band0; band0].
Proof.
  apply (extract_bands_from_safe_roundtrip _ _ granule_2021 []); [vm_compute; reflexivity | | vm_compute; reflexivity].
  band_source_tac.
Defined.

Lemma extract_year_feeds_analyses_witness :
  exists ndvi : raster f32 * ndarray f32,
  map (fun b => lookup (band_path "2021" b) (fst (extract_year "2021" safe_store))) ["B2"; "B3"; "B4"; "B8"; "B11"] =
    map (fun r => Some (FBand (single_band_of r))) [band0; band0; band0; band0; band0] /\
  lookup (output_path ("ndvi_" ++ "2021" ++ ".tif")) (fst (ndvi_year "2021" (fst (extract_year "2021" safe_store)))) =
    Some (FBand (fst ndvi)).
Proof.
  eexists. apply (extract_year_feeds_analyses _ _ safe_2021 [] granule_2021 []);
    [vm_compute; reflexivity | vm_compute; reflexivity | band_source_tac | vm_compute; reflexivity | reflexivity].
Defined.

Lemma extract_bands_from_safe_no_granule_witness :
  extract_bands_from_safe "data/2025/S2B.SAFE" "data/2025" safe_store = (safe_store, Ok false).
Proof. apply extract_bands_from_safe_no_granule. vm_compute. reflexivity. Defined.

Lemma extract_bands_from_safe_no_swir_witness :
  extract_bands_from_safe safe_2021 "data/2021" safe_store_10m =
    (written "data/2021" (firstn 4 band_mappings) [band0; band0; band0; band0] safe_store_10m, Ok true).
Proof.
  apply (extract_bands_from_safe_no_swir _ _ granule_2021 []);
    [vm_compute; reflexivity | band_source_tac | vm_compute; reflexivity | vm_compute; reflexivity].
Defined.

End Extract.
