(* ===== verification/Hoare.v ===== *)
(** * Hoare: a program logic for the drivers and their frame conditions

    The drivers of [Pipeline], [Extract] and [SampleData] are functions
    of the store in the monad [M].  A triple [{{ I }} m {{ Q }}] says
    that from a store satisfying [I], [m] leaves a store satisfying [I]
    whatever its outcome (an exception keeps the writes done before
    it), and that its result, when it returns one, satisfies [Q].  The
    rules below (return, bind, consequence, reads, writes, loops, the
    import check of a script) are proved once; the frame conditions of
    the scripts are then proved by applying them along the code.

    [writes_only P m]: [m] writes only paths satisfying [P]; the lookup
    of any other path is the same before and after, whatever [m]'s
    outcome.  Each analysis writes only its own outputs (rasters and
    plots under [data/output/], eighteen in all), and so does the
    orchestrator; [Workflow] composes these frames. *)

From Stdlib Require Import QArith ZArith List Lia Arith Bool String.
From S2P Require Import Prelude Float32 NdArray Raster Resample Indices ChangeDetection Window Scaler KMeans ClassMap Urban Stats Pipeline Extract SampleData.
Import ListNotations.

Open Scope string_scope.

Module Hoare.
Import Pipeline.

(** ** Triples *)

Definition triple {A} (I : store -> Prop) (m : M A) (Q : A -> Prop) : Prop :=
  forall st, I st -> I (fst (m st)) /\ forall a, snd (m st) = Ok a -> Q a.

Declare Scope hoare_scope.
Notation "{{ I }} m {{ Q }}" := (triple I m Q) (at level 90, m at next level) : hoare_scope.
Open Scope hoare_scope.

Section Rules.
Context (Inv : store -> Prop).

Lemma triple_ret {A} (a : A) (Q : A -> Prop) : Q a -> {{ Inv }} ret a {{ Q }}.
Proof. intros HQ st Hst. split; [exact Hst | intros b E; injection E as <-; exact HQ]. Qed.

Lemma triple_ret_true {A} (a : A) : {{ Inv }} ret a {{ fun _ => True }}.
Proof. apply triple_ret. exact I. Qed.

Lemma triple_lift {A} (r : res A) : {{ Inv }} lift r {{ fun a => r = Ok a }}.
Proof. intros st Hst. split; [exact Hst | intros a E; exact E]. Qed.

Lemma triple_bind {A B} (m : M A) (k : A -> M B) (Q : A -> Prop) (R : B -> Prop) :
  {{ Inv }} m {{ Q }} -> (forall a, Q a -> {{ Inv }} k a {{ R }}) -> {{ Inv }} bind m k {{ R }}.
Proof.
  intros Hm Hk st Hst. destruct (Hm st Hst) as [H1 H2]. unfold bind.
  destruct (m st) as [st' [a | e]]; [| split; [exact H1 | discriminate]].
  apply (Hk a (H2 a eq_refl)), H1.
Qed.

Lemma triple_conseq {A} (m : M A) (Q Q' : A -> Prop) :
  {{ Inv }} m {{ Q }} -> (forall a, Q a -> Q' a) -> {{ Inv }} m {{ Q' }}.
Proof. intros Hm HQ st Hst. destruct (Hm st Hst) as [H1 H2]. split; [exact H1 | intros a E; apply HQ, H2, E]. Qed.

(** A step that leaves the store as it is. *)
Lemma triple_pure {A} (m : M A) :
  (forall st, fst (m st) = st) -> {{ Inv }} m {{ fun _ => True }}.
Proof. intros Hm st Hst. rewrite Hm. split; [exact Hst | auto]. Qed.

Lemma triple_write p f :
  (forall st, Inv st -> Inv ((p, f) :: st)) -> {{ Inv }} write_file p f {{ fun _ => True }}.
Proof. intros Hw st Hst. split; [apply Hw, Hst | auto]. Qed.

Lemma triple_read_band p (P : raster f32 -> Prop) :
  (forall st r, Inv st -> lookup p st = Some (FBand r) -> P r) -> {{ Inv }} read_band p {{ P }}.
Proof.
  intros HP st Hst. unfold read_band. split; [destruct (lookup p st) as [[] |]; exact Hst |].
  destruct (lookup p st) as [[] |] eqn:E; intros a Ea; try discriminate. injection Ea as <-. eapply HP; eauto.
Qed.

Lemma triple_read_labels p (P : raster Z -> Prop) :
  (forall st r, Inv st -> lookup p st = Some (LBand r) -> P r) -> {{ Inv }} read_labels p {{ P }}.
Proof.
  intros HP st Hst. unfold read_labels. split; [destruct (lookup p st) as [[] |]; exact Hst |].
  destruct (lookup p st) as [[] |] eqn:E; intros a Ea; try discriminate. injection Ea as <-. eapply HP; eauto.
Qed.

Lemma triple_read_bands ps (P : raster f32 -> Prop) :
  (forall p st r, Inv st -> lookup p st = Some (FBand r) -> P r) -> {{ Inv }} read_bands ps {{ Forall P }}.
Proof.
  intros HP. induction ps as [| p ps IH]; cbn [read_bands]; [apply triple_ret; constructor |].
  apply (triple_bind _ _ P); [apply triple_read_band; eauto | intros b Hb].
  apply (triple_bind _ _ (Forall P)); [exact IH | intros bs Hbs]. apply triple_ret. constructor; assumption.
Qed.

Lemma triple_for_years ys (body : string -> M unit) :
  (forall y, In y ys -> {{ Inv }} body y {{ fun _ => True }}) -> {{ Inv }} for_years ys body {{ fun _ => True }}.
Proof.
  intros Hb. induction ys as [| y ys IH]; cbn [for_years]; [apply triple_ret; exact I |].
  eapply triple_bind; [apply Hb; left; reflexivity | intros; apply IH; intros; apply Hb; right; assumption].
Qed.

Lemma triple_for_each {A} (l : list A) (body : A -> M unit) :
  (forall x, In x l -> {{ Inv }} body x {{ fun _ => True }}) -> {{ Inv }} Extract.for_each l body {{ fun _ => True }}.
Proof.
  intros Hb. induction l as [| x l IH]; cbn [Extract.for_each]; [apply triple_ret; exact I |].
  eapply triple_bind; [apply Hb; left; reflexivity | intros; apply IH; intros; apply Hb; right; assumption].
Qed.

(** [run_script] keeps the store its script leaves. *)
Lemma triple_run_script (m : M unit) :
  {{ Inv }} m {{ fun _ => True }} -> {{ Inv }} run_script m {{ fun _ => True }}.
Proof. intros Hm st Hst. unfold run_script. destruct (Hm st Hst) as [H1 _]. destruct (m st). split; auto. Qed.
(** A core function's write: a raised write leaves its blank file. *)
Lemma triple_created {B} path f (r : res B) :
  (forall st, Inv st -> Inv ((path, f) :: st)) -> {{ Inv }} created path f r {{ fun a => r = Ok a }}.
Proof.
  intros Hw st Hst. unfold created. destruct r as [a | []]; cbn;
    (split; [first [exact Hst | apply Hw, Hst] | intros ? E; exact E]).
Qed.

(** A script whose import fails leaves the store as it is. *)
Lemma triple_python_script installed imports (m : M unit) :
  {{ Inv }} m {{ fun _ => True }} -> {{ Inv }} python_script installed imports m {{ fun _ => True }}.
Proof.
  intros Hm. unfold python_script. destruct (forallb installed imports); [exact Hm |].
  intros st Hst. split; [exact Hst | discriminate].
Qed.
End Rules.

Lemma all_exist_store ps st : fst (all_exist ps st) = st.
Proof.
  revert st. induction ps as [| p ps IH]; intros st; [reflexivity |]. cbn [all_exist].
  erewrite bind_step by apply file_exists_eval. unfold bind. specialize (IH st).
  destruct (all_exist ps st) as [st' [|]]; cbn in *; exact IH.
Qed.

(** Proves a triple along the code: binds, branches and the steps that
    leave the store unchanged; what is left are the reads, the writes and
    the calls that need facts. *)
Ltac hoare :=
  repeat match goal with
  | |- {{ _ }} bind _ _ {{ _ }} => eapply triple_bind; [| let H := fresh "H" in intros ? H; cbv beta in H]
  | |- {{ _ }} ret _ {{ _ }} => first [apply triple_ret_true | apply triple_ret; exact I]
  | |- {{ _ }} lift _ {{ _ }} => apply triple_lift
  | |- {{ _ }} file_exists _ {{ _ }} => apply triple_pure; reflexivity
  | |- {{ _ }} read_shapefile _ {{ _ }} => apply triple_pure; intros; unfold read_shapefile; destruct lookup as [[] |]; reflexivity
  | |- {{ _ }} all_exist _ {{ _ }} => apply triple_pure; apply all_exist_store
  | |- {{ _ }} save_plot _ {{ _ }} => unfold save_plot
  | |- {{ _ }} plot_ndvi _ _ _ {{ _ }} => unfold plot_ndvi, plot_file
  | |- {{ _ }} plot_classification _ _ _ {{ _ }} => unfold plot_classification, plot_file
  | |- {{ _ }} plot_changes _ _ _ _ {{ _ }} => unfold plot_changes, plot_file
  | |- {{ _ }} plot_urban_extraction _ _ _ _ _ {{ _ }} => unfold plot_urban_extraction, plot_file
  | |- {{ _ }} (if ?b then _ else _) {{ _ }} => destruct b
  | |- {{ _ }} (match ?x with _ => _ end) {{ _ }} => destruct x
  end.

(** ** What the scripts write *)

(** [m] writes only paths satisfying [P]: any other path reads the
    same after [m] as before, whatever [m]'s outcome. *)
Definition writes_only {A} (P : string -> bool) (m : M A) : Prop :=
  forall p v, P p = false -> {{ fun st => lookup p st = v }} m {{ fun _ => True }}.

Lemma frame_write p v q f :
  String.eqb q p = false -> {{ fun st => lookup p st = v }} write_file q f {{ fun _ => True }}.
Proof. intros E. apply triple_write. intros st Hst. rewrite lookup_other by exact E. exact Hst. Qed.

Lemma frame_created {B} p v q f (r : res B) :
  String.eqb q p = false -> {{ fun st => lookup p st = v }} created q f r {{ fun a => r = Ok a }}.
Proof. intros E. apply triple_created. intros st Hst. rewrite lookup_other by exact E. exact Hst. Qed.

Lemma frame_created_in {B} (P : string -> bool) p v q f (r : res B) :
  P p = false -> P q = true -> {{ fun st => lookup p st = v }} created q f r {{ fun a => r = Ok a }}.
Proof. intros Hp Hq. apply frame_created. apply String.eqb_neq. intros ->. congruence. Qed.

Lemma frame_write_in (P : string -> bool) p v q f :
  P p = false -> P q = true -> {{ fun st => lookup p st = v }} write_file q f {{ fun _ => True }}.
Proof. intros Hp Hq. apply frame_write. apply String.eqb_neq. intros ->. congruence. Qed.

Lemma read_band_store p st : fst (read_band p st) = st.
Proof. unfold read_band. destruct (lookup p st) as [[] |]; reflexivity. Qed.

Lemma read_labels_store p st : fst (read_labels p st) = st.
Proof. unfold read_labels. destruct (lookup p st) as [[] |]; reflexivity. Qed.

Lemma read_bands_store ps st : fst (read_bands ps st) = st.
Proof.
  revert st. induction ps as [| p ps IH]; intros st; [reflexivity |]. cbn [read_bands]. unfold bind.
  pose proof (read_band_store p st) as E. destruct (read_band p st) as [st' [r |]]; cbn in E; subst st'; [| reflexivity].
  specialize (IH st). destruct (read_bands ps st) as [st'' [|]]; cbn in *; exact IH.
Qed.

(** [hoare] with the reads as steps that leave the store; the writes are
    left, with the membership of the loop variable. *)
Ltac frame_tac :=
  repeat progress (hoare; try match goal with
   | |- {{ _ }} read_band _ {{ _ }} => apply triple_pure, read_band_store
   | |- {{ _ }} read_labels _ {{ _ }} => apply triple_pure, read_labels_store
   | |- {{ _ }} read_bands _ {{ _ }} => apply triple_pure, read_bands_store
   | |- {{ _ }} Extract.exists_path _ {{ _ }} => apply triple_pure; reflexivity
   | |- {{ _ }} Extract.glob _ _ {{ _ }} => apply triple_pure; reflexivity
   | |- {{ _ }} for_years _ _ {{ _ }} => apply triple_for_years; intros ? ?
   | |- {{ _ }} Extract.for_each _ _ {{ _ }} => apply triple_for_each; intros ? ?
   end).

Lemma writes_only_weaken {A} (P Q : string -> bool) (m : M A) :
  writes_only P m -> (forall p, P p = true -> Q p = true) -> writes_only Q m.
Proof.
  intros H HPQ p v Hq. apply H. destruct (P p) eqn:E; [| reflexivity].
  rewrite (HPQ p E) in Hq. discriminate.
Qed.

(** The paths of a list. *)
Definition in_list (l : list string) (p : string) : bool := existsb (String.eqb p) l.

Lemma in_list_app l1 l2 p : in_list (app l1 l2) p = in_list l1 p || in_list l2 p.
Proof. unfold in_list. apply existsb_app. Qed.

(** The outputs of each analysis and of the four together: the rasters
    and the PNG plots. *)
Definition ndvi_outputs : list string :=
  map output_path ["ndvi_2021.tif"; "ndvi_2021_plot.png"; "ndvi_2025.tif"; "ndvi_2025_plot.png"].
Definition landcover_outputs : list string :=
  map output_path ["classification_2021.tif"; "classification_2021_plot.png";
                   "classification_2025.tif"; "classification_2025_plot.png"].
Definition change_outputs : list string :=
  map output_path ["ndvi_difference.tif"; "changes.tif"; "classification_changes.tif"; "change_detection_plot.png"].
Definition urban_outputs : list string :=
  map output_path ["bui_2021.tif"; "bui_2025.tif"; "urban_areas_2021.tif"; "urban_areas_2025.tif";
                   "urban_extraction_2021_plot.png"; "urban_extraction_2025_plot.png"].
Definition analysis_outputs : list string :=
  app ndvi_outputs (app landcover_outputs (app change_outputs urban_outputs)).

(** Discharges a write whose path is in the script's list. *)
Ltac output_write :=
  match goal with
  | Hp : ?P ?p = false |- {{ _ }} write_file _ _ {{ _ }} => apply (frame_write_in P p); [exact Hp |]
  | Hp : ?P ?p = false |- {{ _ }} created _ _ _ {{ _ }} => apply (frame_created_in P p); [exact Hp |]
  end;
  repeat match goal with H : In _ _ |- _ => destruct H as [<- | H]; [| try contradiction] end;
  vm_compute; reflexivity.

Section Frames.
Context {R : Rounding} {S : Sqrt} {SD : Classification.Seeding} {RS : Resampler}.

Lemma ndvi_main_frame : writes_only (in_list ndvi_outputs) ndvi_main.
Proof. intros p v Hp. unfold ndvi_main, ndvi_year. frame_tac; output_write. Qed.

Lemma landcover_main_frame : writes_only (in_list landcover_outputs) landcover_main.
Proof. intros p v Hp. unfold landcover_main, landcover_year. frame_tac; output_write. Qed.

Lemma change_main_frame : writes_only (in_list change_outputs) change_main.
Proof. intros p v Hp. unfold change_main. frame_tac; output_write. Qed.

Lemma urban_main_frame : writes_only (in_list urban_outputs) urban_main.
Proof. intros p v Hp. unfold urban_main, urban_year. frame_tac; output_write. Qed.

Lemma run_all_frame installed deps : writes_only (in_list analysis_outputs) (run_all installed deps).
Proof.
  intros p v Hp. unfold run_all, analyses. destruct (negb deps); [apply triple_ret; exact I |]. cbn [run_analyses].
  unfold analysis_outputs in Hp. rewrite !in_list_app, !orb_false_iff in Hp. destruct Hp as (H1 & H2 & H3 & H4).
  hoare; apply triple_run_script; apply triple_python_script;
    first [apply ndvi_main_frame | apply landcover_main_frame | apply change_main_frame | apply urban_main_frame];
    assumption.
Qed.
End Frames.

End Hoare.
