(* ===== verification/Workflow.v ===== *)
(** * Workflow: scripts run one after another on one data directory

    A user fills the data directory with [download_sample_data.py] (or
    with [extract_sentinel_bands.py] on real products) and then runs
    [run_all_analyses.py].  Each script is its own process; a [session]
    chains their runs ([run_process]) on one store.  This file composes
    the models: the sample data of [SampleData] with the drivers of
    [Pipeline], through the frame lemmas of [Hoare] (each analysis
    writes only its own outputs).

    Theorem [sample_workflow_no_change]: whatever the network answers,
    whatever the random arrays and whatever the directory held before,
    after the setup script (which ends with an exception, its writes
    kept) and the orchestrator, the change raster
    [data/output/changes.tif] marks every pixel of the 100 x 100 sample
    as "no change" (3): the setup writes one scene for both years, so
    the two NDVI rasters are equal and their difference is zero
    everywhere.

    The section [Guarantees] reads the frame condition of [Hoare] on
    the store the orchestrator leaves: in any environment, whichever
    scripts fail, it changes no file but the analyses' outputs. *)

From Stdlib Require Import QArith Lqa ZArith List Lia Arith Bool String.
From S2P Require Import Prelude Float32 NdArray Raster Resample Indices ChangeDetection Window Scaler KMeans ClassMap Urban Stats Pipeline Extract SampleData Hoare.
Import ListNotations.

Open Scope string_scope.

Module Workflow.
Import Pipeline Hoare.

(** ** Scripts run one after another

    Each script is its own Python process: it starts from the files the
    previous ones left, and an exception ends that process only, the
    files it wrote staying in place (as [run_script] of
    [run_all_analyses.py] treats its subprocesses).  A session is a
    sequence of such runs on one data directory, for instance
    [extract_sentinel_bands.py] followed by [run_all_analyses.py], as the
    extraction script's last message suggests. *)
Definition run_process {A} (m : M A) (st : store) : store := fst (m st).

Definition session (runs : list (store -> store)) (st : store) : store :=
  fold_left (fun s run => run s) runs st.

(** ** Lemmas on the drivers *)

Lemma triple_fst {A} (I : store -> Prop) (m : M A) (Q : A -> Prop) st :
  {{ I }} m {{ Q }} -> I st -> I (fst (m st)).
Proof. intros H Hst. exact (proj1 (H st Hst)). Qed.

(** A path outside a script's outputs reads the same after it. *)
Lemma frame_lookup {A} (P : string -> bool) (m : M A) p st :
  writes_only P m -> P p = false -> lookup p (fst (m st)) = lookup p st.
Proof. intros H Hp. exact (triple_fst _ _ _ st (H p (lookup p st) Hp) eq_refl). Qed.

Section Drivers.
Context {R : Rounding} {S : Sqrt} {SD : Classification.Seeding} {RS : Resampler}.

(** The store the orchestrator leaves: the four scripts in a row. *)
Lemma run_all_store st :
  fst (run_all (fun _ => true) true st) = fst (urban_main (fst (change_main (fst (landcover_main (fst (ndvi_main st))))))).
Proof.
  unfold run_all, analyses, python_script, ndvi_imports, landcover_imports, change_imports, urban_imports.
  cbn [negb run_analyses forallb andb]. unfold bind, run_script, ret.
  destruct (ndvi_main st) as [s1 r1]. cbv beta iota zeta. cbn [fst].
  destruct (landcover_main s1) as [s2 r2]. cbv beta iota zeta. cbn [fst].
  destruct (change_main s2) as [s3 r3]. cbv beta iota zeta. cbn [fst].
  destruct (urban_main s3) as [s4 r4]. reflexivity.
Qed.

(** The change raster [change_detection.main] writes, whatever the
    classification maps and the comparison do afterwards. *)
Lemma change_main_changes st a b d c :
  lookup (output_path "ndvi_2021.tif") st = Some (FBand a) ->
  lookup (output_path "ndvi_2025.tif") st = Some (FBand b) ->
  Change.calculate_ndvi_difference a b = Ok d -> Change.classify_changes (snd d) (1 # 10) = Ok c ->
  nrows c = p_height (r_profile a) -> ncols c = p_width (r_profile a) ->
  lookup (output_path "changes.tif") (fst (change_main st)) =
    Some (LBand (mk_raster (set_output (r_profile a) Uint8 0) c)).
Proof.
  intros Ha Hb Hd Hc Hr Hcol. unfold change_main. cbv zeta.
  do 2 (erewrite bind_step by apply file_exists_eval). rewrite Ha, Hb. cbn [andb negb].
  erewrite bind_step by (eapply read_band_eval; eassumption).
  erewrite bind_step by (eapply read_band_eval; eassumption).
  erewrite bind_step by (unfold lift, created; rewrite Hd; reflexivity).
  erewrite bind_step by reflexivity.
  erewrite bind_step by (unfold lift, created; rewrite Hc; reflexivity).
  erewrite bind_step by (apply read_band_eval; rewrite lookup_other by reflexivity; exact Ha).
  erewrite bind_step by (unfold lift, created; rewrite write_band_ok by assumption; reflexivity).
  erewrite bind_step by reflexivity.
  eapply (triple_fst (fun s => lookup (output_path "changes.tif") s = _)); [| reflexivity].
  hoare; try (apply triple_pure, read_labels_store); first [apply frame_write | apply frame_created]; reflexivity.
Qed.
End Drivers.

(** ** Pixels of a scene compared with itself *)

Lemma Forall_zipWith {A B C} (P : A -> Prop) (Q : B -> Prop) (T : C -> Prop) (f : A -> B -> C) l1 l2 :
  (forall x y, P x -> Q y -> T (f x y)) -> Forall P l1 -> Forall Q l2 -> Forall T (zipWith f l1 l2).
Proof.
  intros H H1 H2. apply Forall_forall. intros z (x & y & Hx & Hy & ->)%In_zipWith.
  apply H; [exact (proj1 (Forall_forall _ _) H1 x Hx) | exact (proj1 (Forall_forall _ _) H2 y Hy)].
Qed.

Section Pixels.
Context {R : Rounding}.

Lemma nd_px_not_nan x y : isnan x = false -> isnan y = false -> isnan (SpectralIndex.nd_px x y) = false.
Proof.
  destruct x as [p |], y as [q |]; try discriminate. intros _ _.
  rewrite SpectralIndex.nd_px_Num. destruct (Qeq_bool _ 0); reflexivity.
Qed.

(** A finite value minus itself is "no change" for a non-negative threshold. *)
Lemma change_px_self t x : 0 <= t -> isnan x = false -> Change.change_px t (fsub x x) = 3%Z.
Proof.
  destruct x as [q |]; [intros Ht _ | discriminate]. cbn [fsub lift2].
  rewrite Change.change_px_num by exact Ht. pose proof (rnd_nonneg t Ht).
  assert (Hz : rnd (q - q) == 0) by (rewrite <- rnd_0; apply rnd_compat; ring).
  destruct (Qltb (rnd (q - q)) (- rnd t)) eqn:E1, (Qltb (rnd t) (rnd (q - q))) eqn:E2;
    rewrite ?Qltb_iff, ?Qltb_false in *; try reflexivity; lra.
Qed.

Lemma change_px_self_all t l :
  0 <= t -> Forall (fun x => isnan x = false) l -> Forall (fun z => z = 3%Z) (map (Change.change_px t) (zipWith fsub l l)).
Proof.
  intros Ht Hl. induction Hl as [| x l Hx _ IH]; cbn; constructor; [apply change_px_self |]; assumption.
Qed.
End Pixels.

(** ** The sample data through the analyses *)

Section Sample.
Context {R : Rounding} {S : Sqrt} {SD : Classification.Seeding} {RS : Resampler} {G : SampleData.RandomSource}.

(** The NDVI of the sample red (third draw) and NIR (fourth draw). *)
Definition sample_ndvi : ndarray f32 :=
  mk_nd 100 100 (zipWith SpectralIndex.nd_px (cells (astype_f32 Uint8 (r_band (SampleData.sample_raster 3))))
                                               (cells (astype_f32 Uint8 (r_band (SampleData.sample_raster 2))))).

Definition sample_ndvi_raster : raster f32 :=
  mk_raster (set_output SampleData.sample_profile Float32 (-9999)) sample_ndvi.

Lemma sample_band_cells k :
  List.length (cells (astype_f32 Uint8 (r_band (SampleData.sample_raster k)))) = (100 * 100)%nat /\
  Forall (fun x => isnan x = false) (cells (astype_f32 Uint8 (r_band (SampleData.sample_raster k)))).
Proof.
  destruct (SampleData.randint_shape k 0 255 SampleData.sample_height SampleData.sample_width) as (H1 & H2 & H3).
  unfold SampleData.sample_raster, SampleData.as_band, amap, wf in *. cbn. rewrite !length_map.
  split; [rewrite H3, H1, H2; reflexivity |]. apply Forall_map, Forall_map, Forall_forall. reflexivity.
Qed.

Lemma sample_ndvi_wf : wf sample_ndvi.
Proof.
  unfold wf, sample_ndvi. cbn [cells nrows ncols]. rewrite length_zipWith.
  rewrite (proj1 (sample_band_cells 3)), (proj1 (sample_band_cells 2)). reflexivity.
Qed.

Lemma sample_ndvi_not_nan : Forall (fun x => isnan x = false) (cells sample_ndvi).
Proof.
  apply (Forall_zipWith (fun x => isnan x = false) (fun x => isnan x = false)); [apply nd_px_not_nan | |];
    apply sample_band_cells.
Qed.

Lemma sample_calculate_ndvi :
  SpectralIndex.calculate_ndvi (SampleData.sample_raster 2) (SampleData.sample_raster 3) =
    Ok (sample_ndvi_raster, sample_ndvi).
Proof. exact (SpectralIndex.calculate_ndvi_eq _ _ (SampleData.sample_raster_ok 2) (SampleData.sample_raster_ok 3) eq_refl eq_refl). Qed.

(** The store after the NDVI script on the sample data: one NDVI raster
    and its plot per year, the raster the same for both. *)
Lemma sample_ndvi_main st1 :
  fst (ndvi_main (app SampleData.sample_files st1)) =
    (output_path ("ndvi_" ++ "2025" ++ "_plot.png"), Blob) ::
    (output_path ("ndvi_" ++ "2025" ++ ".tif"), FBand sample_ndvi_raster) ::
    (output_path ("ndvi_" ++ "2021" ++ "_plot.png"), Blob) ::
    (output_path ("ndvi_" ++ "2021" ++ ".tif"), FBand sample_ndvi_raster) :: app SampleData.sample_files st1.
Proof.
  assert (Hy : for_years years ndvi_year (app SampleData.sample_files st1) =
    ((output_path ("ndvi_" ++ "2025" ++ "_plot.png"), Blob) ::
     (output_path ("ndvi_" ++ "2025" ++ ".tif"), FBand sample_ndvi_raster) ::
     (output_path ("ndvi_" ++ "2021" ++ "_plot.png"), Blob) ::
     (output_path ("ndvi_" ++ "2021" ++ ".tif"), FBand sample_ndvi_raster) :: app SampleData.sample_files st1, Ok tt)).
  { unfold years. cbn [for_years].
    erewrite bind_step by (apply (ndvi_year_eval _ _ (SampleData.sample_raster 2) (SampleData.sample_raster 3)); [reflexivity | reflexivity | apply SampleData.sample_raster_ok | apply sample_calculate_ndvi]).
    erewrite bind_step by (apply (ndvi_year_eval _ _ (SampleData.sample_raster 2) (SampleData.sample_raster 3)); [reflexivity | reflexivity | apply SampleData.sample_raster_ok | apply sample_calculate_ndvi]).
    reflexivity. }
  unfold ndvi_main. erewrite bind_step by exact Hy.
  eapply (triple_fst (fun s => s = _)); [| reflexivity]. frame_tac.
Qed.

Definition sample_diff : ndarray f32 := mk_nd 100 100 (zipWith fsub (cells sample_ndvi) (cells sample_ndvi)).

Lemma sample_difference :
  Change.calculate_ndvi_difference sample_ndvi_raster sample_ndvi_raster =
    Ok (mk_raster (set_output (r_profile sample_ndvi_raster) Float32 (-9999)) sample_diff, sample_diff).
Proof.
  unfold Change.calculate_ndvi_difference. cbv zeta.
  rewrite bzip_same_shape by (try apply sample_ndvi_wf; reflexivity). rewrite res_bind_ok.
  cbn [astype_f32]. rewrite write_band_ok by reflexivity. reflexivity.
Qed.

Lemma sample_diff_wf : wf sample_diff.
Proof.
  unfold wf, sample_diff. cbn [cells nrows ncols]. rewrite length_zipWith, Nat.min_id. apply sample_ndvi_wf.
Qed.

(** C24: The setup script followed by the orchestrator, on the sample data: whatever the
    network answers to the ROI download, whatever the random arrays and
    whatever the data directory held, after [download_sample_data.py]
    (which ends with an exception, its files kept) and
    [run_all_analyses.py], the change raster [changes.tif] is 100 x 100
    and says "no change" (3) at every pixel: the setup writes one scene
    for both years, so the NDVI difference is zero everywhere. *)
Theorem sample_workflow_no_change resp st :
  exists dst, lookup (output_path "changes.tif")
                (session [run_process (SampleData.main resp); run_process (run_all (fun _ => true) true)] st) = Some (LBand dst) /\
    nrows (r_band dst) = 100%nat /\ ncols (r_band dst) = 100%nat /\ Forall (fun z => z = 3%Z) (cells (r_band dst)).
Proof.
  cbn [session fold_left]. unfold run_process.
  destruct (SampleData.main_store resp st) as (st1 & -> & _). rewrite run_all_store.
  rewrite (frame_lookup _ _ _ _ urban_main_frame) by reflexivity.
  erewrite change_main_changes; [| | | exact sample_difference | apply Change.classify_changes_eq, sample_diff_wf
                                 | reflexivity | reflexivity];
    [| rewrite (frame_lookup _ _ _ _ landcover_main_frame) by reflexivity; rewrite sample_ndvi_main; reflexivity ..].
  eexists. split; [reflexivity |]. split; [reflexivity | split; [reflexivity |]].
  apply change_px_self_all; [discriminate | apply sample_ndvi_not_nan].
Qed.
End Sample.

(** ** Guarantees of the whole workflow *)

Section Guarantees.
Context {R : Rounding} {S : Sqrt} {SD : Classification.Seeding} {RS : Resampler}.

(** C10: Safety of the orchestrator: a run of [run_all_analyses.py], in
    any environment and whichever scripts fail, changes no file but the
    outputs of the four analyses ([analysis_outputs]): the downloaded
    bands, the region of interest and every other file read the same
    afterwards. *)
Theorem run_all_writes_only installed deps st p :
  in_list analysis_outputs p = false -> lookup p (run_process (run_all installed deps) st) = lookup p st.
Proof. apply frame_lookup, run_all_frame. Qed.

End Guarantees.

#[local] Existing Instance Classification.first_k_seeding.

(** On the all-zero scenes of both years the four analyses write their
    rasters (here the 2021 NDVI), and the 2021 red band they read is left
    as it was. *)
Lemma run_all_writes_only_witness :
  lookup (output_path "ndvi_2021.tif") (run_process (run_all (fun _ => true) true) zero_store) <> None /\
  in_list analysis_outputs "data/2021/B4.tif" = false /\
  lookup "data/2021/B4.tif" (run_process (run_all (fun _ => true) true) zero_store) =
    lookup "data/2021/B4.tif" zero_store.
Proof.
  assert (H : in_list analysis_outputs "data/2021/B4.tif" = false) by (vm_compute; reflexivity).
  split; [vm_compute; discriminate | split; [exact H | apply run_all_writes_only; exact H]].
Defined.

End Workflow.
