(* ===== verification/Orchestrator.v ===== *)
(** * Orchestrator: the checks and the summary of src/run_all_analyses.py

    [main] (lines 116-176) first runs [check_dependencies] (lines
    33-60), which tries [__import__] on six packages and collects the
    missing ones in order, and returns at once when one is missing.  It
    then runs [check_data_files] (lines 62-114), which looks for the two
    year folders, the four required bands of each folder present and a
    shapefile in [data/roi], and only reads the data directory.  Then it
    runs the four analyses ([Pipeline.run_analyses]) and prints a summary
    of the successes (lines 157-169).

    Whether an import succeeds is a parameter [installed] of the model,
    the same answer deciding the imports at the top of every analysis
    script ([Pipeline.python_script]);
    [Path.exists] and [Path.glob] are [Extract.path_exists] and
    [Extract.glob_paths] on the store.  The optional SWIR band is only
    printed (lines 93-98) and leaves no trace in the model.

    Theorems: the missing packages are those not installed, in the order
    of the list; the data check answers [True] exactly when both year
    folders, their eight required bands and some shapefile exist; the
    dependency check does not cover the scripts' own imports: without
    [pymongo] it passes, the first three analyses run and the urban
    extraction fails at its import without writing anything; the
    summary counts at most as many
    successes as analyses, four with the dependencies and none without,
    and says all completed exactly when every analysis succeeded. *)

From Stdlib Require Import List Lia Arith Bool String.
From S2P Require Import Prelude Float32 Resample Scaler ClassMap Pipeline Extract.
Import ListNotations.

Open Scope string_scope.

Module Orchestrator.
Import Pipeline.

(** ** [check_dependencies] *)

Definition required_packages : list string :=
  ["rasterio"; "numpy"; "matplotlib"; "geopandas"; "sklearn"; "pathlib"].

(** The loop of lines 46-52: [missing_packages.append(package)] for
    every import that raises [ImportError]. *)
Definition collect_missing (installed : string -> bool) (packages : list string) : list string :=
  fold_left (fun missing package => if installed package then missing else app missing [package]) packages [].

Definition check_dependencies (installed : string -> bool) : bool :=
  match collect_missing installed required_packages with [] => true | _ :: _ => false end.

(** ** [check_data_files] *)

Definition required_bands : list string := ["B2"; "B3"; "B4"; "B8"].

(** Lines 84-90: the required bands of a year folder that exists. *)
Definition check_required (st : store) (year_path : string) (missing : list string) : list string :=
  fold_left (fun missing band =>
      let band_path := year_path ++ "/" ++ band ++ ".tif" in
      if Extract.path_exists band_path st then missing else app missing [band_path])
    required_bands missing.

(** Lines 75-98 for one year: a missing folder is recorded and its bands
    are not looked at ([continue]). *)
Definition check_year (st : store) (missing : list string) (year : string) : list string :=
  let year_path := "data/" ++ year in
  if negb (Extract.path_exists year_path st) then app missing ["data/" ++ year ++ "/"]
  else check_required st year_path missing.

(** Line 102: [roi_path.exists() and any(roi_path.glob("*.shp"))]. *)
Definition roi_found (st : store) : bool :=
  Extract.path_exists "data/roi" st &&
  match Extract.glob_paths "data/roi" ".shp" st with [] => false | _ :: _ => true end.

(** The list [missing_files] at line 108. *)
Definition data_files_missing (st : store) : list string :=
  let missing := fold_left (check_year st) years [] in
  if roi_found st then missing else app missing ["data/roi/ (shapefile)"].

Definition check_data_files : M bool :=
  fun st => (st, Ok (match data_files_missing st with [] => true | _ :: _ => false end)).

(** ** [main] and its summary *)

Section Main.
Context {R : Rounding} {S : Sqrt} {SD : Classification.Seeding} {RS : Resampler}.

(** Lines 124-150; [data_ok] is computed and not used. *)
Definition main (installed : string -> bool) : M (list (string * bool)) :=
  if negb (check_dependencies installed) then ret []
  else
    data_ok <~ check_data_files ;;
    run_analyses (analyses installed).
End Main.

(** Lines 157-166: [successful = sum(results.values())],
    [total = len(results)] and the test [successful == total]. *)
Definition summary (results : list (string * bool)) : nat * nat * bool :=
  let successful := List.length (filter snd results) in
  let total := List.length results in
  (successful, total, Nat.eqb successful total).

(** ** Lemmas *)

(** An accumulator that appends the rejected elements is the filter of
    the rejected elements. *)
Lemma fold_left_collect {A B} (keep : A -> bool) (out : A -> B) l acc :
  fold_left (fun acc x => if keep x then acc else app acc [out x]) l acc =
    app acc (map out (filter (fun x => negb (keep x)) l)).
Proof.
  revert acc. induction l as [| x l IH]; intros acc; cbn; [symmetry; apply app_nil_r |].
  rewrite IH. destruct (keep x); cbn; [reflexivity | rewrite <- app_assoc; reflexivity].
Qed.

Lemma fold_left_concat {A B} (f : list B -> A -> list B) (g : A -> list B) l acc :
  (forall acc x, f acc x = app acc (g x)) -> fold_left f l acc = app acc (List.concat (map g l)).
Proof.
  intros Hf. revert acc. induction l as [| x l IH]; intros acc; cbn; [symmetry; apply app_nil_r |].
  rewrite IH, Hf, app_assoc. reflexivity.
Qed.

Lemma collect_missing_filter installed ps :
  collect_missing installed ps = filter (fun p => negb (installed p)) ps.
Proof. unfold collect_missing. rewrite (fold_left_collect installed id). rewrite map_id. reflexivity. Qed.

Lemma filter_nil_Forall {A} (f : A -> bool) l : filter f l = [] <-> Forall (fun x => f x = false) l.
Proof.
  induction l as [| x l IH]; cbn; [split; auto |].
  destruct (f x) eqn:E; split; intros H; try discriminate.
  - inversion H; congruence.
  - constructor; [exact E | apply IH, H].
  - inversion H. apply IH. assumption.
Qed.

(** The missing entries of one year. *)
Definition year_missing (st : store) (year : string) : list string :=
  if negb (Extract.path_exists ("data/" ++ year) st) then ["data/" ++ year ++ "/"]
  else filter (fun p => negb (Extract.path_exists p st)) (map (band_path year) required_bands).

Lemma check_year_app st missing year : check_year st missing year = app missing (year_missing st year).
Proof.
  unfold check_year, year_missing. destruct (Extract.path_exists _ st); cbn [negb]; [| reflexivity].
  unfold check_required.
  rewrite (fold_left_collect (fun band => Extract.path_exists (("data/" ++ year) ++ "/" ++ band ++ ".tif") st)
                             (fun band => ("data/" ++ year) ++ "/" ++ band ++ ".tif")).
  assert (E : forall b, ("data/" ++ year) ++ "/" ++ b ++ ".tif" = band_path year b)
    by (intros b; apply Extract.append_assoc).
  f_equal. rewrite filter_map_swap. rewrite (map_ext _ _ E). f_equal.
Qed.

Lemma year_missing_nil st year :
  year_missing st year = [] <->
    Extract.path_exists ("data/" ++ year) st = true /\
    Forall (fun b => Extract.path_exists (band_path year b) st = true) required_bands.
Proof.
  unfold year_missing. destruct (Extract.path_exists _ st); cbn [negb]; [| split; [discriminate | intros [H _]; discriminate]].
  rewrite filter_nil_Forall, Forall_map. split; [intros H; split; [reflexivity |] | intros [_ H]];
    (eapply Forall_impl; [| exact H]); intros b; cbn; [apply negb_false_iff | apply negb_false_iff].
Qed.

Lemma roi_found_spec st : roi_found st = true <-> Extract.glob_paths "data/roi" ".shp" st <> [].
Proof.
  unfold roi_found. destruct (Extract.glob_paths "data/roi" ".shp" st) as [| q qs] eqn:E.
  - rewrite andb_false_r. split; [discriminate | contradiction].
  - rewrite andb_true_r, <- E. split; [intros _; rewrite E; discriminate | apply Extract.glob_paths_exists].
Qed.

Lemma app_snoc_neq_nil {A} (l : list A) x : app l [x] <> [].
Proof. destruct l; discriminate. Qed.

Lemma concat_nil_Forall {A} (l : list (list A)) : List.concat l = [] <-> Forall (fun x => x = []) l.
Proof.
  induction l as [| x l IH]; cbn; [split; auto |]. split.
  - intros H. apply app_eq_nil in H as [-> H]. constructor; [reflexivity | apply IH, H].
  - intros H. inversion H as [| ? ? Hx Hl]; subst. apply IH in Hl. rewrite Hl. reflexivity.
Qed.

Lemma run_analyses_length {R : Rounding} {S : Sqrt} {SD : Classification.Seeding} {RS : Resampler} l st results :
  snd (run_analyses l st) = Ok results -> List.length results = List.length l.
Proof.
  revert st results. induction l as [| [script d] l IH]; intros st results; cbn [run_analyses].
  - intros E. injection E as <-. reflexivity.
  - unfold bind, run_script at 1. destruct (script st) as [st1 r]. cbv beta iota.
    specialize (IH st1). destruct (run_analyses l st1) as [st2 [rs | e]]; cbn; [| discriminate].
    intros E. injection E as <-. cbn. f_equal. apply (IH rs eq_refl).
Qed.

Lemma filter_length_all {A} (f : A -> bool) l : List.length (filter f l) = List.length l <-> Forall (fun x => f x = true) l.
Proof.
  induction l as [| x l IH]; cbn; [split; auto |].
  pose proof (filter_length_le f l) as Hle. destruct (f x) eqn:E; cbn.
  - split; [intros H; constructor; [exact E | apply IH; lia] |].
    intros H. inversion H as [| ? ? _ Hl]; subst. rewrite (proj2 IH Hl). reflexivity.
  - split; [lia | intros H; inversion H; congruence].
Qed.

(** ** Theorems *)

(** [check_dependencies] lists as missing exactly the required
    packages whose import fails, in the order of [required_packages], and
    answers [True] exactly when all six are installed. *)
Theorem check_dependencies_spec installed :
  collect_missing installed required_packages = filter (fun p => negb (installed p)) required_packages /\
  (check_dependencies installed = true <-> Forall (fun p => installed p = true) required_packages).
Proof.
  split; [apply collect_missing_filter |]. unfold check_dependencies. rewrite collect_missing_filter.
  assert (H : filter (fun p => negb (installed p)) required_packages = [] <->
              Forall (fun p => installed p = true) required_packages).
  { rewrite filter_nil_Forall. split; intros H; (eapply Forall_impl; [| exact H]); intros p; apply negb_false_iff. }
  rewrite <- H. destruct (filter _ _); split; intros; congruence.
Qed.

(** C18: [check_data_files] only reads the data directory, and answers
    [True] exactly when both year folders exist, with the four required
    bands B2, B3, B4 and B8 in each, and [data/roi] holds some
    [*.shp] file; the optional SWIR band plays no part. *)
Theorem check_data_files_spec st :
  fst (check_data_files st) = st /\
  (snd (check_data_files st) = Ok true <->
    Forall (fun y => Extract.path_exists ("data/" ++ y) st = true /\
                     Forall (fun b => Extract.path_exists (band_path y b) st = true) required_bands) years /\
    Extract.glob_paths "data/roi" ".shp" st <> []).
Proof.
  split; [reflexivity |]. unfold check_data_files, data_files_missing. cbn [snd].
  rewrite (fold_left_concat _ (year_missing st)) by apply check_year_app. cbn [app].
  rewrite <- roi_found_spec.
  assert (Hy : List.concat (map (year_missing st) years) = [] <->
               Forall (fun y => Extract.path_exists ("data/" ++ y) st = true /\
                                Forall (fun b => Extract.path_exists (band_path y b) st = true) required_bands) years).
  { rewrite concat_nil_Forall, Forall_map. split; intros H; (eapply Forall_impl; [| exact H]); intros y; apply year_missing_nil. }
  destruct (roi_found st).
  - rewrite <- Hy. destruct (List.concat _) as [| x xs].
    + split; [intros _; split; reflexivity | reflexivity].
    + split; [discriminate | intros [H _]; discriminate].
  - split; [| intros [_ H]; discriminate].
    destruct (app _ _) eqn:E; [exfalso; eapply app_snoc_neq_nil; exact E | discriminate].
Qed.

Section MainTheorems.
Context {R : Rounding} {S : Sqrt} {SD : Classification.Seeding} {RS : Resampler}.

(** The summary of [main] counts at most as many successes as
    analyses; there are four analyses when the dependencies are installed
    and none otherwise, and "All analyses completed!" is printed exactly
    when every analysis succeeded. *)
Theorem main_summary installed st results :
  snd (main installed st) = Ok results ->
  let '(successful, total, all_ok) := summary results in
  (successful <= total)%nat /\ total = (if check_dependencies installed then 4 else 0)%nat /\
  (all_ok = true <-> Forall (fun r => snd r = true) results).
Proof.
  intros E. unfold summary. split; [apply filter_length_le | split].
  - unfold main in E. destruct (check_dependencies installed); cbn [negb] in E.
    + exact (run_analyses_length _ _ _ E).
    + injection E as <-. reflexivity.
  - rewrite Nat.eqb_eq. apply filter_length_all.
Qed.
(** C22: The dependency check does not cover the imports of the
    scripts: in an environment with the six packages [check_dependencies]
    tests and [shapely], but without [pymongo], [main] passes the check,
    runs the first three analyses as in a full environment, and reports
    the urban extraction as failed without it having written anything,
    since its import of [pymongo] (urban_extraction.py line 14) raises
    first. *)
Theorem main_without_pymongo installed st :
  Forall (fun p => installed p = true) (app required_packages ["shapely"]) -> installed "pymongo" = false ->
  check_dependencies installed = true /\
  let '(s1, r1) := ndvi_main st in
  let '(s2, r2) := landcover_main s1 in
  let '(s3, r3) := change_main s2 in
  main installed st = (s3, Ok [("NDVI Calculation", succeeded r1); ("Land Cover Classification", succeeded r2);
                               ("Change Detection", succeeded r3); ("Urban Area Extraction", false)]).
Proof.
  intros HF Hp. assert (Hdep : check_dependencies installed = true).
  { apply check_dependencies_spec. apply Forall_app in HF. exact (proj1 HF). }
  split; [exact Hdep |].
  cbn [app required_packages] in HF. repeat match goal with H : Forall _ (_ :: _) |- _ => inversion_clear H end.
  unfold main. rewrite Hdep. cbn [negb]. unfold bind at 1, check_data_files. cbv beta iota.
  unfold analyses, python_script, ndvi_imports, landcover_imports, change_imports, urban_imports.
  cbn [forallb]. repeat match goal with H : installed _ = _ |- _ => rewrite H; clear H end. cbn [andb run_analyses].
  unfold bind, run_script, ret.
  destruct (ndvi_main st) as [s1 r1]. destruct (landcover_main s1) as [s2 r2].
  destruct (change_main s2) as [s3 r3]. reflexivity.
Qed.

End MainTheorems.

(** ** Witnesses *)

#[local] Existing Instance Classification.first_k_seeding.

(** Every package but scikit-learn is installed. *)
Definition no_sklearn (p : string) : bool := negb (String.eqb p "sklearn").

Lemma main_summary_witness :
  snd (main no_sklearn zero_store) = Ok [] /\
  let '(successful, total, all_ok) := summary [] in
  (successful <= total)%nat /\ total = (if check_dependencies no_sklearn then 4 else 0)%nat /\
  (all_ok = true <-> Forall (fun r : string * bool => snd r = true) []).
Proof.
  assert (H : snd (main no_sklearn zero_store) = Ok []) by reflexivity.
  split; [exact H | exact (main_summary no_sklearn zero_store [] H)].
Defined.

(** Every package but [pymongo] (and its [gridfs]) is installed. *)
Definition no_pymongo (p : string) : bool := negb (String.eqb p "pymongo" || String.eqb p "gridfs").

Lemma main_without_pymongo_witness :
  Forall (fun p => no_pymongo p = true) (app required_packages ["shapely"]) /\ no_pymongo "pymongo" = false /\
  check_dependencies no_pymongo = true /\
  let '(s1, r1) := ndvi_main zero_store in
  let '(s2, r2) := landcover_main s1 in
  let '(s3, r3) := change_main s2 in
  main no_pymongo zero_store = (s3, Ok [("NDVI Calculation", succeeded r1); ("Land Cover Classification", succeeded r2);
                                        ("Change Detection", succeeded r3); ("Urban Area Extraction", false)]).
Proof.
  assert (H1 : Forall (fun p => no_pymongo p = true) (app required_packages ["shapely"])) by (repeat constructor).
  assert (H2 : no_pymongo "pymongo" = false) by reflexivity.
  split; [exact H1 | split; [exact H2 | exact (main_without_pymongo no_pymongo zero_store H1 H2)]].
Defined.

(** The zero store of [Pipeline] passes the data check: its year
    folders, bands and ROI shapefile are all present. *)
Example zero_store_data_ok : check_data_files zero_store = (zero_store, Ok true).
Proof. vm_compute. reflexivity. Qed.

(** The data check accepts any shapefile in [data/roi], while
    [calculate_ndvi.main] opens [ne_10m_admin_0_countries.shp]: with the
    ROI renamed, the check passes and the NDVI analysis fails. *)
Definition store_other_roi : store :=
  app (List.removelast zero_store) [("data/roi/region.shp", Shapefile)].

Example other_roi_ndvi_fails :
  check_data_files store_other_roi = (store_other_roi, Ok true) /\
  exists rest, snd (main (fun _ => true) store_other_roi) = Ok (("NDVI Calculation", false) :: rest).
Proof. split; [vm_compute; reflexivity | eexists; vm_compute; reflexivity]. Qed.

End Orchestrator.
