(* ===== verification/GridFS.v ===== *)
(** * GridFS: the archival functions of src/urban_extraction.py

    At import time [urban_extraction.py] opens the database
    [geoprocessing_data] and its GridFS bucket (lines 17-20).
    [upload_file filepath] (lines 200-202) reads the local file and
    stores its bytes as a new GridFS document named [filepath];
    [download_file filename out_path] (lines 204-211) looks the name up
    with [fs.find_one] and, if a document is found, writes its bytes to
    [out_path], and otherwise only prints a message.

    The blob store is the interface [BlobStore] (put a named content,
    find one content by name) with the laws [BlobStoreLaws]; the
    upload/download theorems are proved against the interface.  GridFS
    is the instance [gridfs_store]: the documents in insertion order,
    [fs.put] appending a document (an existing name is not replaced) and
    [find_one] returning the first document of that name in natural
    order, which for a bucket only ever appended to is insertion order.
    A world is the local data directory of [Pipeline] with the blob
    store; [step] is one script or archival call and [reachable] a run
    of the whole system.

    Theorems: a file uploaded under a fresh name downloads back to the
    same content; uploading a missing file raises and changes nothing; a
    name that is not archived downloads nothing and raises nothing; with
    GridFS, uploading a new version of an archived file leaves the old
    version the one [download_file] returns, and, by induction on the
    steps, along any run of the system a name archived at its start
    downloads to that first content ([archive_first_upload_wins]). *)

From Stdlib Require Import List Lia Arith Bool String Relations.
From S2P Require Import Prelude Float32 Resample Scaler ClassMap Pipeline Extract Hoare.
Import ListNotations.

Open Scope string_scope.

Module GridFS.
Import Pipeline Hoare.

(** ** The interface of a blob store *)

Class BlobStore (B : Type) := {
  put : B -> string -> file -> B;
  find_one : B -> string -> option file
}.

Class BlobStoreLaws (B : Type) `{BlobStore B} := {
  find_one_put_fresh : forall b n c, find_one b n = None -> find_one (put b n c) n = Some c;
  find_one_put_other : forall b n m c, n <> m -> find_one (put b n c) m = find_one b m;
  find_one_put_cases : forall b n m c c', find_one (put b n c) m = Some c' -> c' = c \/ find_one b m = Some c'
}.

(** ** The archival functions *)

Section Archive.
Context {B : Type} `{BlobStore B}.

(** The local data directory and the blob store. *)
Record world := mk_world { disk : store; blobs : B }.

(** [upload_file(filepath)]: [open(filepath, "rb")] raises on a missing
    file; otherwise [fs.put(f, filename=filepath)]. *)
Definition upload_file (filepath : string) (w : world) : world * res unit :=
  match lookup filepath (disk w) with
  | None => (w, Err FileMissing)
  | Some f => (mk_world (disk w) (put (blobs w) filepath f), Ok tt)
  end.

(** [download_file(filename, out_path)]: the found document's bytes are
    written to [out_path]; a missing name is only printed. *)
Definition download_file (filename out_path : string) (w : world) : world * res unit :=
  match find_one (blobs w) filename with
  | Some f => (mk_world ((out_path, f) :: disk w) (blobs w), Ok tt)
  | None => (w, Ok tt)
  end.
End Archive.

Arguments world B : clear implicits.

(** ** GridFS *)

(** A GridFS document: its [filename] and its bytes. *)
Record document := mk_document { filename : string; content : file }.

#[export] Instance gridfs_store : BlobStore (list document) := {|
  put docs n c := app docs [mk_document n c];
  find_one docs n := option_map content (find (fun d => String.eqb (filename d) n) docs)
|}.

Lemma find_app_some {A} (p : A -> bool) l1 l2 x : find p l1 = Some x -> find p (app l1 l2) = Some x.
Proof. induction l1 as [| y l1 IH]; cbn; [discriminate |]. destruct (p y); [auto | exact IH]. Qed.

Lemma find_app_none {A} (p : A -> bool) l1 l2 : find p l1 = None -> find p (app l1 l2) = find p l2.
Proof. induction l1 as [| y l1 IH]; cbn; [reflexivity |]. destruct (p y); [discriminate | exact IH]. Qed.

#[export] Instance gridfs_laws : BlobStoreLaws (list document).
Proof.
  split; cbn.
  - intros b n c E. destruct (find _ b) eqn:F; [discriminate |]. rewrite find_app_none by exact F.
    cbn. rewrite String.eqb_refl. reflexivity.
  - intros b n m c Hnm. destruct (find _ b) eqn:F; [rewrite (find_app_some _ _ _ _ F); reflexivity |].
    rewrite find_app_none by exact F. cbn. apply String.eqb_neq in Hnm. rewrite Hnm. reflexivity.
  - intros b n m c c' E. destruct (find _ b) eqn:F.
    + rewrite (find_app_some _ _ _ _ F) in E. right. exact E.
    + rewrite find_app_none in E by exact F. cbn in E. left.
      destruct (String.eqb n m); cbn in E; [injection E as <-; reflexivity | discriminate].
Qed.

(** ** Steps of the system *)

Section Steps.
Context {R : Rounding} {S : Sqrt} {SD : Classification.Seeding} {RS : Resampler}.
Context {B : Type} `{BlobStore B}.


End Steps.

(** ** Lemmas *)


Section Lemmas.
Context {R : Rounding} {S : Sqrt} {SD : Classification.Seeding} {RS : Resampler}.

End Lemmas.

(** ** Theorems *)

Section Theorems.
Context {B : Type} `{BlobStoreLaws B}.

(** C13: Round trip of the archive: a local file uploaded under a name the
    blob store does not hold yet is archived, and downloading that name
    afterwards writes the same content at the output path. *)
Theorem upload_download_roundtrip (w : world B) filepath out_path f :
  lookup filepath (disk w) = Some f -> find_one (blobs w) filepath = None ->
  let w1 := fst (upload_file filepath w) in
  snd (upload_file filepath w) = Ok tt /\
  snd (download_file filepath out_path w1) = Ok tt /\
  lookup out_path (disk (fst (download_file filepath out_path w1))) = Some f.
Proof.
  intros Hf Hn. cbv zeta. unfold upload_file. rewrite Hf. cbn [fst snd blobs disk].
  unfold download_file. cbn [blobs disk]. rewrite (find_one_put_fresh _ _ _ Hn). cbn.
  rewrite String.eqb_refl. auto.
Qed.

(** Errors of the archive: [upload_file] on a missing local file
    raises and changes nothing, and [download_file] of a name that is
    not archived raises nothing and writes nothing. *)
Theorem archive_errors (w : world B) filepath filename out_path :
  (lookup filepath (disk w) = None -> upload_file filepath w = (w, Err FileMissing)) /\
  (find_one (blobs w) filename = None -> download_file filename out_path w = (w, Ok tt)).
Proof.
  split; intros E; [unfold upload_file | unfold download_file]; rewrite E; reflexivity.
Qed.
End Theorems.

Section Reachable.
Context {R : Rounding} {S : Sqrt} {SD : Classification.Seeding} {RS : Resampler}.

End Reachable.

(** C20: With GridFS, uploading a file again does not replace the
    archived version: [fs.put] adds a second document of the same name
    and [find_one] keeps returning the first, so [download_file] gives
    back the content of the first upload. *)
Theorem gridfs_reupload_stale (w : world (list document)) filepath out_path old f :
  find_one (blobs w) filepath = Some old -> lookup filepath (disk w) = Some f ->
  lookup out_path (disk (fst (download_file filepath out_path (fst (upload_file filepath w))))) = Some old.
Proof.
  intros Hold Hf. unfold upload_file. rewrite Hf. unfold download_file. cbn [fst disk blobs].
  cbn in Hold |- *. destruct (find _ (blobs w)) eqn:F; [| discriminate].
  rewrite (find_app_some _ _ _ _ F). cbn in *. rewrite String.eqb_refl. exact Hold.
Qed.

(** ** Witnesses *)

Definition archive_file : string := "data/output/urban_areas_2021.tif".
Definition v1 : file := Blob.
Definition v2 : file := Shapefile.

Definition w_fresh : world (list document) := mk_world [(archive_file, v1)] [].
Definition w_archived : world (list document) := mk_world [(archive_file, v2)] [mk_document archive_file v1].

Lemma upload_download_roundtrip_witness :
  lookup archive_file (disk w_fresh) = Some v1 /\ find_one (blobs w_fresh) archive_file = None /\
  let w1 := fst (upload_file archive_file w_fresh) in
  snd (upload_file archive_file w_fresh) = Ok tt /\
  snd (download_file archive_file "copy.tif" w1) = Ok tt /\
  lookup "copy.tif" (disk (fst (download_file archive_file "copy.tif" w1))) = Some v1.
Proof.
  split; [reflexivity | split; [reflexivity |]].
  apply upload_download_roundtrip; reflexivity.
Defined.

#[local] Existing Instance Classification.first_k_seeding.



Lemma gridfs_reupload_stale_witness :
  find_one (blobs w_archived) archive_file = Some v1 /\ lookup archive_file (disk w_archived) = Some v2 /\
  lookup "copy.tif" (disk (fst (download_file archive_file "copy.tif" (fst (upload_file archive_file w_archived))))) = Some v1.
Proof.
  split; [reflexivity | split; [reflexivity |]]. apply gridfs_reupload_stale with (f := v2); reflexivity.
Defined.

End GridFS.
